(** * kthoom: the Book loading / binding orchestrator (code/book.js)

    A shallow embedding of class [Book]: its fields, its synchronous
    methods, and the event loop formed by its asynchronous loaders, the
    binding pipeline [#startBookBinding] and the listeners it installs.

    JavaScript values are embedded as follows.
    - An [ArrayBuffer] is the list of its bytes; [byteLength] is [length].
    - [null] / [undefined] in a field is [None].
    - A thrown value is a constructor of [thrown]; the string the source
      throws is given by [message].
    - A number that reaches [getPage] is a [js_number]: every IEEE double
      is a rational, NaN or an infinity, and [getPage] only compares its
      argument and uses it as a property key, so no rounding is involved.
    - An [async] function becomes a handler per suspension point; promise
      reactions are kept in FIFO queues as the language prescribes. *)

From Stdlib Require Import ZArith QArith Lia.
From Stdlib.Strings Require Import Byte.
From stdpp Require Import base option list gmap strings.

Open Scope string_scope.
Open Scope list_scope.
Open Scope Z_scope.

(** ** Thrown values and completions *)

Inductive loader_kind := ViaXhr | ViaFetch | ViaFile | ViaArrayBuffer | ViaBookPump.

Inductive thrown :=
| InvalidName
| NoBookBinder
| UnknownSource
| NoSource
| AlreadyLoading (via : loader_kind)
| UriNotSet
| RequestNotSet
| UriWasSet (via : loader_kind)
| NoFileNorHandle
| NoFirstChunk
| AlreadyBinding
| TypeError
| RangeError
| External (cause : string).

(** The literal thrown by the source. *)
Definition message (e : thrown) : string :=
  match e with
  | InvalidName => "Book name was invalid in constructor."
  | NoBookBinder => "Cannot call getMIMEType() without a BookBinder"
  | UnknownSource => "Unknown type of book source"
  | NoSource => "Could not load Book: no URI or File or FileHandle"
  | AlreadyLoading ViaXhr =>
      "Cannot try to load via XHR when the Book is already loading or loaded"
  | AlreadyLoading ViaFetch =>
      "Cannot try to load via Fetch when the Book is already loading or loaded"
  | AlreadyLoading ViaFile | AlreadyLoading ViaArrayBuffer =>
      "Cannot try to load via File when the Book is already loading or loaded"
  | AlreadyLoading ViaBookPump =>
      "Cannot try to load via BookPump when the Book is already loading or loaded"
  | UriNotSet => "URI for book was not set from loadFromXhr()"
  | RequestNotSet => "Request for book was not set in loadFromFetch()"
  | UriWasSet ViaArrayBuffer => "URI for book was set in loadFromArrayBuffer()"
  | UriWasSet ViaBookPump => "URI for book was set in loadFromBookPump()"
  | UriWasSet _ => "URI for book was set in loadFromFile()"
  | NoFileNorHandle => "Neither file nor fileHandle was set inside Book constructor."
  | NoFirstChunk => "Could not get one chunk from fetch()"
  | AlreadyBinding => "Called startBookBinding() when we already started binding!"
  | TypeError => "TypeError"
  | RangeError => "RangeError"
  | External cause => cause
  end.

(** The error taxonomy the specification uses for these values. *)
Inductive error_class :=
| InvalidStateError
| SourceMismatchError
| NotBoundError
| DoubleBindError
| ExternalError
| RuntimeError.

Definition classify (e : thrown) : error_class :=
  match e with
  | AlreadyLoading _ => InvalidStateError
  | NoSource | UnknownSource | UriNotSet | RequestNotSet | UriWasSet _
  | NoFileNorHandle => SourceMismatchError
  | NoBookBinder => NotBoundError
  | AlreadyBinding => DoubleBindError
  | External _ | NoFirstChunk => ExternalError
  | InvalidName | TypeError | RangeError => RuntimeError
  end.

Inductive completion (A : Type) : Type :=
| Normal (a : A)
| Throw (e : thrown).
Arguments Normal {A} a.
Arguments Throw {A} e.

#[export] Instance completion_ret : MRet completion := fun A a => Normal a.

#[export] Instance completion_bind : MBind completion := fun A B k c =>
  match c with
  | Normal a => k a
  | Throw e => Throw e
  end.

(** ** Numbers as [getPage] sees them *)

Inductive js_number :=
| JsNum (q : Q)
| JsNaN
| JsInfinity (negative : bool).

Definition js_of_Z (z : Z) : js_number := JsNum (inject_Z z).

(** [i < 0] *)
Definition js_lt_zero (i : js_number) : bool :=
  match i with
  | JsNum q => Qnum q <? 0
  | JsNaN => false
  | JsInfinity negative => negative
  end.

(** [i >= n] for an integral [n] *)
Definition js_ge (i : js_number) (n : Z) : bool :=
  match i with
  | JsNum q => Qle_bool (inject_Z n) q
  | JsNaN => false
  | JsInfinity negative => negb negative
  end.

(** The array index a number denotes when used as a property key: only a
    non-negative integer is one. *)
Definition js_array_index (i : js_number) : option nat :=
  match i with
  | JsNum q =>
      if (0 <=? Qnum q) && (Qnum q mod Zpos (Qden q) =? 0)
      then Some (Z.to_nat (Qnum q / Zpos (Qden q)))
      else None
  | _ => None
  end.

(** ** ArrayBuffer and Uint8Array *)

Definition ArrayBuffer := list byte.

Definition byteLength (ab : ArrayBuffer) : nat := length ab.

(** [new Uint8Array(n)]: a fresh zero-filled buffer of [n] bytes. *)
Definition Uint8Array_new (n : nat) : ArrayBuffer := replicate n x00.

(** [target.set(source, offset)]; a source that does not fit raises. *)
Definition Uint8Array_set (target source : ArrayBuffer) (offset : nat)
  : completion ArrayBuffer :=
  if decide (offset + length source ≤ length target)%nat
  then Normal (take offset target ++ source
                 ++ drop (offset + length source) target)
  else Throw RangeError.

(** ** Collaborators *)

Record Request := { url : string }.
Record File := { file_name : string }.
Record FileSystemFileHandle := { handle_name : string }.

(** The constructor's second argument [uriRequestOrFileHandle]. *)
Inductive js_source :=
| SrcUndefined
| SrcString (s : string)
| SrcRequest (r : Request)
| SrcFile (f : File)
| SrcFileHandle (h : FileSystemFileHandle).

Definition truthy_string (o : option string) : bool :=
  match o with
  | Some s => negb (String.eqb s "")
  | None => false
  end.

Definition truthy_source (v : js_source) : bool :=
  match v with
  | SrcUndefined => false
  | SrcString s => negb (String.eqb s "")
  | _ => true
  end.

Definition Page := nat.

Definition BookType := string.

(** Modelled from the spec: [BookMetadata] of metadata/book-metadata.js is
    not among the sources.  The specification describes it as a
    replaceable structured record, typed by the Binder's document kind and
    empty when created by [createEmptyMetadata]. *)
Record BookMetadata := {
  md_bookType : BookType;
  md_entries : list (string * string)
}.

Definition createEmptyMetadata (t : BookType) : BookMetadata :=
  {| md_bookType := t; md_entries := [] |}.

(** Modelled from the spec: [BookBinder] of book-binder.js is not among the
    sources.  Its surface is the Binder contract: synchronous queries, an
    [appendBytes] that feeds one more chunk after the initial bytes, and
    [start].  [binder_fed] is what the Binder has observed: the initial
    bytes given to the factory followed by every appended chunk, in the
    order of the calls. *)
Record BookBinder := {
  binder_name : string;
  binder_fed : list ArrayBuffer;
  binder_expectedSize : option Z;
  binder_started : bool;
  binder_bookType : BookType;
  binder_mimeType : string;
  binder_loadingPercentage : Q;
  binder_unarchivingPercentage : Q;
  binder_layoutPercentage : Q
}.

Definition binder_appendBytes (ab : ArrayBuffer) (bb : BookBinder) : BookBinder :=
  {| binder_name := binder_name bb;
     binder_fed := binder_fed bb ++ [ab];
     binder_expectedSize := binder_expectedSize bb;
     binder_started := binder_started bb;
     binder_bookType := binder_bookType bb;
     binder_mimeType := binder_mimeType bb;
     binder_loadingPercentage := binder_loadingPercentage bb;
     binder_unarchivingPercentage := binder_unarchivingPercentage bb;
     binder_layoutPercentage := binder_layoutPercentage bb |}.

(** [appendBytes] called with each chunk in turn. *)
Definition binder_feed (bb : BookBinder) (chunks : list ArrayBuffer) : BookBinder :=
  foldl (fun bb ab => binder_appendBytes ab bb) bb chunks.

Definition binder_setNewExpectedSize (total : Z) (bb : BookBinder) : BookBinder :=
  {| binder_name := binder_name bb;
     binder_fed := binder_fed bb;
     binder_expectedSize := Some total;
     binder_started := binder_started bb;
     binder_bookType := binder_bookType bb;
     binder_mimeType := binder_mimeType bb;
     binder_loadingPercentage := binder_loadingPercentage bb;
     binder_unarchivingPercentage := binder_unarchivingPercentage bb;
     binder_layoutPercentage := binder_layoutPercentage bb |}.

Definition binder_start (bb : BookBinder) : BookBinder :=
  {| binder_name := binder_name bb;
     binder_fed := binder_fed bb;
     binder_expectedSize := binder_expectedSize bb;
     binder_started := true;
     binder_bookType := binder_bookType bb;
     binder_mimeType := binder_mimeType bb;
     binder_loadingPercentage := binder_loadingPercentage bb;
     binder_unarchivingPercentage := binder_unarchivingPercentage bb;
     binder_layoutPercentage := binder_layoutPercentage bb |}.

(** What the environment decides when the factory resolves: the answers
    the new Binder gives to the synchronous queries. *)
Record binder_answers := {
  ans_bookType : BookType;
  ans_mimeType : string;
  ans_loadingPercentage : Q;
  ans_unarchivingPercentage : Q;
  ans_layoutPercentage : Q
}.

(** [createBookBinderAsync(name, ab, expectedSize)], once resolved. *)
Definition createBookBinder (nm : string) (ab : ArrayBuffer)
    (size : option Z) (a : binder_answers) : BookBinder :=
  {| binder_name := nm;
     binder_fed := [ab];
     binder_expectedSize := size;
     binder_started := false;
     binder_bookType := ans_bookType a;
     binder_mimeType := ans_mimeType a;
     binder_loadingPercentage := ans_loadingPercentage a;
     binder_unarchivingPercentage := ans_unarchivingPercentage a;
     binder_layoutPercentage := ans_layoutPercentage a |}.

(** ** The Book object *)

(** A metadata object is referred to by its address in the store of
    metadata records, so that aliasing is visible. *)
Abbreviation metadata_ref := nat (only parsing).

Record Book := mkBook {
  name : string;
  request : option Request;
  uri : option string;
  file : option File;
  fileHandle : js_source;
  arrayBuffer : option ArrayBuffer;
  bookBinder : option BookBinder;
  bookMetadata : option metadata_ref;
  expectedSize : Z;
  finishedBinding : bool;
  finishedLoading : bool;
  needsLoading : bool;
  pages : list Page;
  startedBinding : bool;
  totalPages : Z
}.

Definition set_arrayBuffer (v : option ArrayBuffer) (b : Book) : Book :=
  mkBook (name b) (request b) (uri b) (file b) (fileHandle b) v (bookBinder b)
    (bookMetadata b) (expectedSize b) (finishedBinding b) (finishedLoading b)
    (needsLoading b) (pages b) (startedBinding b) (totalPages b).

Definition set_bookBinder (v : option BookBinder) (b : Book) : Book :=
  mkBook (name b) (request b) (uri b) (file b) (fileHandle b) (arrayBuffer b) v
    (bookMetadata b) (expectedSize b) (finishedBinding b) (finishedLoading b)
    (needsLoading b) (pages b) (startedBinding b) (totalPages b).

Definition set_bookMetadata (v : option metadata_ref) (b : Book) : Book :=
  mkBook (name b) (request b) (uri b) (file b) (fileHandle b) (arrayBuffer b)
    (bookBinder b) v (expectedSize b) (finishedBinding b) (finishedLoading b)
    (needsLoading b) (pages b) (startedBinding b) (totalPages b).

Definition set_expectedSize (v : Z) (b : Book) : Book :=
  mkBook (name b) (request b) (uri b) (file b) (fileHandle b) (arrayBuffer b)
    (bookBinder b) (bookMetadata b) v (finishedBinding b) (finishedLoading b)
    (needsLoading b) (pages b) (startedBinding b) (totalPages b).

Definition set_finishedBinding (v : bool) (b : Book) : Book :=
  mkBook (name b) (request b) (uri b) (file b) (fileHandle b) (arrayBuffer b)
    (bookBinder b) (bookMetadata b) (expectedSize b) v (finishedLoading b)
    (needsLoading b) (pages b) (startedBinding b) (totalPages b).

Definition set_finishedLoading (v : bool) (b : Book) : Book :=
  mkBook (name b) (request b) (uri b) (file b) (fileHandle b) (arrayBuffer b)
    (bookBinder b) (bookMetadata b) (expectedSize b) (finishedBinding b) v
    (needsLoading b) (pages b) (startedBinding b) (totalPages b).

Definition set_needsLoading (v : bool) (b : Book) : Book :=
  mkBook (name b) (request b) (uri b) (file b) (fileHandle b) (arrayBuffer b)
    (bookBinder b) (bookMetadata b) (expectedSize b) (finishedBinding b)
    (finishedLoading b) v (pages b) (startedBinding b) (totalPages b).

Definition set_pages (v : list Page) (b : Book) : Book :=
  mkBook (name b) (request b) (uri b) (file b) (fileHandle b) (arrayBuffer b)
    (bookBinder b) (bookMetadata b) (expectedSize b) (finishedBinding b)
    (finishedLoading b) (needsLoading b) v (startedBinding b) (totalPages b).

Definition set_startedBinding (v : bool) (b : Book) : Book :=
  mkBook (name b) (request b) (uri b) (file b) (fileHandle b) (arrayBuffer b)
    (bookBinder b) (bookMetadata b) (expectedSize b) (finishedBinding b)
    (finishedLoading b) (needsLoading b) (pages b) v (totalPages b).

Definition set_totalPages (v : Z) (b : Book) : Book :=
  mkBook (name b) (request b) (uri b) (file b) (fileHandle b) (arrayBuffer b)
    (bookBinder b) (bookMetadata b) (expectedSize b) (finishedBinding b)
    (finishedLoading b) (needsLoading b) (pages b) (startedBinding b) v.

(** [constructor(name, uriRequestOrFileHandle = undefined, bookContainer,
    expectedSize = -1)].  The container is only stored and returned, so it
    is left out.  [Book_fields] is the object the constructor builds when
    it does not throw. *)
Definition Book_fields (nm : string) (uriRequestOrFileHandle : js_source)
    (size : Z) : Book :=
  let uri_ := match uriRequestOrFileHandle with
              | SrcString s => Some s
              | _ => None
              end in
  let request_ := match uriRequestOrFileHandle with
                  | SrcRequest r => Some r
                  | _ => None
                  end in
  let file_ := match uriRequestOrFileHandle with
               | SrcFile f => Some f
               | _ => None
               end in
  let fileHandle_ :=
    if negb (truthy_string uri_) && negb (bool_decide (is_Some request_))
       && negb (bool_decide (is_Some file_))
    then uriRequestOrFileHandle
    else SrcUndefined in
  {| name := nm;
     request := request_;
     uri := uri_;
     file := file_;
     fileHandle := fileHandle_;
     arrayBuffer := None;
     bookBinder := None;
     bookMetadata := None;
     expectedSize := size;
     finishedBinding := false;
     finishedLoading := false;
     needsLoading := true;
     pages := [];
     startedBinding := false;
     totalPages := 0 |}.

Definition Book_constructor (nm : string) (uriRequestOrFileHandle : js_source)
    (size : Z) : completion Book :=
  if String.eqb nm "" then Throw InvalidName
  else Normal (Book_fields nm uriRequestOrFileHandle size).

(** [appendBytes(appendBuffer)] *)
Definition appendBytes (appendBuffer : ArrayBuffer) (b : Book) : completion Book :=
  match arrayBuffer b with
  | None => Throw TypeError
  | Some old =>
      let newBuffer := Uint8Array_new (byteLength old + byteLength appendBuffer) in
      newBuffer1 ← Uint8Array_set newBuffer old 0;
      newBuffer2 ← Uint8Array_set newBuffer1 appendBuffer (byteLength old);
      Normal (set_arrayBuffer (Some newBuffer2) b)
  end.

Definition getArrayBuffer (b : Book) : option ArrayBuffer := arrayBuffer b.

Definition getMIMEType (b : Book) : completion string :=
  match bookBinder b with
  | None => Throw NoBookBinder
  | Some bb => Normal (binder_mimeType bb)
  end.

Definition getLoadingPercentage (b : Book) : completion Q :=
  match bookBinder b with
  | None => Normal 0%Q
  | Some bb => Normal (binder_loadingPercentage bb)
  end.

Definition getUnarchivingPercentage (b : Book) : completion Q :=
  match bookBinder b with
  | None => Normal 0%Q
  | Some bb => Normal (binder_unarchivingPercentage bb)
  end.

Definition getLayoutPercentage (b : Book) : completion Q :=
  match bookBinder b with
  | None => Normal 0%Q
  | Some bb => Normal (binder_layoutPercentage bb)
  end.

Definition getNumberOfPages (b : Book) : Z := totalPages b.

Definition getNumberOfPagesReady (b : Book) : nat := length (pages b).

(** What [getPage] can return. *)
Inductive page_result :=
| JNull
| JUndefined
| JPage (p : Page).

(** [this.#pages[i]] *)
Definition pages_at (ps : list Page) (i : js_number) : page_result :=
  match js_array_index i with
  | Some n => match ps !! n with
              | Some p => JPage p
              | None => JUndefined
              end
  | None => JUndefined
  end.

(** [this.#totalPages || this.#pages.length] *)
Definition numPages (b : Book) : Z :=
  if totalPages b =? 0 then Z.of_nat (length (pages b)) else totalPages b.

Definition getPage (i : js_number) (b : Book) : completion page_result :=
  if js_lt_zero i || js_ge i (numPages b) then Normal JNull
  else Normal (pages_at (pages b) i).

Definition isFinishedBinding (b : Book) : bool := finishedBinding b.

Definition isFinishedLoading (b : Book) : bool := finishedLoading b.

(** ** The event loop around a Book *)

(** Events the Book dispatches to its subscribers (book-events.js). *)
Inductive BookEvent :=
| BookLoadingStartedEvent
| BookLoadingCompleteEvent
| BookProgressEvent (totalPages : option Z) (message : option string)
| BookPageExtractedEvent (page : Page) (pageNum : Z)
| BookBindingCompleteEvent.

(** Events of the BookBinder the Book listens to. *)
Inductive binder_event :=
| BINDING_COMPLETE
| METADATA_XML_EXTRACTED (bookMetadata : metadata_ref)
| PAGE_EXTRACTED (page : Page) (pageNum : Z)
| PROGRESS (totalPages : option Z) (message : option string).

(** Events of a BookPump (book-pump.js). *)
Inductive pump_event :=
| BOOKPUMP_DATA_RECEIVED (ab : ArrayBuffer) (totalExpectedSize : option Z)
| BOOKPUMP_END
| BOOKPUMP_ERROR (err : string).

Definition evt_ab (evt : pump_event) : option ArrayBuffer :=
  match evt with
  | BOOKPUMP_DATA_RECEIVED ab _ => Some ab
  | _ => None
  end.

Definition evt_totalExpectedSize (evt : pump_event) : option Z :=
  match evt with
  | BOOKPUMP_DATA_RECEIVED _ size => size
  | _ => None
  end.

Inductive promise :=
| NotCreated
| Pending
| Fulfilled
| RejectedWith (e : thrown).

(** Where the one run of [#startBookBinding] stands.  Its promise is
    pending in the two awaiting states, fulfilled in [Bound] and rejected
    in [BindingFailed]. *)
Inductive pipeline_state :=
| NotBinding
| AwaitingBinder (fileNameOrUri : string) (ab : ArrayBuffer)
    (totalExpectedSize : option Z)
| AwaitingStart (bb : BookBinder)
| Bound
| BindingFailed (e : thrown).

(** The promise a call of [#startBookBinding] returns: that of the
    pipeline, or one rejected on the spot by the guard. *)
Inductive binding_promise :=
| ThePipeline
| AlreadyRejected (e : thrown).

(** Continuations waiting for the binding promise. *)
Inductive reaction :=
| ResumeFetch (chunkByChunk : bool)
| PumpCallback (evt : pump_event).

Inductive microtask :=
| OnFulfilled (r : reaction)
| OnRejected (r : reaction) (e : thrown).

(** The suspension point the running loader is at. *)
Inductive loader_state :=
| NoLoader
| XhrSent
| FetchAwaitingResponse
| FetchAwaitingFirstChunk
| FetchAwaitingBinding (chunkByChunk : bool)
| FetchAwaitingChunk
| FetchAwaitingArrayBuffer
| FileAwaitingHandle
| FileReading (f : File)
| PumpListening (bookUri : string) (bookBinderPromise : option binding_promise)
| PumpDetached
| LoaderDone.

Record State := mkState {
  book : Book;
  store : gmap nat BookMetadata;
  dispatched : list BookEvent;
  pipeline : pipeline_state;
  listening : bool;
  reactions : list reaction;
  microtasks : list microtask;
  loader : loader_state;
  loadPromise : promise;
  fetchMode : option string
}.

Definition set_book (v : Book) (s : State) : State :=
  mkState v (store s) (dispatched s) (pipeline s) (listening s) (reactions s)
    (microtasks s) (loader s) (loadPromise s) (fetchMode s).

Definition set_store (v : gmap nat BookMetadata) (s : State) : State :=
  mkState (book s) v (dispatched s) (pipeline s) (listening s) (reactions s)
    (microtasks s) (loader s) (loadPromise s) (fetchMode s).

Definition set_dispatched (v : list BookEvent) (s : State) : State :=
  mkState (book s) (store s) v (pipeline s) (listening s) (reactions s)
    (microtasks s) (loader s) (loadPromise s) (fetchMode s).

Definition set_pipeline (v : pipeline_state) (s : State) : State :=
  mkState (book s) (store s) (dispatched s) v (listening s) (reactions s)
    (microtasks s) (loader s) (loadPromise s) (fetchMode s).

Definition set_listening (v : bool) (s : State) : State :=
  mkState (book s) (store s) (dispatched s) (pipeline s) v (reactions s)
    (microtasks s) (loader s) (loadPromise s) (fetchMode s).

Definition set_reactions (v : list reaction) (s : State) : State :=
  mkState (book s) (store s) (dispatched s) (pipeline s) (listening s) v
    (microtasks s) (loader s) (loadPromise s) (fetchMode s).

Definition set_microtasks (v : list microtask) (s : State) : State :=
  mkState (book s) (store s) (dispatched s) (pipeline s) (listening s)
    (reactions s) v (loader s) (loadPromise s) (fetchMode s).

Definition set_loader (v : loader_state) (s : State) : State :=
  mkState (book s) (store s) (dispatched s) (pipeline s) (listening s)
    (reactions s) (microtasks s) v (loadPromise s) (fetchMode s).

Definition set_loadPromise (v : promise) (s : State) : State :=
  mkState (book s) (store s) (dispatched s) (pipeline s) (listening s)
    (reactions s) (microtasks s) (loader s) v (fetchMode s).

Definition upd_book (f : Book -> Book) (s : State) : State :=
  set_book (f (book s)) s.

(** A Book that was just constructed, with [Params['fetchMode']]. *)
Definition new_state (b : Book) (mode : option string) : State :=
  {| book := b;
     store := ∅;
     dispatched := [];
     pipeline := NotBinding;
     listening := false;
     reactions := [];
     microtasks := [];
     loader := NoLoader;
     loadPromise := NotCreated;
     fetchMode := mode |}.

Definition dispatchEvent (e : BookEvent) (s : State) : State :=
  set_dispatched (dispatched s ++ [e]) s.

(** [resolve(this)] and [reject(err)] settle the load promise once. *)
Definition resolve_load (s : State) : State :=
  match loadPromise s with
  | Pending => set_loadPromise Fulfilled s
  | _ => s
  end.

Definition reject_load (e : thrown) (s : State) : State :=
  match loadPromise s with
  | Pending => set_loadPromise (RejectedWith e) s
  | _ => s
  end.

Definition enqueue (m : microtask) (s : State) : State :=
  set_microtasks (microtasks s ++ [m]) s.

(** [p.then(r)] / [await p] on the binding promise. *)
Definition then_ (p : binding_promise) (r : reaction) (s : State) : State :=
  match p with
  | AlreadyRejected e => enqueue (OnRejected r e) s
  | ThePipeline =>
      match pipeline s with
      | Bound => enqueue (OnFulfilled r) s
      | BindingFailed e => enqueue (OnRejected r e) s
      | _ => set_reactions (reactions s ++ [r]) s
      end
  end.

Definition fulfil_pipeline (s : State) : State :=
  set_reactions []
    (set_microtasks (microtasks s ++ map OnFulfilled (reactions s))
       (set_pipeline Bound s)).

Definition reject_pipeline (e : thrown) (s : State) : State :=
  set_reactions []
    (set_microtasks (microtasks s ++ map (fun r => OnRejected r e) (reactions s))
       (set_pipeline (BindingFailed e) s)).

(** ** The binding pipeline *)

(** [#startBookBinding(fileNameOrUri, ab, totalExpectedSize)] up to its
    first [await].  An [ab] that is [undefined] makes [ab.byteLength]
    raise inside the async function, which rejects its promise. *)
Definition startBookBinding (fileNameOrUri : string) (ab : option ArrayBuffer)
    (totalExpectedSize : option Z) (s : State) : binding_promise * State :=
  if startedBinding (book s) then (AlreadyRejected AlreadyBinding, s)
  else
    let s1 := upd_book (set_startedBinding true) s in
    match ab with
    | None => (ThePipeline, set_pipeline (BindingFailed TypeError) s1)
    | Some ab =>
        let copiedArr := Uint8Array_new (byteLength ab) in
        match Uint8Array_set copiedArr ab 0 with
        | Throw e => (ThePipeline, set_pipeline (BindingFailed e) s1)
        | Normal copied =>
            (ThePipeline,
             set_pipeline (AwaitingBinder fileNameOrUri ab totalExpectedSize)
               (upd_book (set_arrayBuffer (Some copied)) s1))
        end
    end.

(** [createBookBinderAsync] resolved: metadata is initialised, the four
    listeners are registered and [bookBinder.start()] is called. *)
Definition on_binder_created (a : binder_answers) (s : State) : State :=
  match pipeline s with
  | AwaitingBinder nm ab size =>
      let bb := createBookBinder nm ab size a in
      let r := fresh (dom (store s)) in
      let m := createEmptyMetadata (binder_bookType bb) in
      let s1 := set_store (<[r := m]> (store s)) s in
      let s2 := upd_book (set_bookMetadata (Some r)) s1 in
      set_pipeline (AwaitingStart (binder_start bb)) (set_listening true s2)
  | _ => s
  end.

Definition on_binder_creation_failed (err : string) (s : State) : State :=
  match pipeline s with
  | AwaitingBinder _ _ _ => reject_pipeline (External err) s
  | _ => s
  end.

(** [bookBinder.start()] resolved: [this.#bookBinder = bookBinder]. *)
Definition on_binder_started (s : State) : State :=
  match pipeline s with
  | AwaitingStart bb => fulfil_pipeline (upd_book (set_bookBinder (Some bb)) s)
  | _ => s
  end.

Definition on_binder_start_failed (err : string) (s : State) : State :=
  match pipeline s with
  | AwaitingStart _ => reject_pipeline (External err) s
  | _ => s
  end.

(** The four listeners registered on the BookBinder. *)
Definition on_binder_event (evt : binder_event) (s : State) : State :=
  if listening s then
    match evt with
    | BINDING_COMPLETE =>
        dispatchEvent BookBindingCompleteEvent
          (upd_book (set_finishedBinding true) s)
    | METADATA_XML_EXTRACTED m => upd_book (set_bookMetadata (Some m)) s
    | PAGE_EXTRACTED page pageNum =>
        dispatchEvent (BookPageExtractedEvent page pageNum)
          (upd_book (fun b => set_pages (pages b ++ [page]) b) s)
    | PROGRESS total msg =>
        let s1 := match total with
                  | Some t => if t =? 0 then s else upd_book (set_totalPages t) s
                  | None => s
                  end in
        dispatchEvent (BookProgressEvent total msg) s1
    end
  else s.

(** ** The loaders *)

(** How a call of a loader ends for its caller: a promise is returned
    (the load goes on), the call throws, or the promise it returns is
    rejected from the start. *)
Inductive outcome :=
| Started
| Threw (e : thrown)
| Rejected (e : thrown).

Definition chunkByChunk (s : State) : bool :=
  match fetchMode s with
  | Some m => String.eqb m "chunkByChunk"
  | None => false
  end.

(** The closing statements shared by the loaders:
    [this.#finishedLoading = true], the loading-complete event, and for
    those that hold a [resolve], the resolution of the load promise. *)
Definition mark_loaded (s : State) : State :=
  dispatchEvent BookLoadingCompleteEvent (upd_book (set_finishedLoading true) s).

Definition finish_loading (s : State) : State := resolve_load (mark_loaded s).

(** [loadFromXhr(expectedSize, headerMap)]; neither parameter is read
    by a statement that changes the Book. *)
Definition loadFromXhr (s : State) : outcome * State :=
  if negb (needsLoading (book s)) then (Threw (AlreadyLoading ViaXhr), s)
  else if negb (truthy_string (uri (book s))) then (Threw UriNotSet, s)
  else
    (Started,
     set_loadPromise Pending
       (set_loader XhrSent
          (dispatchEvent BookLoadingStartedEvent
             (upd_book (set_needsLoading false) s)))).

Definition on_xhr_progress (loaded total : Z) (s : State) : State :=
  match loader s with
  | XhrSent =>
      match bookBinder (book s) with
      | Some bb =>
          let s1 :=
            if (expectedSize (book s) =? -1) && negb (total =? 0)
            then upd_book (fun b =>
                   set_bookBinder (Some (binder_setNewExpectedSize total bb))
                     (set_expectedSize total b)) s
            else s in
          dispatchEvent
            (BookProgressEvent (Some (Z.of_nat (length (pages (book s))))) None) s1
      | None => s
      end
  | _ => s
  end.

Definition on_xhr_load (response : ArrayBuffer) (s : State) : State :=
  match loader s with
  | XhrSent =>
      let nm := default "" (uri (book s)) in
      let '(_, s1) :=
        startBookBinding nm (Some response) (Some (expectedSize (book s))) s in
      set_loader LoaderDone (finish_loading s1)
  | _ => s
  end.

Definition on_xhr_error (err : string) (s : State) : State :=
  match loader s with
  | XhrSent => set_loader LoaderDone (reject_load (External err) s)
  | _ => s
  end.

(** [loadFromFetch()] up to [await fetch(this.#request)]. *)
Definition loadFromFetch (s : State) : outcome * State :=
  if negb (needsLoading (book s)) then (Rejected (AlreadyLoading ViaFetch), s)
  else if negb (bool_decide (is_Some (request (book s)))) then (Rejected RequestNotSet, s)
  else
    (Started,
     set_loadPromise Pending
       (set_loader FetchAwaitingResponse
          (dispatchEvent BookLoadingStartedEvent
             (upd_book (set_needsLoading false) s)))).

Definition on_fetch_response (s : State) : State :=
  match loader s with
  | FetchAwaitingResponse =>
      if chunkByChunk s then set_loader FetchAwaitingFirstChunk s
      else set_loader FetchAwaitingArrayBuffer s
  | _ => s
  end.

(** [fetch], [reader.read()] or [response.arrayBuffer()] rejected. *)
Definition on_fetch_failed (err : string) (s : State) : State :=
  match loader s with
  | FetchAwaitingResponse | FetchAwaitingFirstChunk | FetchAwaitingChunk
  | FetchAwaitingArrayBuffer =>
      set_loader LoaderDone (reject_load (External err) s)
  | _ => s
  end.

(** [getOneChunk()] returned: [None] when the reader is done. *)
Definition on_reader_read (chunk : option ArrayBuffer) (s : State) : State :=
  match loader s with
  | FetchAwaitingFirstChunk =>
      match chunk with
      | None => set_loader LoaderDone (reject_load NoFirstChunk s)
      | Some firstChunk =>
          let '(p, s1) :=
            startBookBinding (name (book s)) (Some firstChunk)
              (Some (expectedSize (book s))) s in
          then_ p (ResumeFetch true) (set_loader (FetchAwaitingBinding true) s1)
      end
  | FetchAwaitingChunk =>
      match chunk with
      | None => set_loader LoaderDone (finish_loading s)
      | Some nextChunk =>
          match appendBytes nextChunk (book s) with
          | Throw e => set_loader LoaderDone (reject_load e s)
          | Normal b' =>
              match bookBinder b' with
              | None => set_loader LoaderDone (reject_load TypeError (set_book b' s))
              | Some bb =>
                  set_book
                    (set_bookBinder (Some (binder_appendBytes nextChunk bb)) b') s
              end
          end
      end
  | _ => s
  end.

Definition on_response_arrayBuffer (ab : ArrayBuffer) (s : State) : State :=
  match loader s with
  | FetchAwaitingArrayBuffer =>
      let '(p, s1) :=
        startBookBinding (name (book s)) (Some ab)
          (Some (expectedSize (book s))) s in
      then_ p (ResumeFetch false) (set_loader (FetchAwaitingBinding false) s1)
  | _ => s
  end.

(** The rest of [loadFromFile()] once [file] is known. *)
Definition read_file (f : File) (s : State) : State :=
  set_loader (FileReading f) (dispatchEvent BookLoadingStartedEvent s).

Definition loadFromFile (s : State) : outcome * State :=
  if negb (needsLoading (book s)) then (Rejected (AlreadyLoading ViaFile), s)
  else if truthy_string (uri (book s)) then (Rejected (UriWasSet ViaFile), s)
  else if negb (bool_decide (is_Some (file (book s))))
          && negb (truthy_source (fileHandle (book s)))
  then (Rejected NoFileNorHandle, s)
  else
    let s1 := set_loadPromise Pending (upd_book (set_needsLoading false) s) in
    match file (book s) with
    | Some f => (Started, read_file f s1)
    | None => (Started, set_loader FileAwaitingHandle s1)
    end.

Definition on_handle_getFile (f : File) (s : State) : State :=
  match loader s with
  | FileAwaitingHandle => read_file f s
  | _ => s
  end.

Definition on_handle_getFile_failed (err : string) (s : State) : State :=
  match loader s with
  | FileAwaitingHandle => set_loader LoaderDone (reject_load (External err) s)
  | _ => s
  end.

Definition on_fileReader_load (result : ArrayBuffer) (s : State) : State :=
  match loader s with
  | FileReading f =>
      let '(_, s1) :=
        startBookBinding (file_name f) (Some result)
          (Some (Z.of_nat (byteLength result))) s in
      set_loader LoaderDone (finish_loading s1)
  | _ => s
  end.

(** [loadFromArrayBuffer(fileName, ab)] *)
Definition loadFromArrayBuffer (fileName : string) (ab : ArrayBuffer)
    (s : State) : outcome * State :=
  if negb (needsLoading (book s)) then (Threw (AlreadyLoading ViaArrayBuffer), s)
  else if truthy_string (uri (book s)) then (Threw (UriWasSet ViaArrayBuffer), s)
  else
    let s1 := dispatchEvent BookLoadingStartedEvent
                (upd_book (set_needsLoading false) s) in
    let '(_, s2) :=
      startBookBinding fileName (Some ab) (Some (Z.of_nat (byteLength ab))) s1 in
    (Started, set_loader LoaderDone (set_loadPromise Fulfilled (mark_loaded s2))).

(** [loadFromBookPump(bookUri, bookPump)] up to the registration of its
    listeners. *)
Definition loadFromBookPump (bookUri : string) (s : State) : outcome * State :=
  if negb (needsLoading (book s)) then (Threw (AlreadyLoading ViaBookPump), s)
  else if truthy_string (uri (book s)) then (Threw (UriWasSet ViaBookPump), s)
  else
    (Started,
     set_loadPromise Pending
       (set_loader (PumpListening bookUri None)
          (upd_book (set_needsLoading false) s))).

(** The body of the callback given to [bookBinderPromise.then]. *)
Definition pump_callback (evt : pump_event) (s : State) : State :=
  match evt with
  | BOOKPUMP_DATA_RECEIVED ab _ =>
      match bookBinder (book s) with
      | None => s
      | Some bb =>
          let s1 := upd_book (set_bookBinder (Some (binder_appendBytes ab bb))) s in
          match appendBytes ab (book s1) with
          | Normal b' => set_book b' s1
          | Throw _ => s1
          end
      end
  | BOOKPUMP_END =>
      let s1 := mark_loaded s in
      let s2 := match loader s1 with
                | PumpListening _ _ => set_loader PumpDetached s1
                | _ => s1
                end in
      resolve_load s2
  | BOOKPUMP_ERROR _ => s
  end.

(** [handleBookPumpEvents(evt)], the listener for data-received and end;
    [bookBinderPromise] is the variable of [loadFromBookPump] it closes
    over, kept in the loader state. *)
Definition handleBookPumpEvents (bookUri : string)
    (bookBinderPromise : option binding_promise) (evt : pump_event)
    (s : State) : State :=
  match bookBinderPromise with
  | None =>
      let '(p, s1) :=
        startBookBinding bookUri (evt_ab evt) (evt_totalExpectedSize evt) s in
      set_loader (PumpListening bookUri (Some p)) s1
  | Some p => then_ p (PumpCallback evt) s
  end.

(** An event of the BookPump reaches the listeners that are registered:
    the rejecting one for errors, [handleBookPumpEvents] for the rest. *)
Definition on_pump_event (evt : pump_event) (s : State) : State :=
  match evt with
  | BOOKPUMP_ERROR err =>
      match loader s with
      | PumpListening _ _ | PumpDetached => reject_load (External err) s
      | _ => s
      end
  | _ =>
      match loader s with
      | PumpListening bookUri bookBinderPromise =>
          handleBookPumpEvents bookUri bookBinderPromise evt s
      | _ => s
      end
  end.

(** [load()] *)
Definition rejected (r : outcome * State) : outcome * State :=
  match r with
  | (Threw e, s) => (Rejected e, s)
  | r => r
  end.

Definition load (s : State) : outcome * State :=
  if bool_decide (is_Some (request (book s))) then rejected (loadFromFetch s)
  else if truthy_string (uri (book s)) then rejected (loadFromXhr s)
  else if bool_decide (is_Some (file (book s)))
          || truthy_source (fileHandle (book s))
  then rejected (loadFromFile s)
  else (Rejected NoSource, s).

(** ** Metadata *)

(** Modelled from the spec: [BookMetadata.clone()] of
    metadata/book-metadata.js is not among the sources.  The specification
    has [setMetadata] store an independent deep copy: a new record with the
    contents of the original. *)
Definition BookMetadata_clone (metadata : metadata_ref)
    (st : gmap nat BookMetadata) : completion (nat * gmap nat BookMetadata) :=
  match st !! metadata with
  | None => Throw TypeError
  | Some m => let r := fresh (dom st) in Normal (r, <[r := m]> st)
  end.

Definition setMetadata (metadata : metadata_ref) (s : State) : completion State :=
  '(r, st) ← BookMetadata_clone metadata (store s);
  Normal (upd_book (set_bookMetadata (Some r)) (set_store st s)).

Definition getMetadata (b : Book) : option metadata_ref := bookMetadata b.

(** The record [getMetadata()] refers to, as its holder reads it. *)
Definition read_metadata (s : State) : option BookMetadata :=
  r ← getMetadata (book s); store s !! r.

(** Somebody holding a reference to a metadata record changes it. *)
Definition mutate_metadata (r : metadata_ref) (m : BookMetadata) (s : State)
  : State :=
  match store s !! r with
  | Some _ => set_store (<[r := m]> (store s)) s
  | None => s
  end.

(** ** Steps *)

Definition run_microtask (m : microtask) (s : State) : State :=
  match m with
  | OnFulfilled (ResumeFetch chunked) =>
      if chunked then set_loader FetchAwaitingChunk s
      else set_loader LoaderDone (finish_loading s)
  | OnFulfilled (PumpCallback evt) => pump_callback evt s
  | OnRejected (ResumeFetch _) e => set_loader LoaderDone (reject_load e s)
  | OnRejected (PumpCallback _) _ => s
  end.

(** Everything that can happen to a Book: a call of one of its methods,
    a completion of something it waits for, an event of a collaborator,
    or the next job of the microtask queue. *)
Inductive input :=
| CallLoad
| CallLoadFromXhr
| CallLoadFromFetch
| CallLoadFromFile
| CallLoadFromArrayBuffer (fileName : string) (ab : ArrayBuffer)
| CallLoadFromBookPump (bookUri : string)
| CallAppendBytes (appendBuffer : ArrayBuffer)
| CallSetMetadata (metadata : metadata_ref)
| XhrProgress (loaded total : Z)
| XhrLoad (response : ArrayBuffer)
| XhrError (err : string)
| FetchResponse
| FetchFailed (err : string)
| ReaderRead (chunk : option ArrayBuffer)
| ResponseArrayBuffer (ab : ArrayBuffer)
| HandleGetFile (f : File)
| HandleGetFileFailed (err : string)
| FileReaderLoad (result : ArrayBuffer)
| Pump (evt : pump_event)
| BinderCreated (a : binder_answers)
| BinderCreationFailed (err : string)
| BinderStarted
| BinderStartFailed (err : string)
| Binder (evt : binder_event)
| MutateMetadata (r : metadata_ref) (m : BookMetadata)
| Microtask.

Definition step (s : State) (i : input) : State :=
  match i with
  | CallLoad => snd (load s)
  | CallLoadFromXhr => snd (loadFromXhr s)
  | CallLoadFromFetch => snd (loadFromFetch s)
  | CallLoadFromFile => snd (loadFromFile s)
  | CallLoadFromArrayBuffer fileName ab => snd (loadFromArrayBuffer fileName ab s)
  | CallLoadFromBookPump bookUri => snd (loadFromBookPump bookUri s)
  | CallAppendBytes ab =>
      match appendBytes ab (book s) with
      | Normal b' => set_book b' s
      | Throw _ => s
      end
  | CallSetMetadata m =>
      match setMetadata m s with
      | Normal s' => s'
      | Throw _ => s
      end
  | XhrProgress loaded total => on_xhr_progress loaded total s
  | XhrLoad response => on_xhr_load response s
  | XhrError err => on_xhr_error err s
  | FetchResponse => on_fetch_response s
  | FetchFailed err => on_fetch_failed err s
  | ReaderRead chunk => on_reader_read chunk s
  | ResponseArrayBuffer ab => on_response_arrayBuffer ab s
  | HandleGetFile f => on_handle_getFile f s
  | HandleGetFileFailed err => on_handle_getFile_failed err s
  | FileReaderLoad result => on_fileReader_load result s
  | Pump evt => on_pump_event evt s
  | BinderCreated a => on_binder_created a s
  | BinderCreationFailed err => on_binder_creation_failed err s
  | BinderStarted => on_binder_started s
  | BinderStartFailed err => on_binder_start_failed err s
  | Binder evt => on_binder_event evt s
  | MutateMetadata r m => mutate_metadata r m s
  | Microtask =>
      match microtasks s with
      | [] => s
      | m :: rest => run_microtask m (set_microtasks rest s)
      end
  end.

Definition run (s : State) (ins : list input) : State := foldl step s ins.

(** ** Vocabulary of the properties *)

(** The kinds of source [load()] tells apart, in the order of its tests,
    and the one it cannot resolve: a Book with none of the four fields
    set, which only [loadFromArrayBuffer] and [loadFromBookPump] serve. *)
Inductive source_kind :=
| NetworkRequest
| NetworkUri
| LocalFile
| LocalFileHandle
| PushBound.

Definition has_kind (k : source_kind) (b : Book) : bool :=
  match k with
  | NetworkRequest => bool_decide (is_Some (request b))
  | NetworkUri => truthy_string (uri b)
  | LocalFile => bool_decide (is_Some (file b))
  | LocalFileHandle => truthy_source (fileHandle b)
  | PushBound =>
      negb (bool_decide (is_Some (request b))) && negb (truthy_string (uri b))
      && negb (bool_decide (is_Some (file b)))
      && negb (truthy_source (fileHandle b))
  end.

Definition all_kinds : list source_kind :=
  [NetworkRequest; NetworkUri; LocalFile; LocalFileHandle; PushBound].

Definition kinds_of (b : Book) : list source_kind :=
  filter (fun k => has_kind k b = true) all_kinds.

(** The source descriptor of a Book. *)
Definition source_of (b : Book)
  : string * option Request * option string * option File * js_source :=
  (name b, request b, uri b, file b, fileHandle b).

(** The four latches. *)
Definition flags (b : Book) : bool * bool * bool * bool :=
  (needsLoading b, startedBinding b, finishedLoading b, finishedBinding b).

(** The states a run goes through, and how often a flag changes on it. *)
Fixpoint states (s : State) (ins : list input) : list State :=
  match ins with
  | [] => [s]
  | i :: ins' => s :: states (step s i) ins'
  end.

Fixpoint changes (f : State -> bool) (l : list State) : nat :=
  match l with
  | s1 :: (s2 :: _) as tl =>
      ((if Bool.eqb (f s1) (f s2) then 0 else 1) + changes f tl)%nat
  | _ => 0%nat
  end.

(** A call of a loader failed, with an error of class [c]. *)
Definition failed_with (c : error_class) (r : outcome * State) : Prop :=
  match fst r with
  | Started => False
  | Threw e | Rejected e => classify e = c
  end.

(** [getPage] as it would be with the bound max(totalPages, pages.length). *)
Definition getPage_by_max (i : Z) (b : Book) : page_result :=
  if (0 <=? i) && (i <? Z.max (totalPages b) (Z.of_nat (length (pages b))))
  then pages_at (pages b) (js_of_Z i)
  else JNull.

(** [load()] finds one of the four sources it tests for. *)
Definition has_source (b : Book) : bool := negb (has_kind PushBound b).

(** Nothing of a load has happened yet. *)
Definition unloaded (s : State) : Prop :=
  arrayBuffer (book s) = None /\ loader s = NoLoader
  /\ pipeline s = NotBinding /\ microtasks s = [].

(** A loader call that went past its guards. *)
Definition starts (r : outcome * State) : Prop := fst r = Started.

(** Binding has started unless the pipeline is idle, and the Book holds a
    BookBinder exactly when the pipeline has run to its end. *)
Definition binder_inv (s : State) : Prop :=
  (pipeline s = NotBinding \/ startedBinding (book s) = true)
  /\ match pipeline s with
     | Bound => is_Some (bookBinder (book s))
     | _ => bookBinder (book s) = None
     end.

(** What a step can do to the binding pipeline, the [startedBinding] flag
    and the [#bookBinder] field. *)
Definition binder_view (s : State) : pipeline_state * bool * option BookBinder :=
  (pipeline s, startedBinding (book s), bookBinder (book s)).

Inductive binder_move (s s' : State) : Prop :=
| move_none :
    binder_view s' = binder_view s -> binder_move s s'
| move_begin p :
    startedBinding (book s) = false ->
    match p with AwaitingBinder _ _ _ | BindingFailed _ => True | _ => False end ->
    binder_view s' = (p, true, bookBinder (book s)) ->
    binder_move s s'
| move_created nm ab size bb :
    pipeline s = AwaitingBinder nm ab size ->
    binder_view s' = (AwaitingStart bb, startedBinding (book s), bookBinder (book s)) ->
    binder_move s s'
| move_started bb :
    pipeline s = AwaitingStart bb ->
    binder_view s' = (Bound, startedBinding (book s), Some bb) ->
    binder_move s s'
| move_failed e :
    match pipeline s with AwaitingBinder _ _ _ | AwaitingStart _ => True | _ => False end ->
    binder_view s' = (BindingFailed e, startedBinding (book s), bookBinder (book s)) ->
    binder_move s s'
| move_fed bb bb' :
    bookBinder (book s) = Some bb ->
    binder_view s' = (pipeline s, startedBinding (book s), Some bb') ->
    binder_move s s'.

(** ** Sample runs *)

Definition sample_answers : binder_answers :=
  {| ans_bookType := "comic";
     ans_mimeType := "application/vnd.comicbook+zip";
     ans_loadingPercentage := 1;
     ans_unarchivingPercentage := 0;
     ans_layoutPercentage := 0 |}.

(** [new Book('foo.cbz')]: no source given. *)
Definition sample_book : Book := Book_fields "foo.cbz" SrcUndefined (-1).

(** The Book is loaded from one buffer and bound. *)
Definition loaded_state : State :=
  run (new_state sample_book None)
    [CallLoadFromArrayBuffer "foo.cbz" [x50; x4b; x03; x04]%byte;
     BinderCreated sample_answers;
     BinderStarted].

(** The Binder reports a total of one page, then extracts two. *)
Definition stale_total_state : State :=
  run loaded_state
    [Binder (PROGRESS (Some 1) None);
     Binder (PAGE_EXTRACTED 10%nat 0);
     Binder (PAGE_EXTRACTED 11%nat 1)].

(** The Binder reports a total of three pages and has extracted one. *)
Definition lagging_state : State :=
  run loaded_state
    [Binder (PROGRESS (Some 3) None);
     Binder (PAGE_EXTRACTED 10%nat 0)].

(** ** Ingestion strategies and the runs they produce *)

Inductive strategy :=
| OneShotBuffer (fileName : string)
| XhrTransport
| FetchWhole
| FetchStreaming
| LocalFileRead
| LocalHandleRead (f : File)
| PushProducer (bookUri : string) (totalExpectedSize : option Z) (early : nat).

(** The Book and the fetch mode a strategy needs to get past the guards
    of its loader. *)
Definition suits (st : strategy) (b : Book) (mode : option string) : bool :=
  match st with
  | OneShotBuffer _ | PushProducer _ _ _ => negb (truthy_string (uri b))
  | XhrTransport => truthy_string (uri b)
  | FetchWhole =>
      bool_decide (is_Some (request b))
      && negb (bool_decide (mode = Some "chunkByChunk"))
  | FetchStreaming =>
      bool_decide (is_Some (request b))
      && bool_decide (mode = Some "chunkByChunk")
  | LocalFileRead =>
      negb (truthy_string (uri b)) && bool_decide (is_Some (file b))
  | LocalHandleRead _ =>
      negb (truthy_string (uri b)) && negb (bool_decide (is_Some (file b)))
      && truthy_source (fileHandle b)
  end.

(** The chunk sequences a strategy can deliver: at least one chunk when
    it streams, exactly one buffer otherwise. *)
Definition admits (st : strategy) (chunks : list ArrayBuffer) : bool :=
  match st, chunks with
  | (FetchStreaming | PushProducer _ _ _), _ :: _ => true
  | (OneShotBuffer _ | XhrTransport | FetchWhole | LocalFileRead
     | LocalHandleRead _), [_] => true
  | _, _ => false
  end.

Definition data (size : option Z) (ab : ArrayBuffer) : input :=
  Pump (BOOKPUMP_DATA_RECEIVED ab size).

Definition queued (size : option Z) (chunks : list ArrayBuffer) : list reaction :=
  map (fun ab => PumpCallback (BOOKPUMP_DATA_RECEIVED ab size)) chunks.

(** A BookPump delivers [c], then [early] while the Binder is still being
    constructed and started ... *)
Definition pump_binding (bookUri : string) (size : option Z)
    (a : binder_answers) (c : ArrayBuffer) (early : list ArrayBuffer)
  : list input :=
  [CallLoadFromBookPump bookUri; data size c]
  ++ map (data size) early
  ++ [BinderCreated a; BinderStarted].

(** ... the callbacks registered meanwhile run, then [late] arrives, each
    chunk in its own task, and the pump ends. *)
Definition pump_schedule (bookUri : string) (size : option Z)
    (a : binder_answers) (c : ArrayBuffer) (early late : list ArrayBuffer)
  : list input :=
  pump_binding bookUri size a c early
  ++ replicate (length early) Microtask
  ++ flat_map (fun ab => [data size ab; Microtask]) late
  ++ [Pump BOOKPUMP_END; Microtask].

(** A fetch in chunk-by-chunk mode reads [c], binds, then reads the rest. *)
Definition fetch_schedule (a : binder_answers) (c : ArrayBuffer)
    (rest : list ArrayBuffer) : list input :=
  [CallLoadFromFetch; FetchResponse; ReaderRead (Some c);
   BinderCreated a; BinderStarted; Microtask]
  ++ map (fun ab => ReaderRead (Some ab)) rest
  ++ [ReaderRead None].

(** What happens, in order, when [st] delivers [chunks] and the Binder
    is created and started without failure. *)
Definition deliver (st : strategy) (a : binder_answers)
    (chunks : list ArrayBuffer) : list input :=
  match chunks with
  | [] => []
  | c :: rest =>
      match st with
      | OneShotBuffer fileName =>
          [CallLoadFromArrayBuffer fileName c; BinderCreated a; BinderStarted]
      | XhrTransport =>
          [CallLoadFromXhr; XhrLoad c; BinderCreated a; BinderStarted]
      | FetchWhole =>
          [CallLoadFromFetch; FetchResponse; ResponseArrayBuffer c;
           BinderCreated a; BinderStarted; Microtask]
      | FetchStreaming => fetch_schedule a c rest
      | LocalFileRead =>
          [CallLoadFromFile; FileReaderLoad c; BinderCreated a; BinderStarted]
      | LocalHandleRead f =>
          [CallLoadFromFile; HandleGetFile f; FileReaderLoad c;
           BinderCreated a; BinderStarted]
      | PushProducer bookUri size early =>
          pump_schedule bookUri size a c (take early rest) (drop early rest)
      end
  end.

(** The chunks the Binder has observed so far: the initial bytes given
    to its factory, then what [appendBytes] was called with. *)
Definition observed (s : State) : list ArrayBuffer :=
  match pipeline s with
  | AwaitingBinder _ ab _ => [ab]
  | AwaitingStart bb => binder_fed bb
  | Bound => match bookBinder (book s) with
             | Some bb => binder_fed bb
             | None => []
             end
  | _ => []
  end.

(** The chunks a BookPump sent, in the order of the inputs. *)
Definition pump_data (ins : list input) : list ArrayBuffer :=
  omap (fun i => match i with
                 | Pump (BOOKPUMP_DATA_RECEIVED ab _) => Some ab
                 | _ => None
                 end) ins.

(** A BookPump delivers two chunks, the Binder gets ready, the pump ends. *)
Definition pumped_state : State :=
  run (new_state sample_book None)
    (pump_schedule "foo.cbz" (Some 4) sample_answers
       [x50; x4b]%byte [] [[x03; x04]%byte]).

(** ** Callbacks of a BookPump that have not run yet *)

Definition reaction_data (r : reaction) : option ArrayBuffer :=
  match r with
  | PumpCallback (BOOKPUMP_DATA_RECEIVED ab _) => Some ab
  | _ => None
  end.

Definition microtask_data (m : microtask) : option ArrayBuffer :=
  match m with
  | OnFulfilled r => reaction_data r
  | OnRejected _ _ => None
  end.

Definition pump_reaction (r : reaction) : Prop :=
  match r with
  | PumpCallback _ => True
  | ResumeFetch _ => False
  end.

Definition pump_microtask (m : microtask) : Prop :=
  match m with
  | OnFulfilled r | OnRejected r _ => pump_reaction r
  end.

(** What holds of every state reached after [loadFromBookPump], where
    [arrived] lists the chunks the pump has sent: as long as the
    listeners are registered and binding has not failed, the chunks the
    Binder has observed followed by those of the callbacks still waiting
    are the chunks that arrived, in their order. *)
Definition pump_inv (arrived : list ArrayBuffer) (s : State) : Prop :=
  needsLoading (book s) = false
  /\ Forall pump_reaction (reactions s)
  /\ Forall pump_microtask (microtasks s)
  /\ match loader s, pipeline s with
     | PumpListening _ None, NotBinding =>
         startedBinding (book s) = false /\ arrived = []
         /\ reactions s = [] /\ microtasks s = []
     | PumpListening _ (Some ThePipeline), (AwaitingBinder _ _ _ | AwaitingStart _) =>
         startedBinding (book s) = true /\ microtasks s = []
         /\ observed s ++ omap reaction_data (reactions s) = arrived
     | PumpListening _ (Some ThePipeline), Bound =>
         startedBinding (book s) = true /\ reactions s = []
         /\ is_Some (bookBinder (book s))
         /\ observed s ++ omap microtask_data (microtasks s) = arrived
     | PumpDetached, Bound =>
         startedBinding (book s) = true /\ reactions s = []
         /\ is_Some (bookBinder (book s))
         /\ observed s ++ omap microtask_data (microtasks s) `prefix_of` arrived
     | (PumpListening _ (Some ThePipeline) | PumpDetached), BindingFailed _ =>
         startedBinding (book s) = true
     | _, _ => False
     end.

(** The part of a state [pump_inv] depends on. *)
Definition pump_view (s : State) :=
  (needsLoading (book s), startedBinding (book s), bookBinder (book s),
   reactions s, microtasks s, loader s, pipeline s).

(** The listeners of [loadFromBookPump] are, or were, registered. *)
Definition pump_loader (s : State) : Prop :=
  match loader s with
  | PumpListening _ _ | PumpDetached => True
  | _ => False
  end.

(** Inputs that neither come from the pump or the Binder factory nor run
    a microtask. *)
Definition passive (i : input) : Prop :=
  match i with
  | Pump _ | BinderCreated _ | BinderCreationFailed _ | BinderStarted
  | BinderStartFailed _ | Microtask => False
  | _ => True
  end.

(** Holders of references to metadata records change them. *)
Definition mutations (muts : list (nat * BookMetadata)) : list input :=
  map (fun rm => MutateMetadata rm.1 rm.2) muts.

(** ** Names and sources *)

From Stdlib.Strings Require Import Ascii.

(** [s.lastIndexOf(c)] for a single character [c]: the index of its last
    occurrence, -1 when there is none.  A string is the sequence of its
    code units. *)
Fixpoint js_lastIndexOf (c : ascii) (s : string) : Z :=
  match s with
  | EmptyString => -1
  | String a s' =>
      let r := js_lastIndexOf c s' in
      if r =? -1 then (if Ascii.eqb a c then 0 else -1) else r + 1
  end.

Fixpoint string_drop (n : nat) (s : string) : string :=
  match n, s with
  | O, _ => s
  | S n', String _ s' => string_drop n' s'
  | S _, EmptyString => EmptyString
  end.

(** [s.substring(start)]: [start] is clamped to the length of [s]. *)
Definition js_substring (start : Z) (s : string) : string :=
  string_drop (Z.to_nat start) s.

(** [v.name] of a truthy value: only a File and a FileSystemFileHandle
    have the property, elsewhere the result is [undefined]. *)
Definition name_of (v : js_source) : option string :=
  match v with
  | SrcFile f => Some (file_name f)
  | SrcFileHandle h => Some (handle_name h)
  | _ => None
  end.

(** [url.substring(url.lastIndexOf('/') + 1)] *)
Definition after_last_slash (url_ : string) : string :=
  js_substring (js_lastIndexOf "/"%char url_ + 1) url_.

(** [getFilename()]; [None] is [undefined].  [this.#uri ?? this.#request.url]
    takes the URI whenever it is a string, the empty one included. *)
Definition getFilename (b : Book) : completion (option string) :=
  if truthy_string (uri b) || bool_decide (is_Some (request b)) then
    match uri b, request b with
    | Some u, _ => Normal (Some (after_last_slash u))
    | None, Some r => Normal (Some (after_last_slash (url r)))
    | None, None => Throw TypeError
    end
  else if bool_decide (is_Some (file b)) || truthy_source (fileHandle b) then
    match file b with
    | Some f => Normal (Some (file_name f))
    | None => Normal (name_of (fileHandle b))
    end
  else Throw UnknownSource.

Definition getFileSystemHandle (b : Book) : js_source := fileHandle b.

Definition getName (b : Book) : string := name b.

(** [getUri()]; [None] is [undefined]. *)
Definition getUri (b : Book) : option string :=
  match request b with
  | Some r => Some (url r)
  | None => uri b
  end.

Definition has_slash (s : string) : Prop :=
  "/"%char ∈ String.list_ascii_of_string s.

(** ** Calls of the loaders on a run *)

(** How the call of a loader that an input stands for ends. *)
Definition call_outcome (s : State) (i : input) : option outcome :=
  match i with
  | CallLoad => Some (fst (load s))
  | CallLoadFromXhr => Some (fst (loadFromXhr s))
  | CallLoadFromFetch => Some (fst (loadFromFetch s))
  | CallLoadFromFile => Some (fst (loadFromFile s))
  | CallLoadFromArrayBuffer fileName ab => Some (fst (loadFromArrayBuffer fileName ab s))
  | CallLoadFromBookPump bookUri => Some (fst (loadFromBookPump bookUri s))
  | _ => None
  end.

Definition started (o : option outcome) : bool :=
  match o with
  | Some Started => true
  | _ => false
  end.

(** The number of loader calls of a run that got past their guards. *)
Fixpoint started_calls (s : State) (ins : list input) : nat :=
  match ins with
  | [] => 0
  | i :: ins' =>
      ((if started (call_outcome s i) then 1 else 0)
       + started_calls (step s i) ins')%nat
  end.

(** The pages the Binder extracted, in the order of the events. *)
Definition extracted (ins : list input) : list Page :=
  omap (fun i => match i with
                 | Binder (PAGE_EXTRACTED page _) => Some page
                 | _ => None
                 end) ins.

(** A call of the public [appendBytes]. *)
Definition direct_append (i : input) : Prop :=
  match i with
  | CallAppendBytes _ => True
  | _ => False
  end.

(** ** The log of dispatched events *)

(** Nothing has been dispatched and nothing is under way that could
    dispatch: the state of a Book before its loader announces the load. *)
Definition quiet (s : State) : Prop :=
  dispatched s = [] /\ listening s = false /\ pipeline s = NotBinding
  /\ microtasks s = [].

(** [BookLoadingStartedEvent] occurs in a log at most once, and then as
    its first entry. *)
Definition announced (l : list BookEvent) : Prop :=
  BookLoadingStartedEvent ∉ l
  \/ exists rest, l = BookLoadingStartedEvent :: rest
                  /\ BookLoadingStartedEvent ∉ rest.

Definition announce_inv (s : State) : Prop :=
  if needsLoading (book s) then quiet s /\ loader s = NoLoader
  else match loader s with
       | FileAwaitingHandle => quiet s
       | _ => announced (dispatched s)
       end.

(** The pages of the page-extracted events of a log, in its order. *)
Definition logged_pages (l : list BookEvent) : list Page :=
  omap (fun e => match e with
                 | BookPageExtractedEvent page _ => Some page
                 | _ => None
                 end) l.

(** What a subscriber knows of the Book from the events alone. *)
Definition log_inv (s : State) : Prop :=
  (finishedLoading (book s) = true <-> BookLoadingCompleteEvent ∈ dispatched s)
  /\ (finishedBinding (book s) = true <-> BookBindingCompleteEvent ∈ dispatched s)
  /\ pages (book s) = logged_pages (dispatched s).

(** ** The load promise and the binding promise *)

(** What holds of every state reached after [loadFromFetch]: the load
    promise is pending until the function returns or throws, and the
    function returns only after the binding promise was fulfilled. *)
Definition fetch_inv (s : State) : Prop :=
  needsLoading (book s) = false
  /\ match loader s with
     | FetchAwaitingResponse | FetchAwaitingFirstChunk | FetchAwaitingArrayBuffer =>
         loadPromise s = Pending /\ finishedLoading (book s) = false
         /\ startedBinding (book s) = false /\ pipeline s = NotBinding
         /\ reactions s = [] /\ microtasks s = []
     | FetchAwaitingBinding c =>
         loadPromise s = Pending /\ finishedLoading (book s) = false
         /\ startedBinding (book s) = true
         /\ match pipeline s with
            | AwaitingBinder _ _ _ | AwaitingStart _ =>
                reactions s = [ResumeFetch c] /\ microtasks s = []
            | Bound =>
                reactions s = [] /\ microtasks s = [OnFulfilled (ResumeFetch c)]
                /\ is_Some (bookBinder (book s))
            | BindingFailed e =>
                reactions s = [] /\ microtasks s = [OnRejected (ResumeFetch c) e]
            | NotBinding => False
            end
     | FetchAwaitingChunk =>
         loadPromise s = Pending /\ finishedLoading (book s) = false
         /\ startedBinding (book s) = true /\ pipeline s = Bound
         /\ is_Some (bookBinder (book s))
         /\ reactions s = [] /\ microtasks s = []
     | LoaderDone =>
         reactions s = [] /\ microtasks s = []
         /\ match loadPromise s, pipeline s with
            | Fulfilled, Bound =>
                finishedLoading (book s) = true /\ is_Some (bookBinder (book s))
            | RejectedWith _, (NotBinding | Bound) => finishedLoading (book s) = false
            | RejectedWith e, BindingFailed e' =>
                finishedLoading (book s) = false /\ e = e'
            | _, _ => False
            end
     | _ => False
     end.

(** A callback of [loadFromBookPump] whose binding promise was rejected:
    it was given to [then] without a rejection handler and never runs. *)
Definition dropped_callback (m : microtask) : Prop :=
  match m with
  | OnRejected (PumpCallback _) _ => True
  | _ => False
  end.

(** The BookPump reports no error. *)
Definition no_pump_error (i : input) : Prop :=
  match i with
  | Pump (BOOKPUMP_ERROR _) => False
  | _ => True
  end.

(** What a BookPump sends when it reports no error, and the jobs of the
    microtask queue. *)
Definition pump_traffic (i : input) : Prop :=
  match i with
  | Pump (BOOKPUMP_DATA_RECEIVED _ _) | Pump BOOKPUMP_END | Microtask => True
  | _ => False
  end.

(** As long as the Binder of a load by BookPump is not ready, the load
    promise is pending and the Book is not marked as loaded; once binding
    has failed, every callback is dropped. *)
Definition pump_unbound (s : State) : Prop :=
  match pipeline s with
  | Bound => True
  | BindingFailed _ =>
      loadPromise s = Pending /\ finishedLoading (book s) = false
      /\ reactions s = [] /\ Forall dropped_callback (microtasks s)
  | _ => loadPromise s = Pending /\ finishedLoading (book s) = false
  end.

(** No continuation waits in the microtask queue for a binding promise
    that was fulfilled. *)
Definition no_fulfilled (m : microtask) : Prop :=
  match m with
  | OnFulfilled _ => False
  | OnRejected _ _ => True
  end.

(** The bytes the Book holds are those its Binder was given, and the
    loop of [loadFromFetch] that reads the later chunks runs only once
    the Binder is there. *)
Definition bytes_inv (s : State) : Prop :=
  binder_inv s
  /\ match pipeline s with
     | AwaitingBinder _ _ _ | AwaitingStart _ =>
         arrayBuffer (book s) = Some (concat (observed s))
         /\ loader s <> FetchAwaitingChunk
         /\ Forall no_fulfilled (microtasks s)
     | Bound => arrayBuffer (book s) = Some (concat (observed s))
     | NotBinding =>
         arrayBuffer (book s) = None
         /\ loader s <> FetchAwaitingChunk
         /\ Forall no_fulfilled (microtasks s)
     | BindingFailed _ =>
         loader s <> FetchAwaitingChunk /\ Forall no_fulfilled (microtasks s)
     end.

(** What holds of every state reached after [loadFromXhr] or
    [loadFromFile]: nothing waits for the binding promise, the load promise
    is pending until the bytes are in, and it is rejected only when they
    never came. *)
Definition oneshot_inv (s : State) : Prop :=
  needsLoading (book s) = false /\ reactions s = [] /\ microtasks s = []
  /\ match loader s with
     | XhrSent | FileAwaitingHandle | FileReading _ =>
         loadPromise s = Pending /\ finishedLoading (book s) = false
         /\ startedBinding (book s) = false /\ pipeline s = NotBinding
         /\ arrayBuffer (book s) = None
     | LoaderDone =>
         match loadPromise s with
         | Fulfilled =>
             finishedLoading (book s) = true /\ startedBinding (book s) = true
         | RejectedWith e =>
             finishedLoading (book s) = false /\ startedBinding (book s) = false
             /\ pipeline s = NotBinding /\ arrayBuffer (book s) = None
             /\ exists err, e = External err
         | _ => False
         end
     | _ => False
     end.

(** * Properties *)

(** ** Typed arrays *)

Lemma Uint8Array_new_length n : length (Uint8Array_new n) = n.
Proof. apply length_replicate. Qed.

Lemma Uint8Array_set_fits target source offset :
  (offset + length source ≤ length target)%nat ->
  Uint8Array_set target source offset =
    Normal (take offset target ++ source ++ drop (offset + length source) target).
Proof. intros H. unfold Uint8Array_set. by rewrite decide_True. Qed.

(** Copying a buffer into a fresh array of its size gives the buffer. *)
Lemma Uint8Array_copy ab :
  Uint8Array_set (Uint8Array_new (byteLength ab)) ab 0 = Normal ab.
Proof.
  unfold byteLength. rewrite Uint8Array_set_fits.
  - rewrite take_0, drop_ge, app_nil_r; [done|].
    rewrite Uint8Array_new_length. simpl. lia.
  - rewrite Uint8Array_new_length. simpl. lia.
Qed.

Lemma appendBytes_spec old chunk b :
  arrayBuffer b = Some old ->
  appendBytes chunk b = Normal (set_arrayBuffer (Some (old ++ chunk)) b).
Proof.
  intros Hold. unfold appendBytes, byteLength. rewrite Hold.
  rewrite Uint8Array_set_fits by (rewrite Uint8Array_new_length; simpl; lia).
  cbn [mbind completion_bind].
  rewrite Uint8Array_set_fits.
  2:{ rewrite !length_app, length_take, length_drop, Uint8Array_new_length. lia. }
  cbn [mbind completion_bind]. do 3 f_equal.
  rewrite take_0, app_nil_l.
  rewrite take_app_length.
  rewrite drop_ge; [by rewrite app_nil_r|].
  rewrite !length_app, length_drop, Uint8Array_new_length. simpl. lia.
Qed.

(** ** Numbers *)

Lemma js_lt_zero_spec q : js_lt_zero (JsNum q) = true <-> (q < 0)%Q.
Proof.
  unfold js_lt_zero, Qlt. simpl. rewrite Z.ltb_lt. lia.
Qed.

Lemma js_ge_spec q n : js_ge (JsNum q) n = true <-> (inject_Z n <= q)%Q.
Proof. unfold js_ge. apply Qle_bool_iff. Qed.

Lemma js_array_index_of_nat (n : nat) :
  js_array_index (js_of_Z (Z.of_nat n)) = Some n.
Proof.
  unfold js_array_index, js_of_Z, inject_Z. simpl.
  rewrite Z.mod_1_r, Z.div_1_r, Nat2Z.id.
  destruct (Z.leb_spec 0 (Z.of_nat n)); [done | lia].
Qed.

Lemma js_array_index_lower q n k :
  (inject_Z (Z.of_nat k) <= q)%Q -> js_array_index (JsNum q) = Some n -> (k <= n)%nat.
Proof.
  unfold js_array_index, Qle. destruct q as [a d]. simpl. intros Hle H.
  destruct (_ && _); [|done]. injection H as <-.
  apply Nat2Z.inj_le. rewrite Z2Nat.id.
  - apply Z.div_le_lower_bound; lia.
  - apply Z.div_pos; lia.
Qed.

Lemma js_lt_zero_of_Z z : js_lt_zero (js_of_Z z) = (z <? 0).
Proof. done. Qed.

Lemma js_ge_of_Z z n : js_ge (js_of_Z z) n = (n <=? z).
Proof.
  unfold js_ge, js_of_Z, Qle_bool, inject_Z. simpl. by rewrite !Z.mul_1_r.
Qed.

Lemma pages_at_not_null ps i : pages_at ps i <> JNull.
Proof. unfold pages_at. by repeat case_match. Qed.

(** ** getPage *)

(** C10: when the reported total T exceeds the number of extracted
    pages, [getPage(i)] for pages.length <= i < T returns undefined,
    which differs from the null returned outside [0, T); and while the
    total is still 0 the bound [getPage] uses is pages.length. *)
Theorem C10_pages_not_yet_extracted (b : Book) :
  (Z.of_nat (length (pages b)) < totalPages b ->
     (forall q, (inject_Z (Z.of_nat (length (pages b))) <= q)%Q ->
                (q < inject_Z (totalPages b))%Q ->
                getPage (JsNum q) b = Normal JUndefined)
     /\ (forall q, (q < 0)%Q \/ (inject_Z (totalPages b) <= q)%Q ->
                   getPage (JsNum q) b = Normal JNull)
     /\ JUndefined <> JNull)
  /\ (totalPages b = 0 -> numPages b = Z.of_nat (length (pages b))).
Proof.
  split.
  - intros HT.
    assert (HN : numPages b = totalPages b).
    { unfold numPages. destruct (Z.eqb_spec (totalPages b) 0); lia. }
    split; [|split; [|done]].
    + intros q Hlo Hhi. unfold getPage. rewrite HN.
      assert (H0 : js_lt_zero (JsNum q) = false).
      { apply not_true_is_false. rewrite js_lt_zero_spec. intros Hneg.
        apply (Qlt_not_le _ _ Hneg). eapply Qle_trans; [|exact Hlo].
        unfold Qle, inject_Z. simpl. lia. }
      assert (H1 : js_ge (JsNum q) (totalPages b) = false).
      { apply not_true_is_false. rewrite js_ge_spec.
        by apply Qlt_not_le. }
      rewrite H0, H1. simpl. f_equal. unfold pages_at.
      destruct (js_array_index (JsNum q)) as [n|] eqn:Hn; [|done].
      apply (js_array_index_lower _ _ _ Hlo) in Hn.
      by rewrite lookup_ge_None_2.
    + intros q Hout. unfold getPage. rewrite HN.
      destruct Hout as [Hneg|Hbig].
      * apply js_lt_zero_spec in Hneg. by rewrite Hneg.
      * apply js_ge_spec in Hbig. rewrite Hbig. by rewrite orb_true_r.
  - intros H0. unfold numPages. by rewrite H0.
Qed.

Lemma C10_pages_not_yet_extracted_witness :
  getPage (JsNum 2) (book lagging_state) = Normal JUndefined
  /\ getPage (JsNum 3) (book lagging_state) = Normal JNull.
Proof.
  assert (H : Z.of_nat (length (pages (book lagging_state)))
              < totalPages (book lagging_state)) by (vm_compute; reflexivity).
  destruct (C10_pages_not_yet_extracted (book lagging_state)) as [Hlag _].
  destruct (Hlag H) as (Hundef & Hnull & _). split.
  - apply Hundef; vm_compute; congruence.
  - apply Hnull. right. vm_compute; congruence.
Defined.

(** The bound of [getPage] is the larger of the two counts whenever the
    total is still 0 or has caught up with the extracted pages. *)
Lemma numPages_max b :
  totalPages b = 0 \/ Z.of_nat (length (pages b)) <= totalPages b ->
  numPages b = Z.max (totalPages b) (Z.of_nat (length (pages b))).
Proof.
  unfold numPages. destruct (Z.eqb_spec (totalPages b) 0); lia.
Qed.

Lemma C4_stale_total_counterexample :
  getPage (js_of_Z 1) (book stale_total_state)
  <> Normal (getPage_by_max 1 (book stale_total_state)).
Proof. vm_compute. discriminate. Qed.

Lemma getPage_by_max_agrees b z :
  totalPages b = 0 \/ Z.of_nat (length (pages b)) <= totalPages b ->
  getPage (js_of_Z z) b = Normal (getPage_by_max z b).
Proof.
  intros Hinv. unfold getPage, getPage_by_max.
  rewrite js_lt_zero_of_Z, js_ge_of_Z, <- (numPages_max b Hinv).
  destruct (Z.ltb_spec z 0), (Z.leb_spec (numPages b) z),
    (Z.leb_spec 0 z), (Z.ltb_spec z (numPages b)); simpl; try done; lia.
Qed.

(** C4, amended: [getPage(i)] never throws, for any number [i].  It
    returns null exactly when [i < 0] or [i >= N], where N is the total
    page count if that is not 0 and pages.length otherwise; otherwise it
    returns [pages[i]]: the page at an integer index below pages.length,
    undefined where there is none.  N is max(totalPageCount,
    pages.length) whenever the total is 0 or at least pages.length, and
    then [getPage] at an integer is what the bound by the maximum gives. *)
Theorem C4_getPage_bound (b : Book) :
  (forall i : js_number,
      exists r,
        getPage i b = Normal r
        /\ (r = JNull <-> js_lt_zero i = true \/ js_ge i (numPages b) = true)
        /\ (r <> JNull -> r = pages_at (pages b) i)
        /\ (forall n : nat,
              i = js_of_Z (Z.of_nat n) -> Z.of_nat n < numPages b ->
              r = match pages b !! n with
                  | Some p => JPage p
                  | None => JUndefined
                  end))
  /\ (totalPages b = 0 \/ Z.of_nat (length (pages b)) <= totalPages b ->
      numPages b = Z.max (totalPages b) (Z.of_nat (length (pages b)))
      /\ forall z, getPage (js_of_Z z) b = Normal (getPage_by_max z b)).
Proof.
  split.
  - intros i. unfold getPage.
    destruct (js_lt_zero i || js_ge i (numPages b)) eqn:Hout.
    + exists JNull. apply orb_true_iff in Hout. repeat split; try done.
      intros n -> Hn. exfalso. destruct Hout as [Hneg|Hbig].
      * rewrite js_lt_zero_of_Z in Hneg. lia.
      * rewrite js_ge_of_Z in Hbig. lia.
    + exists (pages_at (pages b) i). apply orb_false_iff in Hout as [H0 H1].
      repeat split; try done.
      * intros Hnull. by apply pages_at_not_null in Hnull.
      * intros [H|H]; congruence.
      * intros n -> _. unfold pages_at. by rewrite js_array_index_of_nat.
  - intros Hinv. split; [by apply numPages_max|].
    intros z. by apply getPage_by_max_agrees.
Qed.

Lemma C4_getPage_bound_witness :
  getPage (js_of_Z 2) (book lagging_state)
  = Normal (getPage_by_max 2 (book lagging_state))
  /\ exists r, getPage (js_of_Z 0) (book stale_total_state) = Normal r
               /\ r = JPage 10%nat.
Proof.
  split.
  - destruct (C4_getPage_bound (book lagging_state)) as [_ Hmax].
    apply Hmax. right. vm_compute. discriminate.
  - destruct (C4_getPage_bound (book stale_total_state)) as [Hget _].
    destruct (Hget (js_of_Z (Z.of_nat 0))) as (r & Hr & _ & _ & Hat).
    exists r. split; [exact Hr|].
    assert (Hlt : Z.of_nat 0 < numPages (book stale_total_state))
      by (vm_compute; reflexivity).
    pose proof (Hat 0%nat eq_refl Hlt) as H. vm_compute in H. exact H.
Defined.

(** ** The statements of the handlers, simplified *)

Lemma appendBytes_eq chunk b :
  appendBytes chunk b =
    match arrayBuffer b with
    | None => Throw TypeError
    | Some old => Normal (set_arrayBuffer (Some (old ++ chunk)) b)
    end.
Proof.
  destruct (arrayBuffer b) as [old|] eqn:Hold.
  - by apply appendBytes_spec.
  - unfold appendBytes. by rewrite Hold.
Qed.

Lemma startBookBinding_eq nm ab size s :
  startBookBinding nm ab size s =
    if startedBinding (book s) then (AlreadyRejected AlreadyBinding, s)
    else match ab with
         | None =>
             (ThePipeline,
              set_pipeline (BindingFailed TypeError)
                (upd_book (set_startedBinding true) s))
         | Some ab =>
             (ThePipeline,
              set_pipeline (AwaitingBinder nm ab size)
                (upd_book (set_arrayBuffer (Some ab))
                   (upd_book (set_startedBinding true) s)))
         end.
Proof.
  unfold startBookBinding. destruct (startedBinding (book s)); [done|].
  destruct ab as [ab|]; [|done]. by rewrite Uint8Array_copy.
Qed.

Lemma setMetadata_eq m s :
  setMetadata m s =
    match store s !! m with
    | None => Throw TypeError
    | Some md =>
        Normal (upd_book (set_bookMetadata (Some (fresh (dom (store s)))))
                  (set_store (<[fresh (dom (store s)) := md]> (store s)) s))
    end.
Proof.
  unfold setMetadata, BookMetadata_clone. by destruct (store s !! m).
Qed.

(** Case analysis over everything a step can do. *)
Ltac unfold_handlers :=
  unfold step, load, rejected, loadFromXhr, loadFromFetch, loadFromFile,
    loadFromArrayBuffer, loadFromBookPump, on_xhr_progress, on_xhr_load,
    on_xhr_error, on_fetch_response, on_fetch_failed, on_reader_read,
    on_response_arrayBuffer, on_handle_getFile, on_handle_getFile_failed,
    on_fileReader_load, on_pump_event, handleBookPumpEvents, on_binder_created,
    on_binder_creation_failed, on_binder_started, on_binder_start_failed,
    on_binder_event, mutate_metadata, run_microtask, pump_callback, read_file,
    finish_loading, mark_loaded, then_, enqueue, fulfil_pipeline,
    reject_pipeline, resolve_load, reject_load, dispatchEvent, upd_book in *;
  rewrite ?startBookBinding_eq, ?appendBytes_eq, ?setMetadata_eq in *.

Ltac step_cases :=
  unfold_handlers;
  repeat (rewrite ?startBookBinding_eq, ?appendBytes_eq in *;
          cbn -[fresh dom insert] in *;
          first [ case_match | done ]);
  simplify_eq; cbn -[fresh dom insert] in *.

Lemma step_source_of s i : source_of (book (step s i)) = source_of (book s).
Proof. destruct i; step_cases; try done. Qed.

Lemma run_source_of s ins : source_of (book (run s ins)) = source_of (book s).
Proof.
  revert s. induction ins as [|i ins IH]; intros s; [done|].
  simpl. unfold run in IH. rewrite IH. apply step_source_of.
Qed.

(** ** Repeated loads *)

Lemma C3_unsourced_book_counterexample :
  needsLoading (book loaded_state) = false
  /\ ~ failed_with InvalidStateError (load loaded_state).
Proof. split; [vm_compute; reflexivity|]. vm_compute. discriminate. Qed.

(** C3, amended: when needsLoading is already false, each strategy
    loader fails with InvalidStateError, and so does [load()] on a Book
    that has a request, URI, file or file handle; [load()] on a Book
    with none of them fails with SourceMismatchError instead.  In every
    case the whole state, so the byte sequence and the four flags with
    it, is what it was before the call. *)
Theorem C3_second_load_fails (s : State) :
  needsLoading (book s) = false ->
  loadFromXhr s = (Threw (AlreadyLoading ViaXhr), s)
  /\ loadFromFetch s = (Rejected (AlreadyLoading ViaFetch), s)
  /\ loadFromFile s = (Rejected (AlreadyLoading ViaFile), s)
  /\ (forall fileName ab,
        loadFromArrayBuffer fileName ab s = (Threw (AlreadyLoading ViaArrayBuffer), s))
  /\ (forall bookUri,
        loadFromBookPump bookUri s = (Threw (AlreadyLoading ViaBookPump), s))
  /\ (forall via, classify (AlreadyLoading via) = InvalidStateError)
  /\ snd (load s) = s
  /\ (if has_source (book s)
      then failed_with InvalidStateError (load s)
      else load s = (Rejected NoSource, s)
           /\ classify NoSource = SourceMismatchError).
Proof.
  intros Hloaded.
  unfold load, rejected, loadFromXhr, loadFromFetch, loadFromFile,
    loadFromArrayBuffer, loadFromBookPump, has_source, has_kind, failed_with.
  rewrite Hloaded. simpl.
  destruct (bool_decide (is_Some (request (book s)))),
    (truthy_string (uri (book s))),
    (bool_decide (is_Some (file (book s)))),
    (truthy_source (fileHandle (book s))); simpl; repeat split.
Qed.

Lemma C3_second_load_fails_witness :
  loadFromArrayBuffer "again.cbz" [] loaded_state
  = (Threw (AlreadyLoading ViaArrayBuffer), loaded_state).
Proof.
  assert (H : needsLoading (book loaded_state) = false)
    by (vm_compute; reflexivity).
  destruct (C3_second_load_fails loaded_state H) as (_ & _ & _ & Hab & _).
  apply Hab.
Defined.

(** ** The source descriptor *)

Lemma has_kind_source_of k b b' :
  source_of b = source_of b' -> has_kind k b = has_kind k b'.
Proof.
  unfold source_of. intros H. injection H as Hn Hr Hu Hf Hh.
  unfold has_kind. by rewrite Hr, Hu, Hf, Hh.
Qed.

Lemma load_unsourced s :
  has_kind PushBound (book s) = true -> load s = (Rejected NoSource, s).
Proof.
  unfold has_kind, load. intros H.
  repeat (apply andb_true_iff in H as [H ?]).
  repeat match goal with
         | H : negb ?x = true |- _ => apply negb_true_iff in H; rewrite H
         end.
  done.
Qed.

(** C9: the Book the constructor returns is of exactly one of the five
    source kinds; the fields that decide the kind keep their value in
    every run; and [load()] on a Book of the kind without a resolvable
    source fails with SourceMismatchError. *)
Theorem C9_one_source_kind nm src size b :
  Book_constructor nm src size = Normal b ->
  length (kinds_of b) = 1%nat
  /\ (forall mode ins,
        source_of (book (run (new_state b mode) ins)) = source_of b)
  /\ (has_kind PushBound b = true ->
      forall mode ins,
        let s := run (new_state b mode) ins in
        load s = (Rejected NoSource, s)
        /\ classify NoSource = SourceMismatchError).
Proof.
  unfold Book_constructor. destruct (String.eqb nm ""); [done|].
  intros [= <-]. split; [|split].
  - destruct src as [|u| | |]; try reflexivity.
    unfold kinds_of, all_kinds, has_kind, Book_fields. simpl.
    destruct (String.eqb u "") eqn:Hu; simpl; rewrite ?Hu; reflexivity.
  - intros mode ins. apply run_source_of.
  - intros Hpush mode ins. cbv zeta. split; [|done].
    apply load_unsourced. rewrite <- Hpush.
    apply has_kind_source_of, run_source_of.
Qed.

Lemma C9_one_source_kind_witness :
  kinds_of sample_book = [PushBound]
  /\ load loaded_state = (Rejected NoSource, loaded_state).
Proof.
  assert (H : Book_constructor "foo.cbz" SrcUndefined (-1) = Normal sample_book)
    by reflexivity.
  destruct (C9_one_source_kind _ _ _ _ H) as (_ & _ & Hload).
  split; [reflexivity|].
  apply (Hload eq_refl None
           [CallLoadFromArrayBuffer "foo.cbz" [x50; x4b; x03; x04]%byte;
            BinderCreated sample_answers; BinderStarted]).
Defined.

(** ** The four latches *)

Lemma step_latches s i :
  (needsLoading (book s) = false -> needsLoading (book (step s i)) = false)
  /\ (startedBinding (book s) = true -> startedBinding (book (step s i)) = true)
  /\ (finishedLoading (book s) = true -> finishedLoading (book (step s i)) = true)
  /\ (finishedBinding (book s) = true -> finishedBinding (book (step s i)) = true).
Proof. destruct i; step_cases; repeat split; intros; congruence. Qed.

Lemma states_head s ins : exists tl, states s ins = s :: tl.
Proof. destruct ins; simpl; eauto. Qed.

Section Latch.
Variable f : State -> bool.
Variable v : bool.
Hypothesis latched : forall s i, f s = v -> f (step s i) = v.

Lemma changes_latched ins : forall s, f s = v -> changes f (states s ins) = 0%nat.
Proof.
  induction ins as [|i ins IH]; intros s Hs; [done|].
  simpl. destruct (states_head (step s i) ins) as [tl Htl].
  pose proof (IH (step s i) (latched s i Hs)) as IH'.
  rewrite Htl in *. rewrite IH'.
  rewrite Hs, (latched s i Hs). by destruct v.
Qed.

Lemma changes_at_most_once ins : forall s, (changes f (states s ins) <= 1)%nat.
Proof.
  induction ins as [|i ins IH]; intros s; [simpl; lia|].
  simpl. destruct (states_head (step s i) ins) as [tl Htl].
  pose proof (IH (step s i)) as IH'. rewrite Htl in *.
  destruct (Bool.eqb (f s) (f (step s i))) eqn:Heq; [lia|].
  assert (Hv : f (step s i) = v).
  { destruct (bool_decide (f s = v)) eqn:Hd.
    - apply bool_decide_eq_true in Hd. by apply latched.
    - apply bool_decide_eq_false in Hd. apply eqb_false_iff in Heq.
      destruct (f s), (f (step s i)), v; congruence. }
  pose proof (changes_latched ins (step s i) Hv) as H0.
  rewrite Htl in H0. lia.
Qed.
End Latch.

Lemma step_unloaded s i :
  (needsLoading (book s) = true -> unloaded s) ->
  needsLoading (book (step s i)) = true -> unloaded (step s i).
Proof.
  intros Hinv Hneeds.
  assert (Hs : needsLoading (book s) = true).
  { destruct (needsLoading (book s)) eqn:E; [done|].
    destruct (step_latches s i) as [H _]. rewrite H in Hneeds; done. }
  destruct (Hinv Hs) as (Hab & Hlo & Hpi & Hmi). clear Hinv.
  unfold unloaded.
  destruct i; step_cases; try done; try congruence.
Qed.

Lemma run_snoc s ins i : run s (ins ++ [i]) = step (run s ins) i.
Proof. unfold run. by rewrite foldl_app. Qed.

Lemma run_app s ins1 ins2 : run s (ins1 ++ ins2) = run (run s ins1) ins2.
Proof. unfold run. by rewrite foldl_app. Qed.

Lemma run_cons s i ins : run s (i :: ins) = run (step s i) ins.
Proof. done. Qed.

Lemma run_unloaded b mode ins :
  needsLoading b = true -> arrayBuffer b = None ->
  let s := run (new_state b mode) ins in
  needsLoading (book s) = true -> unloaded s.
Proof.
  intros Hn Ha. induction ins as [|i ins IH] using rev_ind; simpl.
  - by intros _.
  - rewrite run_snoc. by apply step_unloaded.
Qed.

Lemma startBookBinding_needsLoading nm ab size s :
  needsLoading (book (snd (startBookBinding nm ab size s)))
  = needsLoading (book s).
Proof. rewrite startBookBinding_eq. by repeat case_match. Qed.

Lemma loader_flips_needsLoading s r :
  r = loadFromXhr s \/ r = loadFromFetch s \/ r = loadFromFile s
  \/ (exists nm ab, r = loadFromArrayBuffer nm ab s)
  \/ (exists u, r = loadFromBookPump u s) \/ r = load s ->
  starts r ->
  needsLoading (book s) = true /\ needsLoading (book (snd r)) = false.
Proof.
  unfold starts.
  intros [ -> | [ -> | [ -> | [ [nm [ab -> ] ] | [ [u -> ] | -> ] ] ] ] ];
    unfold load, rejected, loadFromXhr, loadFromFetch, loadFromFile,
      loadFromArrayBuffer, loadFromBookPump;
    rewrite ?startBookBinding_eq;
    destruct (needsLoading (book s)); simpl; repeat case_match;
    simplify_eq; simpl; intros; simplify_eq; done.
Qed.

(** C5: each of the four flags is a one-way latch.  A step never sets
    [needsLoading] back to true nor any of [startedBinding],
    [finishedLoading], [finishedBinding] back to false, so on every run
    each flag changes at most once; a freshly constructed Book has them
    at (true, false, false, false).  In every state a run reaches from a
    new Book, bytes are present only if [needsLoading] is already false,
    and the pipeline that stores them leaves that flag alone.  Invoking
    the binding pipeline when binding has started fails with the
    double-bind error and changes nothing. *)
Theorem C5_flags_are_latches :
  (forall s i,
      (needsLoading (book s) = false -> needsLoading (book (step s i)) = false)
      /\ (startedBinding (book s) = true -> startedBinding (book (step s i)) = true)
      /\ (finishedLoading (book s) = true -> finishedLoading (book (step s i)) = true)
      /\ (finishedBinding (book s) = true -> finishedBinding (book (step s i)) = true))
  /\ (forall s ins,
        (changes (fun s => needsLoading (book s)) (states s ins) <= 1)%nat
        /\ (changes (fun s => startedBinding (book s)) (states s ins) <= 1)%nat
        /\ (changes (fun s => finishedLoading (book s)) (states s ins) <= 1)%nat
        /\ (changes (fun s => finishedBinding (book s)) (states s ins) <= 1)%nat)
  /\ (forall nm src size, flags (Book_fields nm src size) = (true, false, false, false))
  /\ (forall nm src size mode ins,
        let s := run (new_state (Book_fields nm src size) mode) ins in
        arrayBuffer (book s) <> None -> needsLoading (book s) = false)
  /\ (forall nm ab size s,
        needsLoading (book (snd (startBookBinding nm ab size s)))
        = needsLoading (book s))
  /\ (forall s r,
        r = loadFromXhr s \/ r = loadFromFetch s \/ r = loadFromFile s
        \/ (exists nm ab, r = loadFromArrayBuffer nm ab s)
        \/ (exists u, r = loadFromBookPump u s) \/ r = load s ->
        starts r ->
        needsLoading (book s) = true /\ needsLoading (book (snd r)) = false)
  /\ (forall nm ab size s,
        startedBinding (book s) = true ->
        startBookBinding nm ab size s = (AlreadyRejected AlreadyBinding, s)
        /\ classify AlreadyBinding = DoubleBindError).
Proof.
  split; [exact step_latches|].
  split; [|split; [done|split; [|split; [|split; [exact loader_flips_needsLoading|]]]]].
  - intros s ins. repeat split.
    + apply (changes_at_most_once _ false). intros s' i. apply step_latches.
    + apply (changes_at_most_once _ true). intros s' i. apply step_latches.
    + apply (changes_at_most_once _ true). intros s' i. apply step_latches.
    + apply (changes_at_most_once _ true). intros s' i. apply step_latches.
  - intros nm src size mode ins. cbv zeta. intros Hbytes.
    destruct (needsLoading (book (run _ ins))) eqn:Hn; [|done].
    apply run_unloaded in Hn; [|done..]. by destruct Hn as [Hab _].
  - apply startBookBinding_needsLoading.
  - intros nm ab size s Hstarted. rewrite startBookBinding_eq, Hstarted. done.
Qed.

Lemma C5_flags_are_latches_witness :
  startBookBinding "foo.cbz" (Some []) None loaded_state
  = (AlreadyRejected AlreadyBinding, loaded_state)
  /\ needsLoading (book loaded_state) = false.
Proof.
  destruct C5_flags_are_latches as (_ & _ & _ & Hbytes & _ & _ & Hguard).
  split.
  - apply Hguard. vm_compute; reflexivity.
  - apply (Hbytes "foo.cbz" SrcUndefined (-1) None
             [CallLoadFromArrayBuffer "foo.cbz" [x50; x4b; x03; x04]%byte;
              BinderCreated sample_answers; BinderStarted]).
    vm_compute. discriminate.
Defined.

(** ** When the Book holds its BookBinder *)

Lemma step_binder_move s i : binder_move s (step s i).
Proof.
  unfold binder_view.
  destruct i; step_cases;
    try first [ by apply move_none
          | by eapply (move_begin _ _ (AwaitingBinder _ _ _)); [| |reflexivity]
          | by eapply (move_begin _ _ (BindingFailed _)); [| |reflexivity]
          | by eapply move_created
          | by eapply move_started
          | by eapply move_failed; [|done]; rewrite ?H, ?H0, ?H1
          | by eapply move_fed ].
Qed.

Lemma step_binder_inv s i : binder_inv s -> binder_inv (step s i).
Proof.
  unfold binder_inv. intros [Hstarted Hbinder].
  destruct (step_binder_move s i)
    as [Hv|p Hs Hp Hv|nm ab sz bb Hpi Hv|bb Hpi Hv|e Hpi Hv|bb bb' Hbb Hv];
    unfold binder_view in Hv; injection Hv as -> -> ->; try done;
    destruct (pipeline s) eqn:Hpi'; destruct_or?; simplify_eq; try done;
    try (split; [by right|]); try (by destruct p); try congruence; eauto.
Qed.

Lemma run_binder_inv ins : forall s, binder_inv s -> binder_inv (run s ins).
Proof.
  induction ins as [|i ins IH]; intros s Hinv; [done|].
  rewrite run_cons. by apply IH, step_binder_inv.
Qed.

(** C8: before [#bookBinder] is set, [getMIMEType()] fails with the
    not-bound error while the three percentage getters return 0; once it
    is set, each of the four returns what the Binder's query returns.
    On every run of a new Book the field is set exactly when the binding
    pipeline has run to its end, that is when [bookBinder.start()] has
    resolved. *)
Theorem C8_queries_delegate_to_binder :
  (forall b,
      match bookBinder b with
      | None =>
          getMIMEType b = Throw NoBookBinder
          /\ classify NoBookBinder = NotBoundError
          /\ getLoadingPercentage b = Normal 0%Q
          /\ getUnarchivingPercentage b = Normal 0%Q
          /\ getLayoutPercentage b = Normal 0%Q
      | Some bb =>
          getMIMEType b = Normal (binder_mimeType bb)
          /\ getLoadingPercentage b = Normal (binder_loadingPercentage bb)
          /\ getUnarchivingPercentage b = Normal (binder_unarchivingPercentage bb)
          /\ getLayoutPercentage b = Normal (binder_layoutPercentage bb)
      end)
  /\ (forall nm src size mode ins,
        let s := run (new_state (Book_fields nm src size) mode) ins in
        match pipeline s with
        | Bound => is_Some (bookBinder (book s))
        | _ => bookBinder (book s) = None
        end).
Proof.
  split.
  - intros b.
    unfold getMIMEType, getLoadingPercentage, getUnarchivingPercentage,
      getLayoutPercentage.
    destruct (bookBinder b); repeat split.
  - intros nm src size mode ins. cbv zeta.
    apply (run_binder_inv ins (new_state (Book_fields nm src size) mode)).
    split; [by left|done].
Qed.

Lemma C8_queries_delegate_to_binder_witness :
  getMIMEType sample_book = Throw NoBookBinder
  /\ let s := run (new_state (Book_fields "foo.cbz" SrcUndefined (-1)) None)
                [CallLoadFromArrayBuffer "foo.cbz" [x50; x4b; x03; x04]%byte;
                 BinderCreated sample_answers; BinderStarted] in
     match pipeline s with
     | Bound => is_Some (bookBinder (book s))
     | _ => bookBinder (book s) = None
     end.
Proof.
  destruct C8_queries_delegate_to_binder as [Hget Hrun]. split.
  - pose proof (Hget sample_book) as Hnew. simpl in Hnew. apply Hnew.
  - apply Hrun.
Defined.

(** ** Delivering chunks *)

Lemma pump_data_queue size chunks : forall s bookUri nm ab sz,
  loader s = PumpListening bookUri (Some ThePipeline) ->
  pipeline s = AwaitingBinder nm ab sz ->
  run s (map (data size) chunks)
  = set_reactions (reactions s ++ queued size chunks) s.
Proof.
  induction chunks as [|x xs IH]; intros s bookUri nm ab sz Hlo Hpi.
  - simpl. rewrite app_nil_r. by destruct s.
  - simpl map. rewrite run_cons.
    assert (Hstep : step s (data size x)
                    = set_reactions (reactions s ++ queued size [x]) s).
    { unfold data, step, on_pump_event, handleBookPumpEvents, then_.
      by rewrite Hlo, Hpi. }
    rewrite Hstep. erewrite IH; [|done..].
    destruct s; simpl. by rewrite <- app_assoc.
Qed.

Lemma pump_drain size chunks : forall s bb acc rest,
  bookBinder (book s) = Some bb ->
  arrayBuffer (book s) = Some acc ->
  microtasks s = map OnFulfilled (queued size chunks) ++ rest ->
  run s (replicate (length chunks) Microtask)
  = set_microtasks rest
      (upd_book (fun b =>
         set_arrayBuffer (Some (acc ++ concat chunks))
           (set_bookBinder (Some (binder_feed bb chunks)) b)) s).
Proof.
  induction chunks as [|x xs IH]; intros s bb acc rest Hbb Hacc Hmi.
  - simpl in *. rewrite app_nil_r. destruct s as [[] ]. simpl in *. by subst.
  - simpl replicate. rewrite run_cons.
    assert (Hstep : step s Microtask
       = set_microtasks (map OnFulfilled (queued size xs) ++ rest)
           (upd_book (fun b => set_arrayBuffer (Some (acc ++ x))
              (set_bookBinder (Some (binder_appendBytes x bb)) b)) s)).
    { unfold step. rewrite Hmi. simpl. unfold pump_callback. simpl.
      rewrite Hbb. rewrite appendBytes_eq. simpl. rewrite Hacc.
      by destruct s as [[] ]. }
    rewrite Hstep. erewrite IH; [|done..].
    destruct s as [[] ]. simpl. unfold upd_book. simpl.
    by rewrite <- app_assoc.
Qed.

Lemma pump_late size chunks : forall s bookUri bb acc,
  loader s = PumpListening bookUri (Some ThePipeline) ->
  pipeline s = Bound ->
  bookBinder (book s) = Some bb ->
  arrayBuffer (book s) = Some acc ->
  microtasks s = [] ->
  run s (flat_map (fun ab => [data size ab; Microtask]) chunks)
  = upd_book (fun b =>
      set_arrayBuffer (Some (acc ++ concat chunks))
        (set_bookBinder (Some (binder_feed bb chunks)) b)) s.
Proof.
  induction chunks as [|x xs IH]; intros s bookUri bb acc Hlo Hpi Hbb Hacc Hmi.
  - simpl in *. rewrite app_nil_r. destruct s as [[] ]. simpl in *. by subst.
  - simpl flat_map. rewrite !run_cons.
    assert (Hstep : step (step s (data size x)) Microtask
       = upd_book (fun b => set_arrayBuffer (Some (acc ++ x))
              (set_bookBinder (Some (binder_appendBytes x bb)) b)) s).
    { unfold data, step, on_pump_event, handleBookPumpEvents, then_, enqueue.
      rewrite Hlo, Hpi, Hmi. simpl.
      unfold pump_callback. simpl.
      rewrite Hbb. rewrite appendBytes_eq. simpl. rewrite Hacc.
      destruct s as [[] ]. simpl in *. by subst. }
    rewrite Hstep. erewrite IH; [|done..].
    destruct s as [[] ]. simpl. unfold upd_book. simpl.
    by rewrite <- app_assoc.
Qed.

Lemma binder_fed_foldl chunks : forall bb,
  binder_fed (binder_feed bb chunks)
  = binder_fed bb ++ chunks.
Proof.
  induction chunks as [|x xs IH]; intros bb; simpl.
  - by rewrite app_nil_r.
  - rewrite IH. simpl. by rewrite <- app_assoc.
Qed.

Lemma pump_bound b mode bookUri size a c early :
  needsLoading b = true -> startedBinding b = false ->
  truthy_string (uri b) = false ->
  let s := run (new_state b mode) (pump_binding bookUri size a c early) in
  loader s = PumpListening bookUri (Some ThePipeline)
  /\ pipeline s = Bound
  /\ bookBinder (book s) = Some (binder_start (createBookBinder bookUri c size a))
  /\ arrayBuffer (book s) = Some c
  /\ microtasks s = map OnFulfilled (queued size early)
  /\ dispatched s = []
  /\ loadPromise s = Pending
  /\ finishedLoading (book s) = finishedLoading b.
Proof.
  intros Hn Hs Hu. cbv zeta. unfold pump_binding.
  change ([CallLoadFromBookPump bookUri; data size c] ++ ?l)
    with (CallLoadFromBookPump bookUri :: data size c :: l).
  rewrite !run_cons.
  set (s2 := step (step _ _) _).
  assert (Hs2 : s2 =
    set_loader (PumpListening bookUri (Some ThePipeline))
      (set_pipeline (AwaitingBinder bookUri c size)
        (set_loadPromise Pending
          (upd_book (fun b => set_arrayBuffer (Some c)
             (set_startedBinding true (set_needsLoading false b)))
             (new_state b mode))))).
  { subst s2. unfold step at 2. unfold loadFromBookPump. simpl.
    rewrite Hn, Hu. simpl. unfold data, step, on_pump_event. simpl.
    rewrite startBookBinding_eq. simpl. rewrite Hs. done. }
  rewrite Hs2. clear Hs2 s2.
  rewrite run_app.
  erewrite pump_data_queue; [|done..].
  unfold run. simpl. done.
Qed.

Lemma pump_end s bookUri :
  loader s = PumpListening bookUri (Some ThePipeline) ->
  pipeline s = Bound ->
  microtasks s = [] ->
  loadPromise s = Pending ->
  run s [Pump BOOKPUMP_END; Microtask]
  = set_loadPromise Fulfilled (set_loader PumpDetached (mark_loaded s)).
Proof.
  intros Hlo Hpi Hmi Hlp. unfold run. simpl.
  unfold on_pump_event, handleBookPumpEvents, then_, enqueue.
  rewrite Hlo, Hpi, Hmi. simpl.
  unfold resolve_load. simpl. rewrite Hlo. simpl. rewrite Hlp.
  destruct s as [[] ]. simpl in *. by subst.
Qed.

Lemma pump_scenario b mode bookUri size a c early late :
  needsLoading b = true -> startedBinding b = false ->
  truthy_string (uri b) = false ->
  let s := run (new_state b mode) (pump_schedule bookUri size a c early late) in
  arrayBuffer (book s) = Some (concat (c :: early ++ late))
  /\ observed s = c :: early ++ late
  /\ dispatched s = [BookLoadingCompleteEvent]
  /\ finishedLoading (book s) = true
  /\ loadPromise s = Fulfilled.
Proof.
  intros Hn Hs Hu. cbv zeta. unfold pump_schedule.
  rewrite run_app.
  destruct (pump_bound b mode bookUri size a c early Hn Hs Hu)
    as (Hlo & Hpi & Hbb & Hab & Hmi & Hdi & Hlp & Hfl).
  set (s1 := run (new_state b mode) _) in *.
  rewrite run_app.
  erewrite (pump_drain size early s1 _ c []); [|done|done|by rewrite app_nil_r].
  rewrite run_app.
  erewrite pump_late; [|done..].
  erewrite pump_end; [|done..].
  unfold observed. simpl. rewrite Hpi, Hdi. simpl.
  rewrite !binder_fed_foldl. simpl.
  rewrite concat_app, !app_assoc. done.
Qed.

Lemma fetch_loop chunks : forall s bb acc,
  loader s = FetchAwaitingChunk ->
  bookBinder (book s) = Some bb ->
  arrayBuffer (book s) = Some acc ->
  run s (map (fun ab => ReaderRead (Some ab)) chunks)
  = upd_book (fun b =>
      set_arrayBuffer (Some (acc ++ concat chunks))
        (set_bookBinder (Some (binder_feed bb chunks)) b)) s.
Proof.
  induction chunks as [|x xs IH]; intros s bb acc Hlo Hbb Hacc.
  - simpl in *. rewrite app_nil_r. destruct s as [[] ]. simpl in *. by subst.
  - simpl map. rewrite run_cons.
    assert (Hstep : step s (ReaderRead (Some x))
       = upd_book (fun b => set_arrayBuffer (Some (acc ++ x))
              (set_bookBinder (Some (binder_appendBytes x bb)) b)) s).
    { unfold step, on_reader_read. rewrite Hlo, appendBytes_eq, Hacc. simpl.
      rewrite Hbb. destruct s as [[] ]. simpl in *. by subst. }
    rewrite Hstep. erewrite IH; [|done..].
    destruct s as [[] ]. simpl. unfold upd_book. simpl.
    by rewrite <- app_assoc.
Qed.

Lemma fetch_scenario b a c rest :
  needsLoading b = true -> startedBinding b = false ->
  is_Some (request b) ->
  let s := run (new_state b (Some "chunkByChunk")) (fetch_schedule a c rest) in
  arrayBuffer (book s) = Some (concat (c :: rest))
  /\ observed s = c :: rest
  /\ dispatched s = [BookLoadingStartedEvent; BookLoadingCompleteEvent]
  /\ finishedLoading (book s) = true
  /\ loadPromise s = Fulfilled.
Proof.
  intros Hn Hs Hr. cbv zeta. unfold fetch_schedule.
  rewrite run_app. 
  set (s1 := run (new_state b _) _).
  assert (H1 : loader s1 = FetchAwaitingChunk
               /\ bookBinder (book s1)
                  = Some (binder_start
                            (createBookBinder (name b) c (Some (expectedSize b)) a))
               /\ arrayBuffer (book s1) = Some c
               /\ pipeline s1 = Bound
               /\ dispatched s1 = [BookLoadingStartedEvent]
               /\ loadPromise s1 = Pending).
  { subst s1. unfold run. simpl. unfold loadFromFetch. simpl.
    rewrite Hn, (bool_decide_eq_true_2 _ Hr). simpl.
    unfold on_reader_read. simpl. rewrite startBookBinding_eq. simpl.
    rewrite Hs. simpl. done. }
  destruct H1 as (Hlo & Hbb & Hab & Hpi & Hdi & Hlp).
  rewrite run_app. erewrite fetch_loop; [|done..].
  unfold run. simpl. unfold on_reader_read. simpl. rewrite Hlo.
  unfold observed, finish_loading, resolve_load. simpl.
  rewrite ?Hlp; simpl; rewrite ?Hpi, ?Hdi; simpl.
  rewrite binder_fed_foldl. done.
Qed.

Lemma chunkByChunk_spec s :
  chunkByChunk s = bool_decide (fetchMode s = Some "chunkByChunk").
Proof.
  unfold chunkByChunk. destruct (fetchMode s) as [m|]; [|done].
  destruct (String.eqb_spec m "chunkByChunk") as [->|Hne].
  - by rewrite bool_decide_eq_true_2.
  - rewrite bool_decide_eq_false_2; [done|]. congruence.
Qed.

Lemma deliver_spec st b mode a chunks :
  needsLoading b = true -> startedBinding b = false ->
  suits st b mode = true -> admits st chunks = true ->
  let s := run (new_state b mode) (deliver st a chunks) in
  arrayBuffer (book s) = Some (concat chunks)
  /\ observed s = chunks
  /\ finishedLoading (book s) = true
  /\ loadPromise s = Fulfilled.
Proof.
  intros Hn Hs Hsuits Hadmits. cbv zeta.
  destruct chunks as [|c rest]; [by destruct st|].
  destruct st; simpl in Hadmits; try (destruct rest; [|done]);
    simpl in Hsuits;
    repeat match goal with
           | H : _ && _ = true |- _ => apply andb_true_iff in H as [? ?]
           | H : negb _ = true |- _ => apply negb_true_iff in H
           end.
  - (* one buffer *)
    unfold run. simpl. unfold loadFromArrayBuffer. simpl.
    rewrite Hn, Hsuits. simpl. rewrite startBookBinding_eq. simpl. rewrite Hs.
    simpl. unfold observed. simpl. by rewrite app_nil_r.
  - (* XHR *)
    unfold run. simpl. unfold loadFromXhr. simpl.
    rewrite Hn, Hsuits. simpl. unfold on_xhr_load. simpl.
    rewrite startBookBinding_eq. simpl. rewrite Hs.
    simpl. unfold observed. simpl. by rewrite app_nil_r.
  - (* fetch, whole body *)
    unfold run. simpl. unfold loadFromFetch. simpl.
    rewrite Hn, H. simpl. unfold on_fetch_response. cbn -[chunkByChunk].
    rewrite chunkByChunk_spec. simpl. rewrite H0. simpl.
    unfold on_response_arrayBuffer. simpl.
    rewrite startBookBinding_eq. simpl. rewrite Hs.
    simpl. unfold observed. simpl. by rewrite app_nil_r.
  - (* fetch, chunk by chunk *)
    apply bool_decide_eq_true in H0 as ->.
    apply bool_decide_eq_true in H.
    destruct (fetch_scenario b a c rest Hn Hs H) as (? & ? & _ & ? & ?).
    done.
  - (* file *)
    apply bool_decide_eq_true in H0 as [f Hf].
    unfold run. simpl. unfold loadFromFile. simpl.
    rewrite Hn, H, Hf. simpl. unfold on_fileReader_load. simpl.
    rewrite startBookBinding_eq. simpl. rewrite Hs.
    simpl. unfold observed. simpl. by rewrite app_nil_r.
  - (* file handle *)
    apply bool_decide_eq_false in H1.
    assert (Hf : file b = None).
    { destruct (file b); [|done]. by destruct H1. }
    unfold run. simpl. unfold loadFromFile. simpl.
    rewrite Hn, H, Hf, H0. simpl. unfold on_fileReader_load. simpl.
    rewrite startBookBinding_eq. simpl. rewrite Hs.
    simpl. unfold observed. simpl. by rewrite app_nil_r.
  - (* BookPump *)
    destruct (pump_scenario b mode bookUri totalExpectedSize a c
                (take early rest) (drop early rest) Hn Hs Hsuits)
      as (Hab & Hob & _ & Hfl & Hlp).
    simpl deliver. rewrite take_drop in *. done.
Qed.


(** [load()] runs the loader of the source the Book was given. *)
Lemma load_dispatches s :
  step s CallLoad =
    if bool_decide (is_Some (request (book s))) then step s CallLoadFromFetch
    else if truthy_string (uri (book s)) then step s CallLoadFromXhr
    else if bool_decide (is_Some (file (book s)))
            || truthy_source (fileHandle (book s))
    then step s CallLoadFromFile
    else s.
Proof.
  unfold step, load, rejected.
  repeat case_match; simplify_eq; simpl; try done;
    repeat match goal with H : _ = (_, _) |- _ => rewrite H end; done.
Qed.

(** C1: [appendBytes(chunk)] fills a newly allocated array of
    old.length + chunk.length bytes with the old bytes followed by the
    chunk, and makes it the Book's buffer.  For every ingestion strategy
    (one buffer, XHR, fetch of the whole body, fetch chunk by chunk,
    file, file handle, BookPump) and every sequence of chunks it
    delivers, the Book ends with the concatenation of the chunks in
    order, whose length is the sum of their lengths; and [load()] is
    a call of the loader of the Book's source. *)
Theorem C1_bytes_are_the_chunks :
  (forall old chunk b,
      arrayBuffer b = Some old ->
      exists newBuffer,
        Uint8Array_set
          (Uint8Array_new (byteLength old + byteLength chunk)) old 0
        = Normal newBuffer
        /\ Uint8Array_set newBuffer chunk (byteLength old) = Normal (old ++ chunk)
        /\ appendBytes chunk b = Normal (set_arrayBuffer (Some (old ++ chunk)) b)
        /\ byteLength (old ++ chunk) = (byteLength old + byteLength chunk)%nat)
  /\ (forall st nm src size mode a chunks,
        suits st (Book_fields nm src size) mode = true ->
        admits st chunks = true ->
        let s := run (new_state (Book_fields nm src size) mode)
                   (deliver st a chunks) in
        getArrayBuffer (book s) = Some (concat chunks)
        /\ byteLength (concat chunks) = sum_list (byteLength <$> chunks)
        /\ isFinishedLoading (book s) = true
        /\ loadPromise s = Fulfilled)
  /\ (forall s,
        step s CallLoad =
          if bool_decide (is_Some (request (book s)))
          then step s CallLoadFromFetch
          else if truthy_string (uri (book s)) then step s CallLoadFromXhr
          else if bool_decide (is_Some (file (book s)))
                  || truthy_source (fileHandle (book s))
          then step s CallLoadFromFile
          else s).
Proof.
  split; [|split; [|exact load_dispatches]].
  - intros old chunk b Hold. unfold byteLength.
    exists (old ++ replicate (length chunk) x00). repeat split.
    + rewrite Uint8Array_set_fits
        by (rewrite Uint8Array_new_length; simpl; lia).
      unfold Uint8Array_new. simpl. rewrite drop_replicate.
      do 3 f_equal. lia.
    + rewrite Uint8Array_set_fits
        by (rewrite length_app, length_replicate; lia).
      f_equal. rewrite take_app_length.
      rewrite drop_ge; [by rewrite app_nil_r|].
      rewrite length_app, length_replicate. lia.
    + by apply appendBytes_spec.
    + apply length_app.
  - intros st nm src size mode a chunks Hsuits Hadmits. cbv zeta.
    destruct (deliver_spec st (Book_fields nm src size) mode a chunks)
      as (Hab & _ & Hfl & Hlp); try done.
    repeat split; try done.
    unfold byteLength. apply length_concat.
Qed.

Lemma C1_bytes_are_the_chunks_witness :
  getArrayBuffer (book pumped_state) = Some [x50; x4b; x03; x04]%byte
  /\ appendBytes [x03]%byte (book loaded_state)
     = Normal (set_arrayBuffer (Some [x50; x4b; x03; x04; x03]%byte)
                 (book loaded_state)).
Proof.
  destruct C1_bytes_are_the_chunks as (Happend & Hdeliver & _). split.
  - apply (Hdeliver (PushProducer "foo.cbz" (Some 4) 0%nat) "foo.cbz"
             SrcUndefined (-1) None sample_answers
             [[x50; x4b]; [x03; x04]]%byte); reflexivity.
  - destruct (Happend [x50; x4b; x03; x04]%byte [x03]%byte (book loaded_state))
      as (_ & _ & _ & H & _); [vm_compute; reflexivity | exact H].
Defined.


(** ** Chunks of a BookPump reach the Binder in the order they arrive *)

Lemma pump_inv_view arrived s s' :
  pump_view s = pump_view s' -> pump_inv arrived s -> pump_inv arrived s'.
Proof.
  unfold pump_view, pump_inv, observed. intros [= Hn Hs Hb Hr Hm Hl Hp].
  by rewrite Hn, Hs, Hb, Hr, Hm, Hl, Hp.
Qed.

Lemma step_passive s i :
  needsLoading (book s) = false -> pump_loader s -> passive i ->
  pump_view (step s i) = pump_view s.
Proof.
  unfold pump_loader, pump_view. intros Hn Hlo Hi.
  destruct i; try done; step_cases; try done; try congruence;
    rewrite Hn in *; simpl in *; done.
Qed.

Lemma omap_snoc {A B} (f : A -> option B) l x :
  omap f (l ++ [x]) = omap f l ++ from_option (fun y => [y]) [] (f x).
Proof. rewrite omap_app. simpl. by destruct (f x). Qed.

Lemma omap_microtask_fulfilled rs :
  omap microtask_data (map OnFulfilled rs) = omap reaction_data rs.
Proof.
  induction rs as [|r rs IH]; [done|].
  change (map OnFulfilled (r :: rs)) with (OnFulfilled r :: map OnFulfilled rs).
  cbn [omap list_omap microtask_data]. by rewrite <- IH.
Qed.

Lemma Forall_pump_fulfilled rs :
  Forall pump_reaction rs -> Forall pump_microtask (map OnFulfilled rs).
Proof. intros H. by apply Forall_fmap. Qed.

Lemma Forall_pump_rejected rs e :
  Forall pump_reaction rs -> Forall pump_microtask (map (fun r => OnRejected r e) rs).
Proof. intros H. by apply Forall_fmap. Qed.

Ltac pump_states Hinv s :=
  let Hn := fresh "Hn" in
  let Hre := fresh "Hre" in
  let Hmi := fresh "Hmi" in
  let Hcase := fresh "Hcase" in
  let Hlo := fresh "Hlo" in
  let Hpi := fresh "Hpi" in
  destruct Hinv as (Hn & Hre & Hmi & Hcase); unfold observed in Hcase;
  destruct (loader s) as [| | | | | | | | |? [[|?]|]| |] eqn:Hlo; try done;
  destruct (pipeline s) as [|? ? ?|?| |?] eqn:Hpi; try done;
  destruct_and?.

Ltac pump_facts s :=
  repeat match goal with
         | H : needsLoading (book s) = _ |- _ => rewrite !H
         | H : loader s = _ |- _ => rewrite !H
         | H : pipeline s = _ |- _ => rewrite !H
         | H : startedBinding (book s) = _ |- _ => rewrite !H
         | H : bookBinder (book s) = _ |- _ => rewrite !H
         end.

Ltac pump_goal s :=
  unfold pump_inv, observed; cbn -[fresh dom insert];
  pump_facts s; cbn -[fresh dom insert];
  rewrite ?omap_snoc, ?omap_app, ?omap_microtask_fulfilled, ?Forall_app;
  cbn -[fresh dom insert];
  rewrite ?app_nil_r, ?app_assoc;
  split_and?; try done; try (by repeat constructor);
  try (by apply prefix_app_r);
  try (by apply Forall_pump_fulfilled);
  try (by apply Forall_pump_rejected);
  repeat match goal with
         | H : reactions s = [] |- _ => rewrite H in *; clear H
         | H : microtasks s = [] |- _ => rewrite H in *; clear H
         end;
  subst; cbn -[fresh dom insert]; pump_facts s;
  rewrite ?app_nil_r, ?app_assoc; try done;
  try (rewrite <- ?app_assoc; cbn [app]; done).

Lemma pump_inv_step arrived s i :
  pump_inv arrived s -> pump_inv (arrived ++ pump_data [i]) (step s i).
Proof.
  intros Hinv.
  assert (Hpassive : passive i -> pump_inv (arrived ++ pump_data [i]) (step s i)).
  { intros Hi. assert (pump_data [i] = []) as -> by (by destruct i).
    rewrite app_nil_r. destruct Hinv as (Hn & Hre & Hmi & Hcase).
    eapply pump_inv_view; [symmetry; apply step_passive; try done|].
    - unfold pump_loader. by destruct (loader s).
    - done. }
  destruct i; try (by apply Hpassive); clear Hpassive.
  - (* an event of the pump *)
    pump_states Hinv s; destruct evt as [chunk csz| |err];
    unfold step, on_pump_event, handleBookPumpEvents, then_, enqueue,
      reject_load, pump_data;
    pump_facts s; cbn -[fresh dom insert];
    rewrite ?startBookBinding_eq; pump_facts s; cbn -[fresh dom insert];
    try match goal with |- context [loadPromise s] => destruct (loadPromise s) end;
    pump_goal s.
  - (* the Binder is created *)
    pump_states Hinv s;
    unfold step, on_binder_created, pump_data;
    pump_facts s; cbn -[fresh dom insert]; pump_goal s.
  - pump_states Hinv s;
    unfold step, on_binder_creation_failed, reject_pipeline, pump_data;
    pump_facts s; cbn -[fresh dom insert]; pump_goal s.
  - pump_states Hinv s;
    unfold step, on_binder_started, fulfil_pipeline, pump_data;
    pump_facts s; cbn -[fresh dom insert]; pump_goal s.
  - pump_states Hinv s;
    unfold step, on_binder_start_failed, reject_pipeline, pump_data;
    pump_facts s; cbn -[fresh dom insert]; pump_goal s.
  - (* the next job of the microtask queue *)
    unfold pump_data; rewrite app_nil_r.
    destruct (microtasks s) as [|m rest] eqn:Hms.
    { unfold step. by rewrite Hms. }
    pump_states Hinv s; try congruence;
    rewrite Hms in *;
    (match goal with H : Forall pump_microtask (_ :: _) |- _ =>
       inversion H as [|? ? Hm Hrest]; subst end);
    destruct m as [[?|evt]|[?|evt] ?]; try done; try destruct evt as [chunk csz| |?];
    repeat match goal with H : is_Some _ |- _ => destruct H as [? H] end;
    try match goal with
        | H : bookBinder (book s) = Some _ |- _ => rewrite H in *
        end;
    cbn [omap list_omap microtask_data reaction_data] in *;
    unfold step, run_microtask, pump_callback, mark_loaded, resolve_load,
      dispatchEvent, upd_book;
    rewrite ?Hms; cbn -[fresh dom insert];
    pump_facts s; cbn -[fresh dom insert];
    try match goal with
        | |- context [bookBinder (book s)] => destruct (bookBinder (book s))
        end;
    rewrite ?appendBytes_eq; cbn -[fresh dom insert];
    try match goal with
        | |- context [arrayBuffer (book s)] => destruct (arrayBuffer (book s))
        end;
    pump_facts s; cbn -[fresh dom insert];
    try match goal with |- context [loadPromise s] => destruct (loadPromise s) end;
    pump_goal s.
Qed.

Lemma pump_data_app ins1 ins2 :
  pump_data (ins1 ++ ins2) = pump_data ins1 ++ pump_data ins2.
Proof. apply omap_app. Qed.

Lemma pump_inv_run ins : forall arrived s,
  pump_inv arrived s -> pump_inv (arrived ++ pump_data ins) (run s ins).
Proof.
  induction ins as [|i ins IH]; intros arrived s Hinv.
  - by rewrite app_nil_r.
  - rewrite run_cons. change (i :: ins) with ([i] ++ ins).
    rewrite pump_data_app, app_assoc. by apply IH, pump_inv_step.
Qed.

Lemma pump_inv_start b mode bookUri :
  needsLoading b = true -> startedBinding b = false ->
  truthy_string (uri b) = false ->
  pump_inv [] (step (new_state b mode) (CallLoadFromBookPump bookUri)).
Proof.
  intros Hn Hs Hu. unfold step, loadFromBookPump. simpl. rewrite Hn, Hu. simpl.
  unfold pump_inv. simpl. by rewrite Hs.
Qed.

Lemma pump_inv_observed arrived s :
  pump_inv arrived s -> observed s `prefix_of` arrived.
Proof.
  intros (_ & _ & _ & Hcase).
  destruct (loader s) as [| | | | | | | | |? [[|?]|]| |]; try done;
    destruct (pipeline s) eqn:Hpi; try done;
    try (unfold observed; rewrite Hpi; apply prefix_nil);
    destruct_and?.
  - subst. by apply prefix_app_r.
  - subst. by apply prefix_app_r.
  - subst. by apply prefix_app_r.
  - etrans; [|done]. by apply prefix_app_r.
Qed.

Lemma pump_first_chunk b mode bookUri size c :
  needsLoading b = true -> startedBinding b = false ->
  truthy_string (uri b) = false ->
  run (new_state b mode) [CallLoadFromBookPump bookUri; data size c]
  = set_loader (PumpListening bookUri (Some ThePipeline))
      (set_pipeline (AwaitingBinder bookUri c size)
        (set_loadPromise Pending
          (upd_book (fun b => set_arrayBuffer (Some c)
             (set_startedBinding true (set_needsLoading false b)))
             (new_state b mode)))).
Proof.
  intros Hn Hs Hu. unfold run. simpl. unfold loadFromBookPump. simpl.
  rewrite Hn, Hu. simpl. unfold on_pump_event. simpl.
  rewrite startBookBinding_eq. simpl. by rewrite Hs.
Qed.

Lemma pump_waiting b mode bookUri size c early :
  needsLoading b = true -> startedBinding b = false ->
  truthy_string (uri b) = false ->
  let s := run (new_state b mode)
             ([CallLoadFromBookPump bookUri; data size c] ++ map (data size) early) in
  observed s = [c] /\ reactions s = queued size early /\ microtasks s = [].
Proof.
  intros Hn Hs Hu. cbv zeta.
  rewrite run_app, pump_first_chunk by done.
  erewrite pump_data_queue; [|done..]. done.
Qed.

Lemma pump_replay b mode bookUri size a c early k :
  needsLoading b = true -> startedBinding b = false ->
  truthy_string (uri b) = false ->
  (k <= length early)%nat ->
  let s := run (new_state b mode)
             (pump_binding bookUri size a c early ++ replicate k Microtask) in
  observed s = c :: take k early
  /\ arrayBuffer (book s) = Some (concat (c :: take k early))
  /\ microtasks s = map OnFulfilled (queued size (drop k early)).
Proof.
  intros Hn Hs Hu Hk. cbv zeta. rewrite run_app.
  destruct (pump_bound b mode bookUri size a c early Hn Hs Hu)
    as (Hlo & Hpi & Hbb & Hab & Hmi & _).
  set (s1 := run (new_state b mode) _) in *.
  assert (Hlen : length (take k early) = k) by (rewrite length_take; lia).
  assert (Hq : microtasks s1
               = map OnFulfilled (queued size (take k early))
                 ++ map OnFulfilled (queued size (drop k early))).
  { rewrite Hmi. unfold queued. rewrite <- !map_app. by rewrite take_drop. }
  pose proof (pump_drain size (take k early) s1 _ c _ Hbb Hab Hq) as Hrun.
  rewrite Hlen in Hrun. rewrite Hrun.
  unfold observed. simpl. rewrite Hpi. by rewrite binder_fed_foldl.
Qed.

(** C2: in a load from a BookPump, the Binder observes the chunks in
    the order in which they arrived.  The first chunk is given to the
    Binder's factory; every data-received callback that arrives before
    the binding promise resolves is queued behind it, and once it has
    resolved the queued callbacks run one at a time, in arrival order,
    each appending its chunk to the Binder and to the Book.  On every
    run whatsoever, what the Binder has observed is an initial segment
    of what the pump has sent. *)
Theorem C2_pump_chunks_in_arrival_order nm src size mode bookUri :
  truthy_string (uri (Book_fields nm src size)) = false ->
  let s0 := new_state (Book_fields nm src size) mode in
  (forall sz a c early,
      let waiting :=
        run s0 ([CallLoadFromBookPump bookUri; data sz c] ++ map (data sz) early) in
      observed waiting = [c] /\ reactions waiting = queued sz early
      /\ forall k, (k <= length early)%nat ->
           let replayed :=
             run s0 (pump_binding bookUri sz a c early ++ replicate k Microtask) in
           observed replayed = c :: take k early
           /\ getArrayBuffer (book replayed) = Some (concat (c :: take k early))
           /\ microtasks replayed = map OnFulfilled (queued sz (drop k early)))
  /\ (forall ins,
        observed (run s0 (CallLoadFromBookPump bookUri :: ins))
        `prefix_of` pump_data ins).
Proof.
  intros Hu. cbv zeta. split.
  - intros sz a c early.
    destruct (pump_waiting (Book_fields nm src size) mode bookUri sz c early)
      as (Hob & Hre & _); try done.
    split; [done|split; [done|]]. intros k Hk.
    by apply pump_replay.
  - intros ins. rewrite run_cons.
    apply (pump_inv_observed ([] ++ pump_data ins)).
    apply pump_inv_run. by apply pump_inv_start.
Qed.

Lemma C2_pump_chunks_in_arrival_order_witness :
  observed
    (run (new_state sample_book None)
       (pump_binding "foo.cbz" (Some 6) sample_answers [x50]%byte
          [[x4b]; [x03]]%byte ++ replicate 2 Microtask))
  = [[x50]; [x4b]; [x03]]%byte.
Proof.
  destruct (C2_pump_chunks_in_arrival_order "foo.cbz" SrcUndefined (-1) None
              "foo.cbz" eq_refl) as [Hreplay _].
  destruct (Hreplay (Some 6) sample_answers [x50]%byte [[x4b]; [x03]]%byte)
    as (_ & _ & Hk).
  destruct (Hk 2%nat) as (Hob & _); [simpl; lia|]. exact Hob.
Defined.

(** ** Loading and binding milestones *)

Lemma step_loading_started s i :
  needsLoading (book s) = false -> loader s <> FileAwaitingHandle ->
  BookLoadingStartedEvent ∈ dispatched (step s i) ->
  BookLoadingStartedEvent ∈ dispatched s.
Proof.
  intros Hn Hlo.
  destruct i; step_cases; try done; try congruence;
    rewrite ?Hn in *; simpl in *; try done;
    rewrite ?elem_of_app, ?list_elem_of_singleton; intros; destruct_or?; try done.
Qed.

Lemma pump_never_announces arrived s ins :
  pump_inv arrived s ->
  BookLoadingStartedEvent ∉ dispatched s ->
  BookLoadingStartedEvent ∉ dispatched (run s ins).
Proof.
  revert arrived s. induction ins as [|i ins IH]; intros arrived s Hinv Hnot; [done|].
  rewrite run_cons. apply (IH (arrived ++ pump_data [i])).
  - by apply pump_inv_step.
  - intros Hin. apply Hnot. destruct Hinv as (Hn & _ & _ & Hcase).
    eapply step_loading_started; [done| |done].
    intros Hlo. by rewrite Hlo in Hcase.
Qed.

(** The loaders other than [loadFromBookPump] dispatch the
    loading-started event before anything else happens. *)
Lemma siblings_announce s :
  dispatched s = [] ->
  (starts (loadFromXhr s) ->
     dispatched (loadFromXhr s).2 = [BookLoadingStartedEvent]
     /\ arrayBuffer (book (loadFromXhr s).2) = arrayBuffer (book s))
  /\ (starts (loadFromFetch s) ->
        dispatched (loadFromFetch s).2 = [BookLoadingStartedEvent]
        /\ arrayBuffer (book (loadFromFetch s).2) = arrayBuffer (book s))
  /\ (forall nm ab, starts (loadFromArrayBuffer nm ab s) ->
        head (dispatched (loadFromArrayBuffer nm ab s).2) = Some BookLoadingStartedEvent)
  /\ (starts (loadFromFile s) ->
        forall f, let s' := step (loadFromFile s).2 (HandleGetFile f) in
        dispatched s' = [BookLoadingStartedEvent]
        /\ arrayBuffer (book s') = arrayBuffer (book s)).
Proof.
  intros Hd. unfold starts.
  repeat split; intros;
    unfold loadFromXhr, loadFromFetch, loadFromArrayBuffer, loadFromFile, step,
      on_handle_getFile, read_file in *;
    rewrite ?startBookBinding_eq in *;
    repeat case_match; simplify_eq; simpl in *; rewrite ?Hd; done.
Qed.

(** [finishedBinding] becomes true in no other step than the one
    handling the Binder's binding-complete event. *)
Lemma finishedBinding_only_on_event s i :
  finishedBinding (book s) = false ->
  finishedBinding (book (step s i)) = true ->
  i = Binder BINDING_COMPLETE.
Proof.
  intros Hf. destruct i; step_cases; try done; congruence.
Qed.

Lemma pump_start_silent b mode bookUri :
  needsLoading b = true -> truthy_string (uri b) = false ->
  dispatched (step (new_state b mode) (CallLoadFromBookPump bookUri)) = [].
Proof.
  intros Hn Hu. unfold step, loadFromBookPump. simpl. by rewrite Hn, Hu.
Qed.

(** C6 (the code departs from it): [loadFromBookPump] is the one
    loader that never dispatches the loading-started event.  On the run
    [pumped_state], where a BookPump delivers two chunks and ends, the
    Book accumulates the four bytes and dispatches loading-complete, and
    loading-started is not among the dispatched events; and no run of a
    load from a BookPump ever dispatches it. *)
Theorem C6_pump_never_announces_loading :
  dispatched pumped_state = [BookLoadingCompleteEvent]
  /\ getArrayBuffer (book pumped_state) = Some [x50; x4b; x03; x04]%byte
  /\ isFinishedLoading (book pumped_state) = true
  /\ isFinishedBinding (book pumped_state) = false
  /\ (forall nm src size mode bookUri ins,
        truthy_string (uri (Book_fields nm src size)) = false ->
        BookLoadingStartedEvent
        ∉ dispatched (run (new_state (Book_fields nm src size) mode)
                        (CallLoadFromBookPump bookUri :: ins))).
Proof.
  split; [vm_compute; reflexivity|].
  split; [vm_compute; reflexivity|].
  split; [vm_compute; reflexivity|].
  split; [vm_compute; reflexivity|].
  intros nm src size mode bookUri ins Hu. rewrite run_cons.
  eapply pump_never_announces.
  - by apply pump_inv_start.
  - rewrite pump_start_silent by done. apply not_elem_of_nil.
Qed.

Lemma C6_pump_never_announces_loading_witness :
  BookLoadingStartedEvent ∉ dispatched pumped_state.
Proof.
  destruct C6_pump_never_announces_loading as (_ & _ & _ & _ & Hnever).
  apply (Hnever "foo.cbz" SrcUndefined (-1) None "foo.cbz"
           (tail (pump_schedule "foo.cbz" (Some 4) sample_answers
                    [x50; x4b]%byte [] [[x03; x04]%byte]))).
  reflexivity.
Defined.

(** ** Metadata is copied on assignment *)

Lemma fresh_not_stored (st : gmap nat BookMetadata) : st !! fresh (dom st) = None.
Proof. apply not_elem_of_dom, is_fresh. Qed.

Lemma mutate_metadata_other r m s r0 :
  r <> r0 -> store (mutate_metadata r m s) !! r0 = store s !! r0.
Proof.
  intros Hne. unfold mutate_metadata. destruct (store s !! r); [|done].
  simpl. by rewrite lookup_insert_ne.
Qed.

Lemma mutate_metadata_book r m s : book (mutate_metadata r m s) = book s.
Proof. unfold mutate_metadata. by destruct (store s !! r). Qed.

Lemma mutations_keep muts : forall s r0 md,
  getMetadata (book s) = Some r0 -> store s !! r0 = Some md ->
  Forall (fun rm => rm.1 <> r0) muts ->
  let s' := run s (mutations muts) in
  getMetadata (book s') = Some r0 /\ store s' !! r0 = Some md.
Proof.
  induction muts as [|[r m] muts IH]; intros s r0 md Hget Hst Hne; [done|].
  apply Forall_cons in Hne as [Hr Hne]. simpl in Hr.
  simpl. apply IH; [| |done].
  - unfold getMetadata. by rewrite mutate_metadata_book.
  - by rewrite mutate_metadata_other.
Qed.

Lemma setMetadata_keeps ms : forall s r,
  is_Some (store s !! r) ->
  store (run s (map CallSetMetadata ms)) !! r = store s !! r.
Proof.
  induction ms as [|m ms IH]; intros s r Hr; [done|].
  simpl map. rewrite run_cons.
  assert (Hstep : store (step s (CallSetMetadata m)) !! r = store s !! r).
  { unfold step. rewrite setMetadata_eq. destruct (store s !! m); [|done].
    simpl. rewrite lookup_insert_ne; [done|].
    intros <-. rewrite fresh_not_stored in Hr. by destruct Hr. }
  rewrite IH; [done|]. by rewrite Hstep.
Qed.

Lemma setMetadata_copies s m md :
  store s !! m = Some md ->
  exists s',
    setMetadata m s = Normal s'
    /\ read_metadata s' = Some md
    /\ (forall r, is_Some (store s !! r) ->
          getMetadata (book s') <> Some r /\ store s' !! r = store s !! r)
    /\ (forall muts,
          Forall (fun rm => is_Some (store s !! rm.1)) muts ->
          read_metadata (run s' (mutations muts)) = Some md).
Proof.
  intros Hm. rewrite setMetadata_eq, Hm.
  set (r0 := fresh (dom (store s))).
  assert (Hfresh : store s !! r0 = None) by apply fresh_not_stored.
  eexists. split; [done|]. split; [|split].
  - unfold read_metadata. simpl. by rewrite lookup_insert_eq.
  - intros r Hr. simpl. split.
    + intros [= ->]. rewrite Hfresh in Hr. by destruct Hr.
    + rewrite lookup_insert_ne; [done|].
      intros ->. rewrite Hfresh in Hr. by destruct Hr.
  - intros muts Hmuts.
    match goal with |- read_metadata (run ?s' _) = _ =>
      destruct (mutations_keep muts s' r0 md) as [Hget Hst] end.
    + done.
    + simpl. by rewrite lookup_insert_eq.
    + eapply Forall_impl; [done|]. intros [r m'] Hr Heq. simpl in *.
      rewrite Heq, Hfresh in Hr. by destruct Hr.
    + unfold read_metadata. rewrite Hget. simpl. done.
Qed.

(** C7: [setMetadata(m)] stores a copy of [m] in a record that did
    not exist before: [getMetadata()] then reads the contents [m] had at
    the call, refers to none of the records that existed, and keeps
    reading the same contents whatever is done afterwards to records
    that existed at the call, the caller's among them, although those
    changes do take place.  This holds in every state, so after any
    earlier [setMetadata] calls, and for a whole sequence of calls the
    result is the contents of the last record given. *)
Theorem C7_setMetadata_stores_a_copy (s : State) (m : nat) (md : BookMetadata) :
  store s !! m = Some md ->
  (exists s',
      setMetadata m s = Normal s'
      /\ read_metadata s' = Some md
      /\ (forall r, is_Some (store s !! r) ->
            getMetadata (book s') <> Some r /\ store s' !! r = store s !! r)
      /\ (forall muts,
            Forall (fun rm => is_Some (store s !! rm.1)) muts ->
            read_metadata (run s' (mutations muts)) = Some md)
      /\ (forall md',
            store (run s' (mutations [(m, md')])) !! m = Some md'))
  /\ (forall ms muts,
        Forall (fun r => is_Some (store s !! r)) ms ->
        Forall (fun rm => is_Some (store s !! rm.1)) muts ->
        read_metadata
          (run s (map CallSetMetadata (ms ++ [m]) ++ mutations muts))
        = Some md).
Proof.
  intros Hm. split.
  - destruct (setMetadata_copies s m md Hm) as (s' & Hset & Hread & Hold & Hmut).
    exists s'. repeat split; try done; try (by apply Hold).
    intros md'. unfold run, mutations. simpl. unfold mutate_metadata.
    destruct (Hold m) as [_ Hsame]; [by rewrite Hm|].
    rewrite Hsame, Hm. simpl. by rewrite lookup_insert_eq.
  - intros ms muts Hms Hmuts.
    rewrite run_app, map_app, run_app.
    set (t := run s (map CallSetMetadata ms)).
    assert (Hkeep : forall r, is_Some (store s !! r) -> store t !! r = store s !! r).
    { intros r Hr. by apply setMetadata_keeps. }
    assert (Hmt : store t !! m = Some md).
    { rewrite Hkeep; [done|]. by rewrite Hm. }
    destruct (setMetadata_copies t m md Hmt) as (t' & Hset & _ & _ & Hmut).
    assert (Hrun : run t (map CallSetMetadata [m]) = t').
    { unfold run. simpl. by rewrite Hset. }
    rewrite Hrun. apply Hmut.
    eapply Forall_impl; [done|]. intros [r m'] Hr. simpl in *.
    rewrite Hkeep; done.
Qed.

Lemma C7_setMetadata_stores_a_copy_witness :
  read_metadata
    (run loaded_state
       (map CallSetMetadata [0%nat] ++
        mutations [(0%nat, {| md_bookType := "comic"; md_entries := [("Series", "X")] |})]))
  = Some (createEmptyMetadata "comic").
Proof.
  assert (H : store loaded_state !! 0%nat = Some (createEmptyMetadata "comic"))
    by (vm_compute; reflexivity).
  destruct (C7_setMetadata_stores_a_copy loaded_state 0%nat _ H) as [_ Hseq].
  apply (Hseq [] [(0%nat, {| md_bookType := "comic"; md_entries := [("Series", "X")] |})]).
  - constructor.
  - constructor; [|constructor].
    exists (createEmptyMetadata "comic"). exact H.
Defined.

(** By contrast, the record the Binder announces with its
    metadata-extracted event is stored as it is: a later change to it
    shows through [getMetadata()]. *)
Lemma extracted_metadata_is_shared s r md md' :
  listening s = true -> store s !! r = Some md ->
  read_metadata
    (run s [Binder (METADATA_XML_EXTRACTED r); MutateMetadata r md'])
  = Some md'.
Proof.
  intros Hl Hr. unfold run, read_metadata. simpl.
  unfold on_binder_event, mutate_metadata. rewrite Hl. simpl. rewrite Hr.
  simpl. by rewrite lookup_insert_eq.
Qed.

(** * Further properties *)

(** ** Names and sources *)

Lemma js_lastIndexOf_spec c s :
  (js_lastIndexOf c s = -1 /\ c ∉ String.list_ascii_of_string s)
  \/ (exists pre post,
        s = pre +:+ String c post
        /\ js_lastIndexOf c s = Z.of_nat (String.length pre)
        /\ c ∉ String.list_ascii_of_string post).
Proof.
  induction s as [|a s IH]; simpl.
  - left. split; [done|]. apply not_elem_of_nil.
  - destruct IH as [[Hr Hnot]|(pre & post & -> & Hr & Hnot)]; rewrite Hr.
    + simpl. destruct (Ascii.eqb_spec a c) as [->|Hne].
      * right. exists "", s. by repeat split.
      * left. split; [done|]. rewrite not_elem_of_cons. by split.
    + right. exists (String a pre), post. repeat split; [|done].
      destruct (Z.eqb_spec (Z.of_nat (String.length pre)) (-1)); [lia|].
      simpl String.length. lia.
Qed.

Lemma string_drop_after pre c post :
  string_drop (S (String.length pre)) (pre +:+ String c post) = post.
Proof. induction pre; simpl; auto. Qed.

Lemma append_slash pre post : pre +:+ String "/" post = (pre +:+ "/") +:+ post.
Proof.
  induction pre as [|a pre IH]; [done|].
  change (String a (pre +:+ String "/" post) = String a ((pre +:+ "/") +:+ post)).
  by rewrite IH.
Qed.

Lemma after_last_slash_spec u :
  exists dir,
    u = dir +:+ after_last_slash u
    /\ ~ has_slash (after_last_slash u)
    /\ (dir = "" \/ exists d, dir = d +:+ "/").
Proof.
  unfold after_last_slash, js_substring, has_slash.
  destruct (js_lastIndexOf_spec "/"%char u) as [[-> Hnot]|(pre & post & -> & -> & Hnot)].
  - exists "". simpl. auto.
  - exists (pre +:+ "/").
    replace (Z.to_nat (Z.of_nat (String.length pre) + 1)) with (S (String.length pre)) by lia.
    rewrite string_drop_after, append_slash. split_and!; eauto.
Qed.

(** X1: for a Book whose URI is a non-empty string, or that has no URI
    but a Request, [getFilename()] returns what follows the last '/' of
    that URL: the URL is a directory part, empty or ending in '/',
    followed by the result, and the result contains no '/'. *)
Theorem X1_getFilename_is_last_segment (b : Book) (u : string) :
  (uri b = Some u /\ u <> "") \/ (uri b = None /\ url <$> request b = Some u) ->
  exists dir f,
    getFilename b = Normal (Some f)
    /\ u = dir +:+ f
    /\ ~ has_slash f
    /\ (dir = "" \/ exists d, dir = d +:+ "/").
Proof.
  intros Hsrc.
  destruct (after_last_slash_spec u) as (dir & Hu & Hf & Hdir).
  exists dir, (after_last_slash u). split; [|done].
  unfold getFilename.
  destruct Hsrc as [[Huri Hne]|[Huri Hreq]]; rewrite Huri; simpl.
  - apply String.eqb_neq in Hne. by rewrite Hne.
  - destruct (request b) as [r|]; simplify_eq/=. done.
Qed.

Lemma X1_getFilename_is_last_segment_witness :
  exists dir f,
    getFilename (Book_fields "Issue 1" (SrcString "https://example.org/comics/issue1.cbz") (-1))
    = Normal (Some f)
    /\ "https://example.org/comics/issue1.cbz" = dir +:+ f
    /\ ~ has_slash f
    /\ (dir = "" \/ exists d, dir = d +:+ "/").
Proof.
  apply (X1_getFilename_is_last_segment
           (Book_fields "Issue 1" (SrcString "https://example.org/comics/issue1.cbz") (-1))).
  left. split; [reflexivity|discriminate].
Defined.

(** X2: what [getName()], [getUri()], [getFilename()] and
    [getFileSystemHandle()] return is fixed by the constructor's arguments
    and is the same in every state a run reaches: the name; the URI string
    or the URL of the Request; the last segment of that URL, the name of
    the File or of the handle, or the unknown-source error when no source
    or the empty string was given; and the handle. *)
Theorem X2_identity_of_constructed_book nm src size b mode ins :
  Book_constructor nm src size = Normal b ->
  let s := run (new_state b mode) ins in
  getName (book s) = nm
  /\ getUri (book s) = match src with
                       | SrcString u => Some u
                       | SrcRequest r => Some (url r)
                       | _ => None
                       end
  /\ getFilename (book s) = match src with
                            | SrcString u =>
                                if String.eqb u "" then Throw UnknownSource
                                else Normal (Some (after_last_slash u))
                            | SrcRequest r => Normal (Some (after_last_slash (url r)))
                            | SrcFile f => Normal (Some (file_name f))
                            | SrcFileHandle h => Normal (Some (handle_name h))
                            | SrcUndefined => Throw UnknownSource
                            end
  /\ getFileSystemHandle (book s) = match src with
                                    | SrcFileHandle h => SrcFileHandle h
                                    | SrcString "" => SrcString ""
                                    | _ => SrcUndefined
                                    end.
Proof.
  intros Hb s.
  pose proof (run_source_of (new_state b mode) ins) as Hsrc.
  unfold source_of in Hsrc. fold s in Hsrc. simpl in Hsrc.
  unfold getName, getUri, getFilename, getFileSystemHandle.
  injection Hsrc as -> -> -> -> ->.
  unfold Book_constructor in Hb.
  destruct (String.eqb nm ""); [done|]. injection Hb as <-.
  destruct src as [|u| | |]; simpl; try done.
  destruct (String.eqb u "") eqn:Hu; simpl.
  - apply String.eqb_eq in Hu as ->. done.
  - split_and!; try done. destruct u; [done|]. done.
Qed.

Lemma X2_identity_of_constructed_book_witness :
  let s := run (new_state (Book_fields "Issue 1" (SrcFile {| file_name := "issue1.cbz" |}) 4) None)
             [CallLoad; FileReaderLoad [x50; x4b; x03; x04]%byte] in
  getName (book s) = "Issue 1"
  /\ getUri (book s) = None
  /\ getFilename (book s) = Normal (Some "issue1.cbz")
  /\ getFileSystemHandle (book s) = SrcUndefined.
Proof.
  apply (X2_identity_of_constructed_book "Issue 1"
           (SrcFile {| file_name := "issue1.cbz" |}) 4 _ None
           [CallLoad; FileReaderLoad [x50; x4b; x03; x04]%byte]).
  reflexivity.
Defined.

(** X3: [getFilename()] throws exactly in the states where [load()]
    rejects for want of a source, it throws nothing but the unknown-source
    error, and in those states [getUri()] is undefined or empty. *)
Theorem X3_getFilename_fails_where_load_has_no_source (s : State) :
  (getFilename (book s) = Throw UnknownSource <-> fst (load s) = Rejected NoSource)
  /\ (forall e, getFilename (book s) = Throw e -> e = UnknownSource)
  /\ (fst (load s) = Rejected NoSource -> getUri (book s) = None \/ getUri (book s) = Some "").
Proof.
  unfold getFilename, getUri, load, rejected, loadFromFetch, loadFromXhr, loadFromFile.
  destruct (request (book s)) as [r|]; simpl.
  - rewrite orb_true_r.
    split_and!; [split|..]; intros; repeat case_match; simplify_eq.
  - destruct (uri (book s)) as [u|] eqn:Hu; simpl.
    + destruct (String.eqb u "") eqn:Hempty; simpl.
      * apply String.eqb_eq in Hempty as ->.
        destruct (file (book s)); simpl.
        { split_and!; [split|..]; intros; repeat case_match; simplify_eq; auto. }
        split_and!; [split|..]; intros; repeat case_match; simplify_eq; auto.
      * split_and!; [split|..]; intros; repeat case_match; simplify_eq.
    + destruct (file (book s)); simpl.
      { split_and!; [split|..]; intros; repeat case_match; simplify_eq; auto. }
      split_and!; [split|..]; intros; repeat case_match; simplify_eq; auto.
Qed.

(** X4: a call of [load()] or of a loader that does not get past its
    guards leaves the state as it was; what it throws or rejects with is an
    invalid-state or a source-mismatch error, the former only when
    [needsLoading] is already false. *)
Theorem X4_refused_call_changes_nothing (s : State) (r : outcome * State) :
  r = loadFromXhr s \/ r = loadFromFetch s \/ r = loadFromFile s
  \/ (exists nm ab, r = loadFromArrayBuffer nm ab s)
  \/ (exists u, r = loadFromBookPump u s) \/ r = load s ->
  ~ starts r ->
  snd r = s
  /\ exists e, (fst r = Threw e \/ fst r = Rejected e)
               /\ (classify e = InvalidStateError \/ classify e = SourceMismatchError)
               /\ (classify e = InvalidStateError -> needsLoading (book s) = false).
Proof.
  unfold starts.
  intros [ -> | [ -> | [ -> | [ [nm [ab -> ] ] | [ [u -> ] | -> ] ] ] ] ];
    unfold load, rejected, loadFromXhr, loadFromFetch, loadFromFile,
      loadFromArrayBuffer, loadFromBookPump, read_file;
    rewrite ?startBookBinding_eq;
    destruct (needsLoading (book s)) eqn:Hn; simpl; intros Hr;
    repeat (case_match; simpl in *; simplify_eq);
    try done; (split; [done|]); eexists; (split; [eauto|]); simpl; split; auto; done.
Qed.

Lemma X4_refused_call_changes_nothing_witness :
  snd (loadFromXhr (new_state sample_book None)) = new_state sample_book None
  /\ exists e, (fst (loadFromXhr (new_state sample_book None)) = Threw e
                \/ fst (loadFromXhr (new_state sample_book None)) = Rejected e)
               /\ (classify e = InvalidStateError \/ classify e = SourceMismatchError)
               /\ (classify e = InvalidStateError
                   -> needsLoading (book (new_state sample_book None)) = false).
Proof.
  apply (X4_refused_call_changes_nothing (new_state sample_book None)
           (loadFromXhr (new_state sample_book None))).
  - left. reflexivity.
  - unfold starts. vm_compute. discriminate.
Defined.

(** X5: on a Book that was just constructed, [loadFromXhr] starts
    exactly for a non-empty URI string, [loadFromFetch] exactly for a
    Request, [loadFromFile] exactly for a File or a file handle;
    [loadFromArrayBuffer] and [loadFromBookPump] refuse only a Book with a
    non-empty URI string; and [load()] starts exactly when the source given
    is truthy. *)
Theorem X5_loaders_a_fresh_book_accepts nm src size b mode :
  Book_constructor nm src size = Normal b ->
  let s := new_state b mode in
  (starts (loadFromXhr s) <-> exists u, src = SrcString u /\ u <> "")
  /\ (starts (loadFromFetch s) <-> exists r, src = SrcRequest r)
  /\ (starts (loadFromFile s) <->
        (exists f, src = SrcFile f) \/ (exists h, src = SrcFileHandle h))
  /\ (forall fileName ab,
        starts (loadFromArrayBuffer fileName ab s) <->
        ~ exists u, src = SrcString u /\ u <> "")
  /\ (forall bookUri,
        starts (loadFromBookPump bookUri s) <->
        ~ exists u, src = SrcString u /\ u <> "")
  /\ (starts (load s) <-> truthy_source src = true).
Proof.
  unfold Book_constructor. destruct (String.eqb nm ""); [done|].
  intros Hb. injection Hb as <-. cbv zeta. unfold starts.
  unfold load, rejected, loadFromXhr, loadFromFetch, loadFromFile,
    loadFromArrayBuffer, loadFromBookPump, read_file.
  destruct src as [|u|r|f|h]; simpl;
    try (destruct (String.eqb u "") eqn:Hu; simpl;
         [apply String.eqb_eq in Hu as ->|apply String.eqb_neq in Hu]);
    split_and!; intros; rewrite ?startBookBinding_eq; simpl;
    (split; intros ?); try done;
    repeat match goal with
           | H : ex _ |- _ => destruct H as [? ?]
           | H : _ /\ _ |- _ => destruct H
           | H : _ \/ _ |- _ => destruct H
           | |- ~ _ => intros ?
           end; simplify_eq; eauto.
  all: exfalso; eauto.
Qed.

Lemma X5_loaders_a_fresh_book_accepts_witness :
  let s := new_state (Book_fields "Issue 1" (SrcRequest {| url := "/issue1.cbz" |}) (-1)) None in
  (starts (loadFromXhr s) <->
     exists u, SrcRequest {| url := "/issue1.cbz" |} = SrcString u /\ u <> "")
  /\ (starts (loadFromFetch s) <->
        exists r, SrcRequest {| url := "/issue1.cbz" |} = SrcRequest r)
  /\ (starts (loadFromFile s) <->
        (exists f, SrcRequest {| url := "/issue1.cbz" |} = SrcFile f)
        \/ (exists h, SrcRequest {| url := "/issue1.cbz" |} = SrcFileHandle h))
  /\ (forall fileName ab,
        starts (loadFromArrayBuffer fileName ab s) <->
        ~ exists u, SrcRequest {| url := "/issue1.cbz" |} = SrcString u /\ u <> "")
  /\ (forall bookUri,
        starts (loadFromBookPump bookUri s) <->
        ~ exists u, SrcRequest {| url := "/issue1.cbz" |} = SrcString u /\ u <> "")
  /\ (starts (load s) <-> truthy_source (SrcRequest {| url := "/issue1.cbz" |}) = true).
Proof.
  apply (X5_loaders_a_fresh_book_accepts "Issue 1"
           (SrcRequest {| url := "/issue1.cbz" |}) (-1)).
  reflexivity.
Defined.

(** ** Calls, pages and bytes along a run *)

Lemma started_call_flips s i :
  started (call_outcome s i) = true ->
  needsLoading (book s) = true /\ needsLoading (book (step s i)) = false.
Proof.
  destruct i; try done; unfold call_outcome, step;
    match goal with
    | |- started (Some (fst ?r)) = true -> _ =>
        intros Hst; apply (loader_flips_needsLoading s r);
        [ eauto 10 | unfold starts; by destruct (fst r) ]
    end.
Qed.

Lemma started_calls_none ins : forall s,
  needsLoading (book s) = false -> started_calls s ins = 0%nat.
Proof.
  induction ins as [|i ins IH]; intros s Hn; [done|]. simpl.
  destruct (started (call_outcome s i)) eqn:Hst.
  - apply started_call_flips in Hst as [Hs _]. congruence.
  - apply IH. by apply step_latches.
Qed.

Lemma run_needsLoading ins : forall s,
  needsLoading (book s) = false -> needsLoading (book (run s ins)) = false.
Proof.
  induction ins as [|i ins IH]; intros s Hn; [done|].
  rewrite run_cons. by apply IH, step_latches.
Qed.

(** X6: on every run at most one call of [load()] or of a loader gets
    past the guards; none does once [needsLoading] is false; and none does
    before or after a call that did. *)
Theorem X6_at_most_one_load_starts (s : State) (ins : list input) :
  (started_calls s ins <= 1)%nat
  /\ (needsLoading (book s) = false -> started_calls s ins = 0%nat)
  /\ (forall ins1 i ins2,
        ins = ins1 ++ i :: ins2 ->
        started (call_outcome (run s ins1) i) = true ->
        started_calls s ins1 = 0%nat
        /\ started_calls (run s (ins1 ++ [i])) ins2 = 0%nat).
Proof.
  split_and!; [|apply started_calls_none|].
  - revert s. induction ins as [|i ins IH]; intros s; simpl; [lia|].
    destruct (started (call_outcome s i)) eqn:Hst.
    + apply started_call_flips in Hst as [_ Hs].
      rewrite (started_calls_none _ _ Hs). lia.
    + apply IH.
  - intros ins1 i ins2 _ Hst. apply started_call_flips in Hst as [Hs1 Hs2]. split.
    + clear Hs2. revert s Hs1. induction ins1 as [|j ins1 IH]; intros s Hs1; [done|].
      simpl. rewrite run_cons in Hs1.
      destruct (started (call_outcome s j)) eqn:Hst.
      * apply started_call_flips in Hst as [_ Hs].
        by rewrite (run_needsLoading _ _ Hs) in Hs1.
      * by apply IH.
    + apply started_calls_none. by rewrite run_snoc.
Qed.

(** X8: one step changes [#pages] only by the push of a page-extracted
    event of the Binder, [#totalPages] only to the non-zero total of a
    progress event of the Binder, [#finishedBinding] only on its
    binding-complete event, all three only once the listeners are
    registered; and [#expectedSize] only from -1 to the non-zero total of
    an XHR progress event, when the Book holds its Binder. *)
Theorem X8_who_writes_the_page_state (s : State) (i : input) :
  (pages (book (step s i)) <> pages (book s) ->
     listening s = true
     /\ exists page pageNum,
          i = Binder (PAGE_EXTRACTED page pageNum)
          /\ pages (book (step s i)) = pages (book s) ++ [page])
  /\ (totalPages (book (step s i)) <> totalPages (book s) ->
        listening s = true
        /\ exists t msg,
             i = Binder (PROGRESS (Some t) msg) /\ t <> 0
             /\ totalPages (book (step s i)) = t)
  /\ (finishedBinding (book (step s i)) <> finishedBinding (book s) ->
        listening s = true /\ i = Binder BINDING_COMPLETE
        /\ finishedBinding (book (step s i)) = true)
  /\ (expectedSize (book (step s i)) <> expectedSize (book s) ->
        expectedSize (book s) = -1 /\ loader s = XhrSent
        /\ is_Some (bookBinder (book s))
        /\ exists loaded total,
             i = XhrProgress loaded total /\ total <> 0
             /\ expectedSize (book (step s i)) = total).
Proof.
  destruct i; step_cases; split_and!; intros; try done;
    repeat match goal with
           | H : (_ =? _) = true |- _ => apply Z.eqb_eq in H
           | H : (_ =? _) = false |- _ => apply Z.eqb_neq in H
           | H : _ && _ = true |- _ => apply andb_true_iff in H as [? ?]
           | H : negb _ = true |- _ => apply negb_true_iff in H
           end;
    split_and?; eauto 10.
Qed.

Lemma step_pages s i :
  (listening s = true -> listening (step s i) = true)
  /\ exists new, pages (book (step s i)) = pages (book s) ++ new
                 /\ (listening s = true -> new = extracted [i]).
Proof.
  destruct i; step_cases; (split; [done|]);
    first [ by exists []; rewrite app_nil_r | by eexists [_] ].
Qed.

Lemma extracted_cons i ins : extracted (i :: ins) = extracted [i] ++ extracted ins.
Proof. unfold extracted. simpl. by destruct i as [| | | | | | | | | | | | | | | | | | | | | | |[]| |]. Qed.

(** X9: the pages of a Book are only ever extended, and once the
    listeners are registered they are the pages of the page-extracted
    events in the order of arrival, whatever [pageNum] the events carry:
    [getNumberOfPagesReady()] grows by their number and [getPage(k)]
    returns the k-th of them when the total is unknown or above k. *)
Theorem X9_pages_in_extraction_order (s : State) (ins : list input) :
  let s' := run s ins in
  pages (book s) `prefix_of` pages (book s')
  /\ (listening s = true ->
      pages (book s') = pages (book s) ++ extracted ins
      /\ getNumberOfPagesReady (book s')
         = (getNumberOfPagesReady (book s) + length (extracted ins))%nat
      /\ forall (k : nat) p,
           (pages (book s) ++ extracted ins) !! k = Some p ->
           totalPages (book s') = 0 \/ Z.of_nat k < totalPages (book s') ->
           getPage (js_of_Z (Z.of_nat k)) (book s') = Normal (JPage p)).
Proof.
  cbv zeta. split.
  - revert s. induction ins as [|i ins IH]; intros s; [done|].
    rewrite run_cons. etrans; [|apply IH].
    destruct (step_pages s i) as (_ & new & -> & _). by apply prefix_app_r.
  - assert (Hpages : forall ins s, listening s = true ->
              pages (book (run s ins)) = pages (book s) ++ extracted ins).
    { clear. induction ins as [|i ins IH]; intros s Hl.
      - by rewrite app_nil_r.
      - destruct (step_pages s i) as (Hl' & new & Hnew & Hext).
        rewrite run_cons, IH, Hnew, (Hext Hl), (extracted_cons i ins), <- ?app_assoc; auto. }
    intros Hl. rewrite (Hpages ins s Hl). split_and!; [done| |].
    + unfold getNumberOfPagesReady. by rewrite Hpages, length_app.
    + intros k p Hk Htotal.
      assert (Hlen : (k < length (pages (book s) ++ extracted ins))%nat)
        by (by apply lookup_lt_is_Some_1).
      unfold getPage, numPages. rewrite js_lt_zero_of_Z, js_ge_of_Z, Hpages by done.
      replace (Z.of_nat k <? 0) with false by lia.
      assert (((if totalPages (book (run s ins)) =? 0
                then Z.of_nat (length (pages (book s) ++ extracted ins))
                else totalPages (book (run s ins))) <=? Z.of_nat k) = false) as ->.
      { destruct (Z.eqb_spec (totalPages (book (run s ins))) 0); lia. }
      simpl. unfold pages_at. by rewrite js_array_index_of_nat, Hk.
Qed.

Lemma X9_pages_in_extraction_order_witness :
  getPage (js_of_Z (Z.of_nat 0))
    (book (run loaded_state
             [Binder (PAGE_EXTRACTED 11%nat 1); Binder (PAGE_EXTRACTED 10%nat 0)]))
  = Normal (JPage 11%nat).
Proof.
  refine (proj2 (proj2 (proj2 (X9_pages_in_extraction_order loaded_state
            [Binder (PAGE_EXTRACTED 11%nat 1); Binder (PAGE_EXTRACTED 10%nat 0)]) _))
            0%nat 11%nat _ _).
  - vm_compute. reflexivity.
  - vm_compute. reflexivity.
  - left. vm_compute. reflexivity.
Defined.

Lemma step_bytes s i old :
  startedBinding (book s) = true -> arrayBuffer (book s) = Some old ->
  exists extra, arrayBuffer (book (step s i)) = Some (old ++ extra).
Proof.
  intros Hst Hab.
  destruct i; step_cases;
    first [ by exists []; rewrite app_nil_r | by eexists | congruence ].
Qed.

Lemma step_bytes_started s i :
  arrayBuffer (book s) = None \/ startedBinding (book s) = true ->
  arrayBuffer (book (step s i)) = None \/ startedBinding (book (step s i)) = true.
Proof. destruct i; step_cases; intros [?|?]; auto; congruence. Qed.

Lemma run_bytes ins : forall s old,
  startedBinding (book s) = true -> arrayBuffer (book s) = Some old ->
  exists extra, arrayBuffer (book (run s ins)) = Some (old ++ extra).
Proof.
  induction ins as [|i ins IH]; intros s old Hst Hab.
  - exists []. by rewrite app_nil_r.
  - destruct (step_bytes s i old Hst Hab) as [e1 H1].
    destruct (IH (step s i) (old ++ e1)) as [e2 H2]; [by apply step_latches|done|].
    exists (e1 ++ e2). by rewrite run_cons, H2, app_assoc.
Qed.

Lemma run_bytes_started ins : forall s,
  arrayBuffer (book s) = None \/ startedBinding (book s) = true ->
  arrayBuffer (book (run s ins)) = None \/ startedBinding (book (run s ins)) = true.
Proof.
  induction ins as [|i ins IH]; intros s Hinv; [done|].
  rewrite run_cons. by apply IH, step_bytes_started.
Qed.

(** X10: on every run of a Book from its construction, the bytes
    [getArrayBuffer()] returns at one moment are a prefix of those it
    returns at any later moment. *)
Theorem X10_bytes_are_only_extended nm src size mode ins1 ins2 old :
  let s0 := new_state (Book_fields nm src size) mode in
  getArrayBuffer (book (run s0 ins1)) = Some old ->
  exists extra,
    getArrayBuffer (book (run s0 (ins1 ++ ins2))) = Some (old ++ extra)
    /\ byteLength (old ++ extra) = (byteLength old + byteLength extra)%nat.
Proof.
  intros s0 Hab. unfold getArrayBuffer in *.
  assert (Hst : startedBinding (book (run s0 ins1)) = true).
  { destruct (run_bytes_started ins1 s0) as [Hnone|?]; [by left| |done].
    rewrite Hnone in Hab. done. }
  destruct (run_bytes ins2 _ _ Hst Hab) as [extra Hextra].
  exists extra. rewrite run_app. split; [done|].
  unfold byteLength. by rewrite length_app.
Qed.

Lemma X10_bytes_are_only_extended_witness :
  exists extra,
    getArrayBuffer
      (book (run (new_state (Book_fields "foo.cbz" SrcUndefined (-1)) None)
               ([CallLoadFromArrayBuffer "foo.cbz" [x50; x4b]%byte]
                ++ [BinderCreated sample_answers; CallAppendBytes [x03; x04]%byte])))
    = Some ([x50; x4b]%byte ++ extra)
    /\ byteLength ([x50; x4b]%byte ++ extra) = (byteLength [x50; x4b]%byte + byteLength extra)%nat.
Proof.
  apply (X10_bytes_are_only_extended "foo.cbz" SrcUndefined (-1) None
           [CallLoadFromArrayBuffer "foo.cbz" [x50; x4b]%byte]
           [BinderCreated sample_answers; CallAppendBytes [x03; x04]%byte]
           [x50; x4b]%byte).
  vm_compute. reflexivity.
Defined.

(** ** The load promise *)

Lemma step_settled s i :
  needsLoading (book s) = false ->
  loadPromise s <> Pending -> loadPromise (step s i) = loadPromise s.
Proof.
  intros Hn Hp. destruct i; step_cases; try done; try congruence;
    rewrite Hn in *; done.
Qed.

Lemma run_settled ins : forall s,
  needsLoading (book s) = false ->
  loadPromise s <> Pending -> loadPromise (run s ins) = loadPromise s.
Proof.
  induction ins as [|i ins IH]; intros s Hn Hp; [done|].
  rewrite run_cons, IH, step_settled; try done.
  - by apply step_latches.
  - by rewrite step_settled.
Qed.

Lemma step_promise_created s i :
  (needsLoading (book s) = true -> loadPromise s = NotCreated) ->
  needsLoading (book (step s i)) = true -> loadPromise (step s i) = NotCreated.
Proof.
  intros Hinv Hneeds.
  assert (Hs : needsLoading (book s) = true).
  { destruct (needsLoading (book s)) eqn:E; [done|].
    destruct (step_latches s i) as [H _]. rewrite H in Hneeds; done. }
  specialize (Hinv Hs).
  destruct i; step_cases; try done; try congruence.
Qed.

Lemma run_promise_created b mode ins :
  let s := run (new_state b mode) ins in
  needsLoading (book s) = true -> loadPromise s = NotCreated.
Proof.
  induction ins as [|i ins IH] using rev_ind; simpl.
  - done.
  - rewrite run_snoc. by apply step_promise_created.
Qed.

(** X14: on every run of a new Book the load promise settles at most
    once, a fulfilled one stays fulfilled and a rejected one keeps its
    reason; and as soon as there is a load promise, [needsLoading] is false
    and no later call of a loader starts, so a load that failed cannot be
    retried. *)
Theorem X14_load_promise_settles_once b mode ins1 ins2 :
  let s1 := run (new_state b mode) ins1 in
  let s2 := run (new_state b mode) (ins1 ++ ins2) in
  (loadPromise s1 = Fulfilled -> loadPromise s2 = Fulfilled)
  /\ (forall e, loadPromise s1 = RejectedWith e -> loadPromise s2 = RejectedWith e)
  /\ (loadPromise s1 <> NotCreated ->
      needsLoading (book s2) = false /\ started_calls s1 ins2 = 0%nat).
Proof.
  cbv zeta. rewrite run_app.
  set (s1 := run (new_state b mode) ins1).
  assert (Hn : loadPromise s1 <> NotCreated -> needsLoading (book s1) = false).
  { intros Hp. destruct (needsLoading (book s1)) eqn:E; [|done].
    by apply run_promise_created in E. }
  split_and!.
  - intros Hp. rewrite run_settled; [done| |congruence]. apply Hn. congruence.
  - intros e Hp. rewrite run_settled; [done| |congruence]. apply Hn. congruence.
  - intros Hp. specialize (Hn Hp). split.
    + by apply run_needsLoading.
    + by apply started_calls_none.
Qed.

(** X12: [loadFromArrayBuffer], and the load handlers of [loadFromXhr]
    and of the FileReader of [loadFromFile], mark the Book as loaded,
    dispatch the loading-complete event and fulfil the load promise while
    the Binder is still being created; the Book's Binder is as before, and
    the promise stays fulfilled on every continuation, so a failure of the
    Binder's factory afterwards is not reported by it. *)
Theorem X12_one_shot_loads_resolve_before_binding (s : State) (i : input) :
  startedBinding (book s) = false ->
  (needsLoading (book s) = true /\ truthy_string (uri (book s)) = false
   /\ exists fileName ab, i = CallLoadFromArrayBuffer fileName ab)
  \/ (needsLoading (book s) = false /\ loadPromise s = Pending
      /\ ((loader s = XhrSent /\ exists response, i = XhrLoad response)
          \/ exists f result, loader s = FileReading f /\ i = FileReaderLoad result)) ->
  let s1 := step s i in
  loadPromise s1 = Fulfilled
  /\ isFinishedLoading (book s1) = true
  /\ last (dispatched s1) = Some BookLoadingCompleteEvent
  /\ bookBinder (book s1) = bookBinder (book s)
  /\ (exists nm ab size, pipeline s1 = AwaitingBinder nm ab size)
  /\ (forall err,
        pipeline (step s1 (BinderCreationFailed err)) = BindingFailed (External err))
  /\ (forall ins, loadPromise (run s1 ins) = Fulfilled).
Proof.
  intros Hst Hcase s1.
  assert (H1 : loadPromise s1 = Fulfilled /\ isFinishedLoading (book s1) = true
               /\ last (dispatched s1) = Some BookLoadingCompleteEvent
               /\ bookBinder (book s1) = bookBinder (book s)
               /\ (exists nm ab size, pipeline s1 = AwaitingBinder nm ab size)
               /\ needsLoading (book s1) = false).
  { subst s1.
    destruct Hcase as [(Hn & Hu & nm & ab & ->)
                      |(Hn & Hp & [[Hlo [ab ->]]|(f & ab & Hlo & ->)])];
      unfold step, loadFromArrayBuffer, on_xhr_load, on_fileReader_load,
        finish_loading, mark_loaded, resolve_load, dispatchEvent, upd_book;
      rewrite ?Hlo, ?Hn, ?Hu; cbn -[fresh dom insert];
      rewrite startBookBinding_eq; cbn -[fresh dom insert];
      rewrite Hst; cbn -[fresh dom insert]; rewrite ?Hp;
      cbn -[fresh dom insert]; rewrite ?last_snoc; split_and!; eauto. }
  destruct H1 as (Hp & Hfin & Hlast & Hbb & (nm & ab & size & Hpi) & Hn).
  split_and!; eauto.
  - intros err. unfold step, on_binder_creation_failed. by rewrite Hpi.
  - intros ins. rewrite run_settled; [done|done|congruence].
Qed.

Lemma X12_one_shot_loads_resolve_before_binding_witness :
  let s1 := step (new_state sample_book None)
              (CallLoadFromArrayBuffer "foo.cbz" [x50; x4b]%byte) in
  loadPromise s1 = Fulfilled
  /\ isFinishedLoading (book s1) = true
  /\ last (dispatched s1) = Some BookLoadingCompleteEvent
  /\ bookBinder (book s1) = bookBinder (book (new_state sample_book None))
  /\ (exists nm ab size, pipeline s1 = AwaitingBinder nm ab size)
  /\ (forall err,
        pipeline (step s1 (BinderCreationFailed err)) = BindingFailed (External err))
  /\ (forall ins, loadPromise (run s1 ins) = Fulfilled).
Proof.
  apply (X12_one_shot_loads_resolve_before_binding (new_state sample_book None)
           (CallLoadFromArrayBuffer "foo.cbz" [x50; x4b]%byte)).
  - reflexivity.
  - left. split_and!; [reflexivity|reflexivity|]. by eexists _, _.
Defined.

(** ** The first event *)

Lemma step_log s i :
  needsLoading (book s) = false -> loader s <> FileAwaitingHandle ->
  loader (step s i) <> FileAwaitingHandle
  /\ exists new, dispatched (step s i) = dispatched s ++ new
                 /\ BookLoadingStartedEvent ∉ new.
Proof.
  intros Hn Hlo.
  destruct i; step_cases; try (rewrite Hn in *; done);
    (split; [try first [done|congruence]|]);
    try first [ by exists []; rewrite app_nil_r; split; [|apply not_elem_of_nil]
          | by eexists; split; [reflexivity|]; intros ?%list_elem_of_singleton ].
Qed.

Lemma announced_app l new :
  announced l -> BookLoadingStartedEvent ∉ new -> announced (l ++ new).
Proof.
  intros [Hl|(rest & -> & Hrest)] Hnew.
  - left. rewrite elem_of_app. tauto.
  - right. exists (rest ++ new). split; [done|]. rewrite elem_of_app. tauto.
Qed.

Lemma step_quiet s i :
  quiet s ->
  (needsLoading (book s) = true /\ loader s = NoLoader)
  \/ (needsLoading (book s) = false /\ loader s = FileAwaitingHandle) ->
  announce_inv (step s i).
Proof.
  intros (Hd & Hli & Hpi & Hmi) [[Hn Hlo]|[Hn Hlo]];
    destruct i; unfold_handlers;
    rewrite ?Hn, ?Hlo, ?Hpi, ?Hli, ?Hmi, ?Hd; cbn -[fresh dom insert announce_inv];
    repeat (case_match; simplify_eq; rewrite ?Hn, ?Hlo, ?Hpi, ?Hli, ?Hmi, ?Hd;
            cbn -[fresh dom insert announce_inv]);
    unfold announce_inv, quiet, announced; cbn -[fresh dom insert];
    rewrite ?Hn, ?Hlo, ?Hpi, ?Hli, ?Hmi, ?Hd; cbn -[fresh dom insert];
    try done;
    try (right; eexists; split; [done|];
         first [ apply not_elem_of_nil | by intros ?%list_elem_of_singleton ]).
  all: left; apply not_elem_of_nil.
Qed.

Lemma step_announce_inv s i : announce_inv s -> announce_inv (step s i).
Proof.
  intros Hinv. unfold announce_inv in Hinv.
  destruct (needsLoading (book s)) eqn:Hn.
  { destruct Hinv as [Hq Hlo]. apply step_quiet; auto. }
  assert (Hlo : loader s = FileAwaitingHandle \/ loader s <> FileAwaitingHandle)
    by (destruct (loader s); auto).
  destruct Hlo as [Hlo|Hlo].
  { rewrite Hlo in Hinv. apply step_quiet; auto. }
  assert (Ha : announced (dispatched s)) by (by destruct (loader s)).
  destruct (step_log s i Hn Hlo) as (Hlo' & new & Hnew & Hfree).
  unfold announce_inv.
  rewrite (proj1 (step_latches s i) Hn), Hnew.
  destruct (loader (step s i)); try done; by apply announced_app.
Qed.

(** X7: on every run of a new Book, if [BookLoadingStartedEvent] was
    dispatched then it was dispatched once and before every other
    event. *)
Theorem X7_loading_started_is_announced_once_and_first nm src size mode ins :
  let s := run (new_state (Book_fields nm src size) mode) ins in
  BookLoadingStartedEvent ∈ dispatched s ->
  exists rest,
    dispatched s = BookLoadingStartedEvent :: rest
    /\ BookLoadingStartedEvent ∉ rest.
Proof.
  intros s Hin.
  assert (Hinv : announce_inv s).
  { subst s. clear Hin. induction ins as [|i ins IH] using rev_ind.
    - by unfold announce_inv, quiet.
    - rewrite run_snoc. by apply step_announce_inv. }
  unfold announce_inv, quiet in Hinv.
  destruct (needsLoading (book s)).
  { destruct Hinv as [(Hd & _) _]. rewrite Hd in Hin. by apply elem_of_nil in Hin. }
  assert (Hcases : dispatched s = [] \/ announced (dispatched s)).
  { destruct (loader s); auto. left. apply Hinv. }
  destruct Hcases as [Hd|[Hnot|Hrest]]; [|done|done].
  rewrite Hd in Hin. by apply elem_of_nil in Hin.
Qed.

Lemma X7_loading_started_is_announced_once_and_first_witness :
  exists rest,
    dispatched (run (new_state (Book_fields "foo.cbz" SrcUndefined (-1)) None)
                  [CallLoadFromArrayBuffer "foo.cbz" [x50; x4b]%byte])
    = BookLoadingStartedEvent :: rest
    /\ BookLoadingStartedEvent ∉ rest.
Proof.
  apply (X7_loading_started_is_announced_once_and_first "foo.cbz" SrcUndefined (-1)
           None [CallLoadFromArrayBuffer "foo.cbz" [x50; x4b]%byte]).
  vm_compute. left.
Defined.

(** ** Resolution of a load by fetch *)

Ltac state_facts s :=
  repeat match goal with
         | H : needsLoading (book s) = _ |- _ => rewrite !H
         | H : loader s = _ |- _ => rewrite !H
         | H : pipeline s = _ |- _ => rewrite !H
         | H : loadPromise s = _ |- _ => rewrite !H
         | H : startedBinding (book s) = _ |- _ => rewrite !H
         | H : finishedLoading (book s) = _ |- _ => rewrite !H
         | H : bookBinder (book s) = _ |- _ => rewrite !H
         | H : reactions s = _ |- _ => rewrite !H
         | H : microtasks s = _ |- _ => rewrite !H
         end.

Lemma step_fetch_inv s i : fetch_inv s -> fetch_inv (step s i).
Proof.
  intros (Hn & Hcase).
  destruct (loader s) eqn:Hlo; try done; destruct_and?;
    destruct (pipeline s) eqn:Hpi; try done; destruct_and?;
    destruct (loadPromise s) eqn:Hp; try done; destruct_and?;
    repeat match goal with H : is_Some _ |- _ => destruct H as [? H] end;
    destruct i; unfold_handlers; state_facts s;
    cbn -[fresh dom insert fetch_inv];
    rewrite ?startBookBinding_eq, ?appendBytes_eq; state_facts s;
    cbn -[fresh dom insert fetch_inv];
    repeat (case_match; simplify_eq;
            rewrite ?startBookBinding_eq, ?appendBytes_eq; state_facts s;
            cbn -[fresh dom insert fetch_inv]);
    unfold fetch_inv; cbn -[fresh dom insert]; state_facts s;
    cbn -[fresh dom insert]; split_and?; eauto.
Qed.

Lemma run_fetch_inv ins : forall s, fetch_inv s -> fetch_inv (run s ins).
Proof.
  induction ins as [|i ins IH]; intros s Hinv; [done|].
  rewrite run_cons. by apply IH, step_fetch_inv.
Qed.

(** X11: after [loadFromFetch()] on a Book built from a Request, in
    every state a run reaches, the load promise exists; it is fulfilled
    exactly when the Book is marked as loaded, and then binding has run to
    its end and [getMIMEType()] answers; and when binding has failed, the
    load promise is rejected with the error of the binding promise as soon
    as the waiting continuation has run, the Book not being marked as
    loaded. *)
Theorem X11_fetch_resolves_only_once_bound nm r size mode ins :
  let s := run (new_state (Book_fields nm (SrcRequest r) size) mode)
             (CallLoadFromFetch :: ins) in
  (loadPromise s = Fulfilled <-> isFinishedLoading (book s) = true)
  /\ (loadPromise s = Fulfilled ->
        pipeline s = Bound /\ exists mime, getMIMEType (book s) = Normal mime)
  /\ (forall e, pipeline s = BindingFailed e ->
        loadPromise (step s Microtask) = RejectedWith e
        /\ isFinishedLoading (book (step s Microtask)) = false)
  /\ loadPromise s <> NotCreated.
Proof.
  intros s.
  assert (Hinv : fetch_inv s).
  { subst s. rewrite run_cons. apply run_fetch_inv.
    unfold fetch_inv, step, loadFromFetch. simpl. by split_and!. }
  unfold isFinishedLoading, getMIMEType.
  destruct Hinv as (Hn & Hcase).
  split_and!.
  - destruct (loader s); try done; destruct_and?;
      destruct (loadPromise s); try done;
      destruct (pipeline s); try done; destruct_and?; split; congruence.
  - intros Hp. rewrite Hp in Hcase.
    destruct (loader s); try done; destruct_and?; try done.
    destruct (pipeline s); try done. destruct_and?.
    split; [done|].
    match goal with H : is_Some (bookBinder _) |- _ => destruct H as [bb ->] end.
    eauto.
  - intros e He. rewrite He in Hcase. unfold step.
    destruct (loader s) eqn:Hlo; try done; destruct_and?; try done.
    + state_facts s. unfold run_microtask, reject_load. simpl. by state_facts s.
    + state_facts s. destruct (loadPromise s); try done. destruct_and?. by subst.
  - destruct (loader s); try done; destruct_and?; try congruence.
    by destruct (loadPromise s).
Qed.

(** ** A load by BookPump whose binding fails, or whose pump fails *)

Lemma Forall_dropped rs e :
  Forall pump_reaction rs ->
  Forall dropped_callback (map (fun r => OnRejected r e) rs).
Proof.
  intros H. apply Forall_fmap. eapply Forall_impl; [exact H|]. by intros [].
Qed.

Lemma step_pump_unbound arrived s i :
  no_pump_error i ->
  pump_inv arrived s -> pump_unbound s -> pump_unbound (step s i).
Proof.
  intros Hi Hinv Hun. unfold pump_unbound in Hun.
  pump_states Hinv s; destruct_and?;
    destruct (microtasks s) as [|m rest] eqn:Hms; try done;
    repeat match goal with
           | H : Forall _ (_ :: _) |- _ => inversion H; subst; clear H
           end;
    try (destruct m as [[?|?]|[?|?] ?]; try done);
    destruct i; try done;
    try match goal with
        | H : no_pump_error (Pump ?e) |- _ => destruct e; try done
        end;
    unfold_handlers; state_facts s;
    cbn -[fresh dom insert pump_unbound];
    rewrite ?startBookBinding_eq, ?appendBytes_eq; state_facts s;
    cbn -[fresh dom insert pump_unbound];
    repeat (case_match; simplify_eq;
            rewrite ?startBookBinding_eq, ?appendBytes_eq; state_facts s;
            cbn -[fresh dom insert pump_unbound]);
    unfold pump_unbound; cbn -[fresh dom insert]; state_facts s;
    cbn -[fresh dom insert]; split_and?; eauto;
    try (by apply Forall_dropped);
    try (by repeat constructor).
  all: constructor; [done|]; apply Forall_app; split; [done|]; by repeat constructor.
Qed.

Lemma step_failed_for_good s i e :
  startedBinding (book s) = true -> pipeline s = BindingFailed e ->
  pipeline (step s i) = BindingFailed e.
Proof.
  intros Hst Hpi. destruct i; step_cases; try done; congruence.
Qed.

Lemma run_failed_for_good ins : forall s e,
  startedBinding (book s) = true -> pipeline s = BindingFailed e ->
  pipeline (run s ins) = BindingFailed e.
Proof.
  induction ins as [|i ins IH]; intros s e Hst Hpi; [done|].
  rewrite run_cons. apply IH; [by apply step_latches|by apply step_failed_for_good].
Qed.

Lemma run_pump_unbound ins : forall arrived s,
  Forall no_pump_error ins ->
  pump_inv arrived s -> pump_unbound s -> pump_unbound (run s ins).
Proof.
  induction ins as [|i ins IH]; intros arrived s Hins Hinv Hun; [done|].
  inversion Hins; subst. rewrite run_cons.
  eapply IH; [done|by apply pump_inv_step|by eapply step_pump_unbound].
Qed.

Lemma step_dropped arrived s i e :
  pump_traffic i ->
  pump_inv arrived s -> pump_unbound s -> pipeline s = BindingFailed e ->
  arrayBuffer (book (step s i)) = arrayBuffer (book s)
  /\ dispatched (step s i) = dispatched s.
Proof.
  intros Hi Hinv Hun Hfailed. unfold pump_unbound in Hun. rewrite Hfailed in Hun.
  pump_states Hinv s; destruct_and?;
    destruct (microtasks s) as [|m rest] eqn:Hms;
    repeat match goal with
           | H : Forall _ (_ :: _) |- _ => inversion H; subst; clear H
           end;
    try (destruct m as [[?|?]|[?|?] ?]; try done);
    destruct i as [| | | | | | | | | | | | | | | | | |[]| | | | | | |]; try done;
    unfold step, on_pump_event, handleBookPumpEvents, then_, enqueue, run_microtask;
    state_facts s; done.
Qed.

Lemma pump_traffic_no_error i : pump_traffic i -> no_pump_error i.
Proof. by destruct i as [| | | | | | | | | | | | | | | | | |[]| | | | | | |]. Qed.

Lemma run_dropped more : forall arrived s e,
  Forall pump_traffic more ->
  pump_inv arrived s -> pump_unbound s ->
  startedBinding (book s) = true -> pipeline s = BindingFailed e ->
  arrayBuffer (book (run s more)) = arrayBuffer (book s)
  /\ dispatched (run s more) = dispatched s.
Proof.
  induction more as [|i more IH]; intros arrived s e Hmore Hinv Hun Hst Hpi; [done|].
  inversion Hmore; subst. rewrite run_cons.
  destruct (step_dropped arrived s i e) as [<- <-]; try done.
  eapply IH; try done.
  - by apply pump_inv_step.
  - eapply step_pump_unbound; [by apply pump_traffic_no_error|done..].
  - by apply step_latches.
  - by apply step_failed_for_good.
Qed.

(** X13: when binding fails during a load by BookPump and the pump
    reports no error, the load promise is pending, the Book is not marked
    as loaded, and both stay so on every continuation in which the pump
    reports no error; binding stays failed; and what the pump sends later
    changes neither the bytes nor the events dispatched. *)
Theorem X13_failed_binding_leaves_a_pump_load_pending
    nm src size mode bookUri ins e :
  truthy_string (uri (Book_fields nm src size)) = false ->
  Forall no_pump_error ins ->
  let s := run (new_state (Book_fields nm src size) mode)
             (CallLoadFromBookPump bookUri :: ins) in
  pipeline s = BindingFailed e ->
  loadPromise s = Pending
  /\ isFinishedLoading (book s) = false
  /\ (forall more, pipeline (run s more) = BindingFailed e)
  /\ (forall more, Forall no_pump_error more ->
        loadPromise (run s more) = Pending
        /\ isFinishedLoading (book (run s more)) = false)
  /\ (forall more, Forall pump_traffic more ->
        getArrayBuffer (book (run s more)) = getArrayBuffer (book s)
        /\ dispatched (run s more) = dispatched s).
Proof.
  intros Hu Hins s Hpi.
  set (s1 := step (new_state (Book_fields nm src size) mode)
               (CallLoadFromBookPump bookUri)).
  assert (Hinv1 : pump_inv [] s1) by (by apply pump_inv_start).
  assert (Hun1 : pump_unbound s1).
  { unfold s1, step, loadFromBookPump, pump_unbound. simpl in *. by rewrite Hu. }
  assert (Hs : s = run s1 ins) by done. clearbody s s1. subst s.
  assert (Hinv : pump_inv ([] ++ pump_data ins) (run s1 ins)) by (by apply pump_inv_run).
  assert (Hun : pump_unbound (run s1 ins)) by (by eapply run_pump_unbound).
  assert (Hst : startedBinding (book (run s1 ins)) = true).
  { destruct Hinv as (_ & _ & _ & Hcase). rewrite Hpi in Hcase.
    by destruct (loader (run s1 ins)) as [| | | | | | | | |? [[|?]|]| |]. }
  assert (Hfacts : forall s', pump_unbound s' -> pipeline s' = BindingFailed e ->
            loadPromise s' = Pending /\ isFinishedLoading (book s') = false).
  { intros s' Hun' Hpi'. unfold pump_unbound in Hun'. rewrite Hpi' in Hun'.
    by destruct Hun' as (? & ? & _). }
  split_and!; try (by apply Hfacts).
  - intros more. by apply run_failed_for_good.
  - intros more Hmore. apply Hfacts; [|by apply run_failed_for_good].
    by apply (run_pump_unbound more ([] ++ pump_data ins) (run s1 ins)).
  - intros more Hmore. by eapply run_dropped.
Qed.

Lemma X13_failed_binding_leaves_a_pump_load_pending_witness :
  let s := run (new_state (Book_fields "foo.cbz" SrcUndefined (-1)) None)
             (CallLoadFromBookPump "foo.cbz"
              :: [data None [x50; x4b]%byte; BinderCreationFailed "no unarchiver"]) in
  loadPromise s = Pending
  /\ isFinishedLoading (book s) = false
  /\ (forall more, pipeline (run s more) = BindingFailed (External "no unarchiver"))
  /\ (forall more, Forall no_pump_error more ->
        loadPromise (run s more) = Pending
        /\ isFinishedLoading (book (run s more)) = false)
  /\ (forall more, Forall pump_traffic more ->
        getArrayBuffer (book (run s more)) = getArrayBuffer (book s)
        /\ dispatched (run s more) = dispatched s).
Proof.
  apply (X13_failed_binding_leaves_a_pump_load_pending "foo.cbz" SrcUndefined (-1)
           None "foo.cbz"
           [data None [x50; x4b]%byte; BinderCreationFailed "no unarchiver"]
           (External "no unarchiver")).
  - reflexivity.
  - repeat constructor.
  - vm_compute. reflexivity.
Defined.

(** X15: the error listener of [loadFromBookPump] rejects the load
    promise and removes no listener: the chunks the pump sends afterwards
    are still appended to the Book and fed to the Binder, and its end
    still marks the Book as loaded and dispatches the loading-complete
    event, the promise staying rejected. *)
Theorem X15_a_pump_error_does_not_stop_the_book
    (s : State) bookUri bb acc err size late :
  loader s = PumpListening bookUri (Some ThePipeline) ->
  pipeline s = Bound ->
  bookBinder (book s) = Some bb ->
  arrayBuffer (book s) = Some acc ->
  microtasks s = [] ->
  loadPromise s = Pending ->
  let s' := run s (Pump (BOOKPUMP_ERROR err)
                   :: flat_map (fun ab => [data size ab; Microtask]) late
                   ++ [Pump BOOKPUMP_END; Microtask]) in
  loadPromise s' = RejectedWith (External err)
  /\ getArrayBuffer (book s') = Some (acc ++ concat late)
  /\ observed s' = binder_fed bb ++ late
  /\ isFinishedLoading (book s') = true
  /\ dispatched s' = dispatched s ++ [BookLoadingCompleteEvent].
Proof.
  intros Hlo Hpi Hbb Hacc Hmi Hp s'. subst s'.
  rewrite run_cons, run_app.
  set (s1 := step s (Pump (BOOKPUMP_ERROR err))).
  assert (Hs1 : s1 = set_loadPromise (RejectedWith (External err)) s).
  { unfold s1, step, on_pump_event, reject_load. by rewrite Hlo, Hp. }
  rewrite Hs1. clear s1 Hs1.
  rewrite (pump_late size late _ bookUri bb acc) by done.
  unfold run. simpl.
  unfold on_pump_event, handleBookPumpEvents, then_, enqueue. simpl.
  rewrite Hlo. simpl. rewrite Hpi, Hmi. simpl.
  unfold resolve_load, observed. simpl. rewrite ?Hlo, ?Hpi. simpl.
  rewrite ?Hlo, ?Hpi. simpl.
  by rewrite binder_fed_foldl.
Qed.

Lemma X15_a_pump_error_does_not_stop_the_book_witness :
  let s := run (new_state sample_book None)
             (pump_binding "foo.cbz" (Some 4) sample_answers [x50; x4b]%byte []) in
  let s' := run s (Pump (BOOKPUMP_ERROR "connection lost")
                   :: flat_map (fun ab => [data (Some 4) ab; Microtask]) [[x03; x04]%byte]
                   ++ [Pump BOOKPUMP_END; Microtask]) in
  loadPromise s' = RejectedWith (External "connection lost")
  /\ getArrayBuffer (book s') = Some ([x50; x4b]%byte ++ concat [[x03; x04]%byte])
  /\ observed s'
     = binder_fed (binder_start (createBookBinder "foo.cbz" [x50; x4b]%byte (Some 4)
                                   sample_answers))
       ++ [[x03; x04]%byte]
  /\ isFinishedLoading (book s') = true
  /\ dispatched s' = dispatched s ++ [BookLoadingCompleteEvent].
Proof.
  intros s.
  apply (X15_a_pump_error_does_not_stop_the_book s "foo.cbz"
           (binder_start (createBookBinder "foo.cbz" [x50; x4b]%byte (Some 4)
                            sample_answers))
           [x50; x4b]%byte "connection lost" (Some 4) [[x03; x04]%byte]);
    vm_compute; reflexivity.
Defined.

(** ** The Book's bytes and the Binder's *)

Ltac case_inner :=
  match goal with
  | |- context [ match ?x with _ => _ end ] =>
      lazymatch x with
      | context [ match _ with _ => _ end ] => fail
      | _ => destruct x eqn:?
      end
  end.

Lemma Forall_no_fulfilled rs e :
  Forall no_fulfilled (map (fun r => OnRejected r e) rs).
Proof. apply Forall_fmap, Forall_true. done. Qed.

Ltac bytes_facts s :=
  repeat match goal with
         | H : arrayBuffer (book s) = _ |- _ => rewrite !H
         end;
  state_facts s.

Ltac bytes_step s :=
  unfold_handlers; bytes_facts s;
  cbn -[fresh dom insert bytes_inv];
  rewrite ?startBookBinding_eq, ?appendBytes_eq; bytes_facts s;
  cbn -[fresh dom insert bytes_inv];
  repeat (case_inner; simplify_eq;
          rewrite ?startBookBinding_eq, ?appendBytes_eq; bytes_facts s;
          cbn -[fresh dom insert bytes_inv]);
  try done;
  unfold bytes_inv, binder_inv, observed; cbn -[fresh dom insert]; bytes_facts s;
  cbn -[fresh dom insert];
  rewrite ?concat_app; cbn -[fresh dom insert]; rewrite ?app_nil_r;
  split_and?; eauto; try congruence;
  rewrite ?Forall_app; split_and?; try done;
  try (by apply Forall_no_fulfilled); try (by repeat constructor).

Lemma step_bytes_inv s i : ~ direct_append i -> bytes_inv s -> bytes_inv (step s i).
Proof.
  intros Hi Hinv.
  assert (Hother : forall j, j <> CallLoad -> ~ direct_append j -> bytes_inv (step s j)).
  { clear i Hi. intros i Hload Hi.
    destruct Hinv as (Hbinder & Hbytes). destruct Hbinder as [Hst Hbb].
    unfold observed in Hbytes.
    destruct (pipeline s) eqn:Hpi; destruct_and?; destruct_or?; try done;
    try match goal with H : is_Some _ |- _ => destruct H as [? H] end;
    try match goal with
        | Hb : bookBinder (book s) = Some _, H : arrayBuffer _ = _ |- _ =>
            rewrite Hb in H
        end;
    (destruct i;
     [ try (by destruct Hi); try done; bytes_step s ..
     | destruct (microtasks s) as [|m rest] eqn:Hms;
       repeat match goal with
              | H : Forall _ (_ :: _) |- _ => inversion H; subst; clear H
              end;
       try (destruct m as [?|? ?]; try done);
       bytes_step s ]).
  }
  destruct i; try (by apply Hother).
  rewrite load_dispatches. repeat case_match; try done; by apply Hother.
Qed.

Lemma run_bytes_inv ins : forall s,
  Forall (fun i => ~ direct_append i) ins -> bytes_inv s -> bytes_inv (run s ins).
Proof.
  induction ins as [|i ins IH]; intros s Hins Hinv; [done|].
  inversion Hins; subst. rewrite run_cons. by apply IH, step_bytes_inv.
Qed.

(** X16: on every run of a new Book without a direct call of
    [appendBytes], the Book holds no bytes before binding starts, and
    whenever the Binder has been given bytes the Book holds their
    concatenation, in the order given. *)
Theorem X16_book_and_binder_hold_the_same_bytes nm src size mode ins :
  Forall (fun i => ~ direct_append i) ins ->
  let s := run (new_state (Book_fields nm src size) mode) ins in
  (pipeline s = NotBinding -> getArrayBuffer (book s) = None)
  /\ (observed s <> [] -> getArrayBuffer (book s) = Some (concat (observed s))).
Proof.
  intros Hins s.
  assert (Hinv : bytes_inv s).
  { apply run_bytes_inv; [done|]. unfold bytes_inv, binder_inv. simpl.
    split_and!; auto. }
  destruct Hinv as (_ & Hbytes). unfold getArrayBuffer.
  split.
  - intros Hpi. rewrite Hpi in Hbytes. by destruct Hbytes.
  - intros Hobs. destruct (pipeline s) eqn:Hpi; destruct_and?; try done;
      unfold observed in Hobs; by rewrite Hpi in Hobs.
Qed.

Lemma X16_book_and_binder_hold_the_same_bytes_witness :
  let s := run (new_state (Book_fields "foo.cbz" (SrcRequest {| url := "/foo.cbz" |}) (-1))
                  (Some "chunkByChunk"))
             (fetch_schedule sample_answers [x50; x4b]%byte [[x03; x04]%byte]) in
  (pipeline s = NotBinding -> getArrayBuffer (book s) = None)
  /\ (observed s <> [] -> getArrayBuffer (book s) = Some (concat (observed s))).
Proof.
  apply (X16_book_and_binder_hold_the_same_bytes "foo.cbz"
           (SrcRequest {| url := "/foo.cbz" |}) (-1) (Some "chunkByChunk")
           (fetch_schedule sample_answers [x50; x4b]%byte [[x03; x04]%byte])).
  vm_compute. repeat (constructor; [exact (fun H => H)|]). constructor.
Defined.

(** ** The events a subscriber sees *)

Lemma step_log_inv s i : log_inv s -> log_inv (step s i).
Proof.
  unfold log_inv, logged_pages. intros (Hl & Hb & Hp).
  destruct i; step_cases;
    rewrite ?omap_app, ?elem_of_app, ?list_elem_of_singleton, ?Hp;
    cbn -[fresh dom insert]; rewrite ?app_nil_r;
    split_and!; try done; try tauto; intuition (first [done | congruence]).
Qed.

Lemma run_log_inv ins : forall s, log_inv s -> log_inv (run s ins).
Proof.
  induction ins as [|i ins IH]; intros s Hinv; [done|].
  rewrite run_cons. by apply IH, step_log_inv.
Qed.

(** X17: on every run of a new Book, [isFinishedLoading()] is true
    exactly when a loading-complete event was dispatched,
    [isFinishedBinding()] exactly when a binding-complete event was, and
    the pages are those of the page-extracted events dispatched, in their
    order. *)
Theorem X17_events_mirror_the_state nm src size mode ins :
  let s := run (new_state (Book_fields nm src size) mode) ins in
  (isFinishedLoading (book s) = true <-> BookLoadingCompleteEvent ∈ dispatched s)
  /\ (isFinishedBinding (book s) = true <-> BookBindingCompleteEvent ∈ dispatched s)
  /\ pages (book s) = logged_pages (dispatched s)
  /\ getNumberOfPagesReady (book s) = length (logged_pages (dispatched s)).
Proof.
  intros s.
  assert (Hinv : log_inv s).
  { apply run_log_inv. unfold log_inv. simpl. split_and!; [| |done];
      (split; [done|]); by intros ?%elem_of_nil. }
  destruct Hinv as (Hl & Hb & Hp).
  unfold isFinishedLoading, isFinishedBinding, getNumberOfPagesReady.
  by rewrite Hp.
Qed.

(** ** What [needsLoading()] and a fulfilled load promise tell *)

Lemma step_needsLoading s i :
  needsLoading (book (step s i))
  = needsLoading (book s) && negb (started (call_outcome s i)).
Proof.
  destruct i; unfold call_outcome, started; step_cases;
    rewrite ?andb_true_r, ?andb_false_r; try done;
    by destruct (needsLoading (book _)).
Qed.

Lemma step_untouched s i :
  needsLoading (book (step s i)) = true ->
  quiet s /\ loader s = NoLoader /\ arrayBuffer (book s) = None
  /\ startedBinding (book s) = false /\ loadPromise s = NotCreated
  /\ pages (book s) = [] ->
  quiet (step s i) /\ loader (step s i) = NoLoader
  /\ arrayBuffer (book (step s i)) = None
  /\ startedBinding (book (step s i)) = false
  /\ loadPromise (step s i) = NotCreated
  /\ pages (book (step s i)) = [].
Proof.
  unfold quiet. intros Hn ((Hd & Hli & Hpi & Hmi) & Hlo & Hab & Hst & Hp & Hpg).
  destruct i; step_cases; try done; split_and?; congruence.
Qed.

Lemma run_needsLoading_started ins : forall s,
  needsLoading (book (run s ins))
  = needsLoading (book s) && (started_calls s ins =? 0)%nat.
Proof.
  induction ins as [|i ins IH]; intros s.
  - simpl. by rewrite andb_true_r.
  - rewrite run_cons, IH, step_needsLoading. simpl.
    destruct (started (call_outcome s i)); simpl.
    + by rewrite !andb_false_r.
    + by rewrite andb_true_r.
Qed.

(** X18: on every run of a new Book, [needsLoading()] is true exactly as
    long as no call of [load()] or of a loader has got past its guards,
    and until then nothing was dispatched, the Book holds no bytes and no
    page, binding has not started and there is no load promise. *)
Theorem X18_needsLoading_until_a_load_starts nm src size mode ins :
  let s := run (new_state (Book_fields nm src size) mode) ins in
  (needsLoading (book s) = true <->
   started_calls (new_state (Book_fields nm src size) mode) ins = 0%nat)
  /\ (needsLoading (book s) = true ->
      dispatched s = [] /\ getArrayBuffer (book s) = None
      /\ getNumberOfPagesReady (book s) = 0%nat
      /\ startedBinding (book s) = false /\ pipeline s = NotBinding
      /\ loadPromise s = NotCreated).
Proof.
  cbv zeta. split.
  - rewrite run_needsLoading_started. simpl.
    destruct (Nat.eqb_spec
                (started_calls (new_state (Book_fields nm src size) mode) ins) 0);
      split; intros; try done; lia.
  - induction ins as [|i ins IH] using rev_ind; [done|].
    rewrite run_snoc. intros Hn.
    assert (Hprev : needsLoading
                      (book (run (new_state (Book_fields nm src size) mode) ins)) = true).
    { rewrite step_needsLoading in Hn. by apply andb_true_iff in Hn as [? _]. }
    assert (Hinv : forall ins,
              needsLoading (book (run (new_state (Book_fields nm src size) mode) ins))
              = true ->
              let s := run (new_state (Book_fields nm src size) mode) ins in
              quiet s /\ loader s = NoLoader /\ arrayBuffer (book s) = None
              /\ startedBinding (book s) = false /\ loadPromise s = NotCreated
              /\ pages (book s) = []).
    { clear. induction ins as [|i ins IH] using rev_ind; [by unfold quiet|].
      rewrite run_snoc. intros Hn. apply step_untouched; [done|]. apply IH.
      rewrite step_needsLoading in Hn. by apply andb_true_iff in Hn as [? _]. }
    specialize (Hinv (ins ++ [i])). rewrite run_snoc in Hinv.
    destruct (Hinv Hn) as ((Hd & _ & Hpi & _) & _ & Hab & Hst & Hp & Hpg).
    unfold getArrayBuffer, getNumberOfPagesReady. by rewrite Hpg.
Qed.

Lemma step_fulfilled_loaded s i :
  (loadPromise s = Fulfilled -> finishedLoading (book s) = true) ->
  loadPromise (step s i) = Fulfilled -> finishedLoading (book (step s i)) = true.
Proof.
  intros Hinv. destruct i; step_cases; try done; try congruence; auto.
Qed.

(** X19: on every run of a new Book, whichever loader is used, when the
    load promise is fulfilled the Book is marked as loaded, the
    loading-complete event was dispatched and [needsLoading()] is
    false. *)
Theorem X19_a_fulfilled_load_is_a_finished_one nm src size mode ins :
  let s := run (new_state (Book_fields nm src size) mode) ins in
  loadPromise s = Fulfilled ->
  isFinishedLoading (book s) = true
  /\ BookLoadingCompleteEvent ∈ dispatched s
  /\ needsLoading (book s) = false.
Proof.
  intros s Hp.
  assert (Hfin : finishedLoading (book s) = true).
  { revert Hp. subst s. induction ins as [|i ins IH] using rev_ind; [done|].
    rewrite run_snoc. by apply step_fulfilled_loaded. }
  assert (Hlog : log_inv s).
  { apply run_log_inv. unfold log_inv. simpl. split_and!; [| |done];
      (split; [done|]); by intros ?%elem_of_nil. }
  split_and!; [done|by apply Hlog|].
  destruct (needsLoading (book s)) eqn:Hn; [|done].
  apply run_promise_created in Hn. fold s in Hn. congruence.
Qed.

Lemma X19_a_fulfilled_load_is_a_finished_one_witness :
  let s := run (new_state (Book_fields "foo.cbz" SrcUndefined (-1)) None)
             (pump_schedule "foo.cbz" (Some 4) sample_answers
                [x50; x4b]%byte [] [[x03; x04]%byte]) in
  isFinishedLoading (book s) = true
  /\ BookLoadingCompleteEvent ∈ dispatched s
  /\ needsLoading (book s) = false.
Proof.
  apply (X19_a_fulfilled_load_is_a_finished_one "foo.cbz" SrcUndefined (-1) None
           (pump_schedule "foo.cbz" (Some 4) sample_answers
              [x50; x4b]%byte [] [[x03; x04]%byte])).
  vm_compute. reflexivity.
Defined.

(** ** Progress events of an XHR *)

Lemma step_to_XhrSent s i :
  loader (step s i) = XhrSent ->
  (pipeline s = NotBinding -> pipeline (step s i) = NotBinding)
  /\ ((loader s = XhrSent /\ needsLoading (book (step s i)) = needsLoading (book s))
      \/ (needsLoading (book s) = true /\ needsLoading (book (step s i)) = false)).
Proof.
  destruct i; step_cases; intros Hlo; try done; try congruence;
    (split;
     [ intros Hpi; try first [done|congruence]
     | try first [ by left
             | by right; split; [|done]; destruct (needsLoading (book _)) ] ]).
Qed.

Lemma step_xhr_idle s i :
  (needsLoading (book s) = true -> unloaded s) ->
  (loader s = XhrSent -> needsLoading (book s) = false /\ pipeline s = NotBinding) ->
  loader (step s i) = XhrSent ->
  needsLoading (book (step s i)) = false /\ pipeline (step s i) = NotBinding.
Proof.
  intros Hun Hxhr Hlo.
  destruct (step_to_XhrSent s i Hlo) as (Hpi & [[Hs ->]|[Hn ->]]).
  - destruct (Hxhr Hs). auto.
  - split; [done|]. apply Hpi. by destruct (Hun Hn) as (_ & _ & ? & _).
Qed.

Lemma step_expectedSize s i :
  expectedSize (book (step s i)) <> expectedSize (book s) ->
  loader s = XhrSent /\ is_Some (bookBinder (book s)).
Proof. destruct i; step_cases; intros; try done; eauto. Qed.

(** X20: progress events of the XHR precede its load event, and the
    Book has no Binder before the load event: in every state a run of a new
    Book reaches the progress handler of [loadFromXhr] changes nothing and
    dispatches nothing, and [#expectedSize] is what the constructor was
    given. *)
Theorem X20_xhr_progress_finds_no_binder nm src size mode ins loaded total :
  let s := run (new_state (Book_fields nm src size) mode) ins in
  step s (XhrProgress loaded total) = s
  /\ expectedSize (book s) = size.
Proof.
  intros s.
  assert (Hinv : forall ins,
            let s := run (new_state (Book_fields nm src size) mode) ins in
            (loader s = XhrSent ->
             needsLoading (book s) = false /\ pipeline s = NotBinding)
            /\ expectedSize (book s) = size).
  { clear. induction ins as [|i ins IH] using rev_ind; [done|].
    rewrite run_snoc. cbv zeta in *. destruct IH as [IH Hsize].
    set (s := run (new_state (Book_fields nm src size) mode) ins) in *.
    assert (Hbinder : binder_inv s).
    { apply run_binder_inv. unfold binder_inv. simpl. auto. }
    split.
    - apply step_xhr_idle; [|done].
      by apply (run_unloaded (Book_fields nm src size) mode ins).
    - destruct (Z.eq_dec (expectedSize (book (step s i))) (expectedSize (book s)))
        as [->|Hne]; [done|].
      destruct (step_expectedSize s i Hne) as (Hlo & [bb Hbb]).
      destruct (IH Hlo) as [_ Hpi]. destruct Hbinder as [_ Hnone].
      rewrite Hpi in Hnone. congruence. }
  destruct (Hinv ins) as [Hxhr Hsize]. fold s in Hxhr, Hsize. split; [|done].
  unfold step, on_xhr_progress.
  destruct (loader s) eqn:Hlo; try done.
  destruct Hxhr as [_ Hpi]; [done|].
  assert (Hbinder : binder_inv s).
  { apply run_binder_inv. unfold binder_inv. simpl. auto. }
  destruct Hbinder as [_ Hnone]. rewrite Hpi in Hnone. by rewrite Hnone.
Qed.

(** ** Resolution of a load by XHR or from a file *)

Lemma step_oneshot_inv s i : oneshot_inv s -> oneshot_inv (step s i).
Proof.
  intros (Hn & Hre & Hmi & Hcase).
  destruct (loader s) eqn:Hlo; try done; destruct_and?;
    destruct (loadPromise s) eqn:Hp; try done; destruct_and?;
    repeat match goal with H : ex _ |- _ => destruct H as [? H] end; subst;
    destruct i; unfold_handlers; bytes_facts s;
    cbn -[fresh dom insert oneshot_inv];
    rewrite ?startBookBinding_eq, ?appendBytes_eq; bytes_facts s;
    cbn -[fresh dom insert oneshot_inv];
    repeat (case_inner; simplify_eq;
            rewrite ?startBookBinding_eq, ?appendBytes_eq; bytes_facts s;
            cbn -[fresh dom insert oneshot_inv]);
    unfold oneshot_inv; cbn -[fresh dom insert]; bytes_facts s;
    cbn -[fresh dom insert]; split_and?; eauto.
Qed.

Lemma run_oneshot_inv ins : forall s, oneshot_inv s -> oneshot_inv (run s ins).
Proof.
  induction ins as [|i ins IH]; intros s Hinv; [done|].
  rewrite run_cons. by apply IH, step_oneshot_inv.
Qed.

(** X21: after a call of [loadFromXhr()] or [loadFromFile()] that got
    past its guards, in every state a run reaches, the load promise
    exists; it is fulfilled exactly when the Book is marked as loaded; and
    when it is rejected, the reason is an error of the transport (the XHR,
    or [getFile()] of the handle), the Book holds no bytes and binding was
    not started. *)
Theorem X21_xhr_and_file_loads_fail_empty_handed nm src size mode call ins :
  call = CallLoadFromXhr \/ call = CallLoadFromFile ->
  started (call_outcome (new_state (Book_fields nm src size) mode) call) = true ->
  let s := run (new_state (Book_fields nm src size) mode) (call :: ins) in
  (loadPromise s = Fulfilled <-> isFinishedLoading (book s) = true)
  /\ (forall e, loadPromise s = RejectedWith e ->
        (exists err, e = External err)
        /\ getArrayBuffer (book s) = None /\ pipeline s = NotBinding)
  /\ loadPromise s <> NotCreated.
Proof.
  intros Hcall Hst s.
  assert (Hinv : oneshot_inv s).
  { subst s. rewrite run_cons. apply run_oneshot_inv.
    destruct Hcall as [-> | ->]; unfold call_outcome, started in Hst;
      unfold step, loadFromXhr, loadFromFile, read_file, oneshot_inv in *;
      simpl in *;
      repeat (case_inner; simplify_eq; simpl in * ); try done;
      split_and?; eauto. }
  destruct Hinv as (Hn & Hre & Hmi & Hcase).
  unfold isFinishedLoading, getArrayBuffer.
  destruct (loader s); try done; destruct_and?;
    destruct (loadPromise s); try done; destruct_and?;
    (split_and!; [split; congruence| |done]);
    intros ? [= <-]; eauto.
Qed.

Lemma X21_xhr_and_file_loads_fail_empty_handed_witness :
  let s := run (new_state (Book_fields "foo.cbz" (SrcString "https://example.org/foo.cbz") (-1))
                  None)
             (CallLoadFromXhr :: [XhrError "404"]) in
  (loadPromise s = Fulfilled <-> isFinishedLoading (book s) = true)
  /\ (forall e, loadPromise s = RejectedWith e ->
        (exists err, e = External err)
        /\ getArrayBuffer (book s) = None /\ pipeline s = NotBinding)
  /\ loadPromise s <> NotCreated.
Proof.
  apply (X21_xhr_and_file_loads_fail_empty_handed "foo.cbz"
           (SrcString "https://example.org/foo.cbz") (-1) None CallLoadFromXhr
           [XhrError "404"]).
  - left. reflexivity.
  - vm_compute. reflexivity.
Defined.

(** ** Metadata and the Binder *)

Lemma step_metadata_latch s i :
  is_Some (bookMetadata (book s)) -> is_Some (bookMetadata (book (step s i))).
Proof. intros Hmd. destruct i; step_cases; eauto. Qed.

Lemma step_listening_metadata s i :
  (listening s = true -> is_Some (bookMetadata (book s))) ->
  listening (step s i) = true -> is_Some (bookMetadata (book (step s i))).
Proof.
  intros Hinv. destruct (listening s) eqn:Hli.
  - intros _. by apply step_metadata_latch, Hinv.
  - clear Hinv. destruct i; step_cases; try done; try congruence; eauto.
Qed.

Lemma step_listening_binder s i :
  match pipeline s with
  | AwaitingStart _ | Bound => listening s = true
  | _ => True
  end ->
  match pipeline (step s i) with
  | AwaitingStart _ | Bound => listening (step s i) = true
  | _ => True
  end.
Proof.
  intros Hinv.
  destruct (pipeline s) eqn:Hpi;
    destruct i; unfold_handlers; rewrite ?Hinv; state_facts s;
    cbn -[fresh dom insert];
    rewrite ?startBookBinding_eq, ?appendBytes_eq; rewrite ?Hinv; state_facts s;
    cbn -[fresh dom insert];
    repeat (case_inner; simplify_eq;
            rewrite ?startBookBinding_eq, ?appendBytes_eq; rewrite ?Hinv;
            state_facts s; cbn -[fresh dom insert]);
    try done.
Qed.

(** X22: on every run of a new Book, from the moment the listeners of
    the Binder are registered [getMetadata()] returns a record, so it does
    whenever the Book holds its Binder; and once it returns a record it
    does so on every continuation. *)
Theorem X22_metadata_is_there_once_the_binder_is nm src size mode ins :
  let s := run (new_state (Book_fields nm src size) mode) ins in
  (listening s = true -> is_Some (getMetadata (book s)))
  /\ (is_Some (bookBinder (book s)) -> is_Some (getMetadata (book s)))
  /\ (forall more, is_Some (getMetadata (book s)) ->
        is_Some (getMetadata (book (run s more)))).
Proof.
  intros s. unfold getMetadata.
  assert (Hinv : (listening s = true -> is_Some (bookMetadata (book s)))
                 /\ match pipeline s with
                    | AwaitingStart _ | Bound => listening s = true
                    | _ => True
                    end).
  { subst s. induction ins as [|i ins IH] using rev_ind; [done|].
    rewrite run_snoc. destruct IH as [IH1 IH2]. split.
    - by apply step_listening_metadata.
    - by apply step_listening_binder. }
  destruct Hinv as [Hli Hpi].
  split_and!; [done| |].
  - intros Hbb. apply Hli.
    assert (Hbinder : binder_inv s).
    { apply run_binder_inv. unfold binder_inv. simpl. auto. }
    destruct Hbinder as [_ Hb].
    destruct (pipeline s); try done; rewrite Hb in Hbb; by destruct Hbb.
  - intros more. generalize s. clear.
    induction more as [|i more IH]; intros s Hmd; [done|].
    rewrite run_cons. by apply IH, step_metadata_latch.
Qed.
